(** * Verification of the 500-hPa gallery notebooks

    Two notebooks are embedded here:

    - [pages/gallery/500hPa_Vorticity_Advection.ipynb] (below: the
      vorticity notebook), which reads a NAM analysis through the THREDDS
      catalog and the NetCDF subset service, selects the 500-hPa fields by
      position, derives absolute vorticity and its advection with MetPy and
      draws the map;
    - the xarray notebook, which opens the same product through OPeNDAP,
      selects by coordinate label and draws a height map.

    Python statements become functions on an explicit interpreter state
    (the global namespace, a dictionary, and the current figure); a raised
    exception is a value of the error monad [result].  Calls into NumPy,
    SciPy, pint, MetPy, netCDF4 and xarray whose meaning the notebooks rely
    on are written out (exact-match search, indexing, label selection, the
    Gaussian filter, unit tagging); the physical formulas of MetPy and the
    remote services are operations of the interface [CalcLib]. *)

From Stdlib Require Import ZArith QArith Qround String Ascii List DecimalString Lia.
From Stdlib Require Import DecimalNat.
From stdpp Require Import gmap strings list.


(* ===================================================================== *)
(** * Part I: the embedding                                              *)
(* ===================================================================== *)

(** ** Exceptions and the error monad *)

Inductive exn : Type :=
  | IndexError            (* sequence index out of range *)
  | KeyError              (* missing dictionary key or coordinate label *)
  | NameError             (* unbound global *)
  | TypeError             (* operand of the wrong kind *)
  | AttributeError        (* missing attribute *)
  | ValueError
  | DimensionalityError   (* pint: incompatible units *)
  | FetchError.           (* network or service failure *)

Inductive result (A : Type) : Type :=
  | Ok (a : A)
  | Raise (e : exn).
Arguments Ok {A} a.
Arguments Raise {A} e.

(** Sequencing: the first exception raised aborts the rest of the cell.
    The instances give the notation [x ← r; k]. *)
#[export] Instance result_ret : MRet result := fun A a => Ok a.
#[export] Instance result_bind : MBind result := fun A B k r =>
  match r with
  | Ok a => k a
  | Raise e => Raise e
  end.
#[export] Instance result_fmap : FMap result := fun A B f r =>
  match r with
  | Ok a => Ok (f a)
  | Raise e => Raise e
  end.

Definition of_option {A} (e : exn) (o : option A) : result A :=
  match o with
  | Some a => Ok a
  | None => Raise e
  end.

Definition is_ok {A} (r : result A) : bool :=
  match r with Ok _ => true | Raise _ => false end.

(** ** Dates and [strftime] *)

Module Strftime.

(** [datetime(year, month, day, hour=0, minute=0, second=0, microsecond=0)] *)
Record datetime : Type := mk_datetime {
  year : nat;
  month : nat;
  day : nat;
  hour : nat;
  minute : nat;
  second : nat;
  microsecond : nat
}.

(** Bounds that hold of every date the constructor [datetime(...)]
    accepts ([MINYEAR = 1], [MAXYEAR = 9999], a day of at most 31, a time
    of day); it raises [ValueError] outside them. *)
Definition in_range (dt : datetime) : Prop :=
  (1 <= Z.of_nat (year dt) <= 9999)%Z /\ (1 <= month dt <= 12)%nat /\
  (1 <= day dt <= 31)%nat /\ (hour dt <= 23)%nat /\
  (minute dt <= 59)%nat /\ (second dt <= 59)%nat /\
  (Z.of_nat (microsecond dt) <= 999999)%Z.

Definition str_nat (n : nat) : string :=
  NilEmpty.string_of_uint (Nat.to_uint n).

Fixpoint zeros (k : nat) : string :=
  match k with
  | O => ""
  | S k' => String "0" (zeros k')
  end.

(** Decimal representation, zero-padded on the left to [width] digits. *)
Definition zfill (width : nat) (s : string) : string :=
  zeros (width - String.length s) +:+ s.

(** One conversion directive.  CPython hands the format to the C
    library; on glibc, where the notebooks are run, [%Y] is the year
    without padding (a year below 1000 has fewer than four digits) and
    [%m], [%d], [%H], [%M], [%S] are padded to two digits. *)
Definition directive (c : ascii) (dt : datetime) : option string :=
  if Ascii.eqb c "Y" then Some (str_nat (year dt))
  else if Ascii.eqb c "m" then Some (zfill 2 (str_nat (month dt)))
  else if Ascii.eqb c "d" then Some (zfill 2 (str_nat (day dt)))
  else if Ascii.eqb c "H" then Some (zfill 2 (str_nat (hour dt)))
  else if Ascii.eqb c "M" then Some (zfill 2 (str_nat (minute dt)))
  else if Ascii.eqb c "S" then Some (zfill 2 (str_nat (second dt)))
  else if Ascii.eqb c "%" then Some "%"
  else None.

(** [format(dt, fmt)], i.e. [dt.strftime(fmt)], which is what the
    replacement field [{dt:fmt}] of an f-string evaluates to.  A directive
    this model does not know is copied unchanged. *)
Fixpoint strftime (fmt : string) (dt : datetime) : string :=
  match fmt with
  | EmptyString => ""
  | String c rest =>
      if Ascii.eqb c "%" then
        match rest with
        | EmptyString => "%"
        | String d rest' =>
            match directive d dt with
            | Some s => s +:+ strftime rest' dt
            | None => String c (String d (strftime rest' dt))
            end
        end
      else String c (strftime rest dt)
  end.

End Strftime.

(** ** Data acquisition: the two access paths *)

Module Acquire.
Import Strftime.

(** Vorticity notebook:
    [base_url = 'https://www.ncei.noaa.gov/thredds/catalog/model-namanl-old/'],
    [TDSCatalog(f'{base_url}{dt:%Y%m}/{dt:%Y%m%d}/catalog.xml')]. *)
Definition catalog_base_url : string :=
  "https://www.ncei.noaa.gov/thredds/catalog/model-namanl-old/".

Definition catalog_url_from (base_url : string) (dt : datetime) : string :=
  base_url +:+ strftime "%Y%m" dt +:+ "/" +:+ strftime "%Y%m%d" dt
    +:+ "/catalog.xml".

Definition catalog_url (dt : datetime) : string :=
  catalog_url_from catalog_base_url dt.

(** [cat.datasets[f'namanl_218_{dt:%Y%m%d}_{dt:%H}00_000.grb']] *)
Definition catalog_dataset_key (dt : datetime) : string :=
  "namanl_218_" +:+ strftime "%Y%m%d" dt +:+ "_" +:+ strftime "%H" dt
    +:+ "00_000.grb".

(** xarray notebook:
    [base_url = 'https://www.ncei.noaa.gov/thredds/dodsC/model-namanl-old/'],
    [xr.open_dataset(f'{base_url}{dt:%Y%m}/{dt:%Y%m%d}/'
                     f'namanl_218_{dt:%Y%m%d}_{dt:%H}00_000.grb')]. *)
Definition opendap_base_url : string :=
  "https://www.ncei.noaa.gov/thredds/dodsC/model-namanl-old/".

Definition opendap_url_from (base_url : string) (dt : datetime) : string :=
  (base_url +:+ strftime "%Y%m" dt +:+ "/" +:+ strftime "%Y%m%d" dt +:+ "/")
  +:+ ("namanl_218_" +:+ strftime "%Y%m%d" dt +:+ "_" +:+ strftime "%H" dt
         +:+ "00_000.grb").

Definition opendap_url (dt : datetime) : string :=
  opendap_url_from opendap_base_url dt.

(** The date both notebooks hard-code: [datetime(2016, 4, 16, 18)]. *)
Definition dt0 : datetime := mk_datetime 2016 4 16 18 0 0 0.

(** The parts of the address of an archived product, named as the
    specification names them. *)
Definition archive_root : string := "https://www.ncei.noaa.gov/thredds/".
Definition model_id : string := "model-namanl-old".
Definition date_path (dt : datetime) : string :=
  strftime "%Y%m" dt +:+ "/" +:+ strftime "%Y%m%d" dt +:+ "/".
Definition dataset_name (dt : datetime) : string :=
  "namanl_218_" +:+ strftime "%Y%m%d" dt +:+ "_" +:+ strftime "%H" dt
    +:+ "00_000.grb".

(** Splitting a URL at a separator character, as a client resolving the
    path does. *)
Fixpoint split_on (sep : ascii) (s : string) : list string :=
  match s with
  | EmptyString => [""]
  | String c rest =>
      if Ascii.eqb c sep then "" :: split_on sep rest
      else match split_on sep rest with
           | [] => [String c ""]
           | seg :: segs => String c seg :: segs
           end
  end.

(** The character [c] occurs in [s]. *)
Fixpoint mentions (c : ascii) (s : string) : bool :=
  match s with
  | EmptyString => false
  | String d rest => (Ascii.eqb d c || mentions c rest)%bool
  end.

(** The archived product an access path leads to: server, model
    directory, month and day directories, file. *)
Record product : Type := Product {
  p_host : string;
  p_model : string;
  p_month_dir : string;
  p_day_dir : string;
  p_dataset : string
}.

(** Strategy (b): the catalog document of the day directory, and in it
    the entry named by the dataset key. *)
Definition catalog_product (dt : datetime) : option product :=
  match split_on "/" (catalog_url dt) with
  | [_; _; host; _; _; model; ym; ymd; _] =>
      Some (Product host model ym ymd (catalog_dataset_key dt))
  | _ => None
  end.

(** Strategy (a): the file addressed by the OPeNDAP URL. *)
Definition opendap_product (dt : datetime) : option product :=
  match split_on "/" (opendap_url dt) with
  | [_; _; host; _; _; model; ym; ymd; name] =>
      Some (Product host model ym ymd name)
  | _ => None
  end.

End Acquire.

(** ** Units: pint quantities *)

Module Pint.

(** A unit is pint's [UnitsContainer]: canonical unit name to non-zero
    exponent.  The notebooks only write coherent SI units. *)
Abbreviation pint_unit := (gmap string Z).

(** The registry's aliases for the names the notebooks use. *)
Definition canonical_name (s : string) : result string :=
  if (String.eqb s "m" || String.eqb s "meter" || String.eqb s "metre")%bool
  then Ok "meter"
  else if (String.eqb s "s" || String.eqb s "sec" || String.eqb s "second")%bool
  then Ok "second"
  else Raise KeyError.

Definition unit_mul (u v : pint_unit) : pint_unit :=
  union_with (fun a b => if (a + b =? 0)%Z then None else Some (a + b)%Z) u v.

Definition unit_named (s : string) (e : Z) : result pint_unit :=
  n ← canonical_name s; Ok {[ n := e ]}.

Fixpoint denominators (names : list string) : result pint_unit :=
  match names with
  | [] => Ok ∅
  | n :: rest =>
      u ← unit_named n (-1);
      us ← denominators rest;
      Ok (unit_mul u us)
  end.

(** [units('m/s')], [units('1/sec')], [units('1/s')]: a numerator that is
    [1] or a unit name, divided by unit names. *)
Definition parse_units (s : string) : result pint_unit :=
  match Acquire.split_on "/" s with
  | [] => Raise ValueError
  | num :: dens =>
      n ← (if String.eqb num "1" then Ok ∅ else unit_named num 1);
      d ← denominators dens;
      Ok (unit_mul n d)
  end.

(** [units.meter] *)
Definition units_meter : pint_unit := {[ "meter" := 1%Z ]}.
(** The value of [units('m/s')]. *)
Definition units_m_s : pint_unit := {[ "meter" := 1%Z; "second" := (-1)%Z ]}.
(** The value of [units('1/sec')] and of [units('1/s')]. *)
Definition units_per_s : pint_unit := {[ "second" := (-1)%Z ]}.

Record quantity (A : Type) : Type := Quantity {
  magnitude : A;       (* [q.m] *)
  q_units : pint_unit  (* [q.units] *)
}.
Arguments Quantity {A} magnitude q_units.
Arguments magnitude {A} q.
Arguments q_units {A} q.

(** [x * units.meter], [units('m/s') * x]: a bare array times a unit is
    the quantity with that array as magnitude. *)
Definition tag {A} (u : pint_unit) (x : A) : quantity A := Quantity x u.

(** [q.to(dst)].  The registry returns the value unchanged when source
    and destination units are the same ([if src == dst: return value]);
    otherwise the magnitude goes through the registry's conversion
    [convert src dst], which raises on incompatible dimensions. *)
Definition to_ {A} (convert : pint_unit -> pint_unit -> A -> result A)
    (q : quantity A) (dst : pint_unit) : result (quantity A) :=
  if decide (q_units q = dst) then Ok q
  else m ← convert (q_units q) dst (magnitude q); Ok (Quantity m dst).

(** [q1 + q2]: the right operand is brought to the left one's units. *)
Definition qadd {A} (convert : pint_unit -> pint_unit -> A -> result A)
    (add : A -> A -> A) (q1 q2 : quantity A) : result (quantity A) :=
  q2' ← to_ convert q2 (q_units q1);
  Ok (Quantity (add (magnitude q1) (magnitude q2')) (q_units q1)).

(** [q * c] for a plain number [c]. *)
Definition qscale {A} (scale : Q -> A -> A) (c : Q) (q : quantity A) : quantity A :=
  Quantity (scale c (magnitude q)) (q_units q).

End Pint.

(** ** [scipy.ndimage.gaussian_filter] on a 2-D array *)

Module Ndimage.

(** The algorithm of [scipy.ndimage.gaussian_filter] over exact rational
    numbers.  SciPy computes in IEEE double precision, so this is a
    reference for what does not depend on rounding, the shape of the
    result; the values SciPy returns differ from the exact ones in the
    last bits, and [int(4.0 * sd + 0.5)] is taken of the rounded sum
    there, of the exact one here. *)
Abbreviation field := (list (list Q)).

Definition Qsum (l : list Q) : Q := fold_right Qplus 0%Q l.

(** Python's [int(x)]: truncation towards zero. *)
Definition py_int (x : Q) : Z :=
  if Qle_bool 0 x then Qfloor x else Qceiling x.

(** Index of the sample that mode ['reflect'] (d c b a | a b c d | d c b a)
    supplies at position [i] of a line of [n] samples. *)
Definition reflect (n : nat) (i : Z) : nat :=
  let p := (2 * Z.of_nat n)%Z in
  let m := (i mod p)%Z in
  if (m <? Z.of_nat n)%Z then Z.to_nat m else Z.to_nat (p - 1 - m).

Section Kernel.
(** [numpy.exp] *)
Variable exp_ : Q -> Q.

(** [_gaussian_kernel1d(sigma, 0, radius)]:
    [x = arange(-radius, radius+1)],
    [phi_x = exp(-0.5 / sigma2 * x ** 2)], [phi_x / phi_x.sum()]. *)
Definition phi_x (sigma : Q) (radius : nat) : list Q :=
  let sigma2 := (sigma * sigma)%Q in
  map (fun k : nat =>
         let x := inject_Z (Z.of_nat k - Z.of_nat radius) in
         exp_ (- (1 # 2) / sigma2 * (x * x))%Q)
      (seq 0 (2 * radius + 1)).

Definition gaussian_kernel1d (sigma : Q) (radius : nat) : list Q :=
  let phi := phi_x sigma radius in
  let s := Qsum phi in
  map (fun p => (p / s)%Q) phi.

(** [correlate1d(line, weights, mode='reflect', origin=0)]:
    [out(i) = sum_j weights(j) * line(i + j - len(weights) // 2)]. *)
Definition correlate_at (weights : list Q) (n : nat) (sample : nat -> Q)
    (i : nat) : Q :=
  let size1 := (length weights / 2)%nat in
  Qsum (imap (fun j w =>
                (w * sample (reflect n (Z.of_nat i + Z.of_nat j - Z.of_nat size1)))%Q)
             weights).

Definition correlate1d (weights : list Q) (line : list Q) : list Q :=
  map (correlate_at weights (length line) (fun k => nth k line 0%Q))
      (seq 0 (length line)).

(** The same correlation along axis 0 of a 2-D array: row [i] of the
    result combines the rows around [i], column by column. *)
Definition correlate_axis0 (weights : list Q) (f : field) : field :=
  imap (fun i row =>
          map (fun c =>
                 correlate_at weights (length f)
                   (fun k => nth c (nth k f []) 0%Q) i)
              (seq 0 (length row)))
       f.

Definition correlate_axis1 (weights : list Q) (f : field) : field :=
  map (correlate1d weights) f.

(** [gaussian_filter1d]: [lw = int(truncate * sd + 0.5)] with
    [truncate = 4.0], weights [_gaussian_kernel1d(sigma, 0, lw)[::-1]]. *)
Definition kernel_radius (sigma : Q) : nat :=
  Z.to_nat (py_int (4 * sigma + (1 # 2))%Q).

Definition gaussian_weights (sigma : Q) : list Q :=
  rev (gaussian_kernel1d sigma (kernel_radius sigma)).

(** [gaussian_filter(input, sigma, order=0)]: every axis with
    [sigma > 1e-15] is filtered in turn, axis 0 then axis 1; when no
    axis qualifies the input is copied. *)
Definition gaussian_filter (sigma : Q) (f : field) : field :=
  if Qlt_le_dec (1 # 1000000000000000) sigma
  then correlate_axis1 (gaussian_weights sigma)
         (correlate_axis0 (gaussian_weights sigma) f)
  else f.

End Kernel.

(** [g] has as many rows as [f], each as long as the row of [f] it
    corresponds to: the arrays have the same shape. *)
Definition same_shape (g f : field) : Prop :=
  Forall2 (fun r' r => length r' = length r) g f.

End Ndimage.

(** ** Selection of a time and a level *)

Module Select.

Section Search.
Context {K : Type} (eqb : K -> K -> bool).

(** The positions of [index] whose entry equals [label], in increasing
    order, counted from [i]. *)
Fixpoint positions_from (i : nat) (index : list K) (label : K) : list nat :=
  match index with
  | [] => []
  | x :: rest =>
      if eqb x label then i :: positions_from (S i) rest label
      else positions_from (S i) rest label
  end.

Definition positions (index : list K) (label : K) : list nat :=
  positions_from 0 index label.
End Search.

(** [np.where(arr == v)[0]]: the array of the indices at which the
    comparison holds. *)
Definition np_where_eq (arr : list Q) (v : Q) : list nat :=
  positions Qeq_bool arr v.

(** [l[i]] for a non-negative [i]. *)
Definition getitem {A} (l : list A) (i : nat) : result A :=
  of_option IndexError (l !! i).

(** [v[t, l, :, :]] on a (time, level, y, x) variable whose 2-D slices
    have type [A]. *)
Definition getitem2 {A} (v : list (list A)) (t l : nat) : result A :=
  row ← getitem v t; getitem row l.

(** [lev_500 = np.where(ds.variables['isobaric'][:] == 500)[0][0]] *)
Definition find_level (isobaric : list Q) (level : Q) : result nat :=
  getitem (np_where_eq isobaric level) 0.

(** The positional path of the vorticity notebook for one variable:
    [var[0, lev_500, :, :]]. *)
Definition select_positional {A} (isobaric : list Q) (level : Q)
    (var : list (list A)) : result A :=
  lev ← find_level isobaric level; getitem2 var 0 lev.

(** *** Label-based selection ([xarray.DataArray.sel]) *)

(** A data variable on (time, level, y, x): the names of its dimensions,
    the coordinate values of the first two (times as nanoseconds since the
    epoch, [datetime64[ns]]) and the 2-D slices. *)
Record data_array (A : Type) : Type := DataArray {
  da_dims : list string;
  da_time : list Z;
  da_level : list Q;
  da_values : list (list A)
}.
Arguments DataArray {A} da_dims da_time da_level da_values.
Arguments da_dims {A} d.
Arguments da_time {A} d.
Arguments da_level {A} d.
Arguments da_values {A} d.

(** [pandas.Index.get_loc]: an integer for a label that occurs once,
    several positions for a repeated label, [KeyError] for an absent one.
    No [method=] is passed by the notebook, so there is no nearest-match
    or interpolating lookup. *)
Inductive loc : Type :=
  | LocInt (i : nat)
  | LocMany (js : list nat).

Definition get_loc {K} (eqb : K -> K -> bool) (index : list K) (label : K)
    : result loc :=
  match positions eqb index label with
  | [] => Raise KeyError
  | [i] => Ok (LocInt i)
  | js => Ok (LocMany js)
  end.

Definition loc_positions (l : loc) : list nat :=
  match l with
  | LocInt i => [i]
  | LocMany js => js
  end.

(** What a selection returns: the dimension of a scalar label that occurs
    once is dropped, so two such labels leave a 2-D slice; a repeated
    label keeps its dimension. *)
Inductive selected (A : Type) : Type :=
  | Sel2D (slice : A)
  | SelND (block : list (list A)).
Arguments Sel2D {A} slice.
Arguments SelND {A} block.

Fixpoint take_at {A} (js : list nat) (l : list A) : result (list A) :=
  match js with
  | [] => Ok []
  | j :: rest => x ← getitem l j; xs ← take_at rest l; Ok (x :: xs)
  end.

Fixpoint take_each_at {A} (js : list nat) (rows : list (list A))
    : result (list (list A)) :=
  match rows with
  | [] => Ok []
  | r :: rest => r' ← take_at js r; rs ← take_each_at js rest; Ok (r' :: rs)
  end.

(** [da.sel(time1=t, isobaric=level)] *)
Definition sel_time1_isobaric {A} (da : data_array A) (t : Z) (level : Q)
    : result (selected A) :=
  match da_dims da with
  | d0 :: d1 :: _ =>
      if (String.eqb d0 "time1" && String.eqb d1 "isobaric")%bool then
        lt ← get_loc Z.eqb (da_time da) t;
        ll ← get_loc Qeq_bool (da_level da) level;
        match lt, ll with
        | LocInt i, LocInt j =>
            s ← getitem2 (da_values da) i j; Ok (Sel2D s)
        | _, _ =>
            rows ← take_at (loc_positions lt) (da_values da);
            block ← take_each_at (loc_positions ll) rows;
            Ok (SelND block)
        end
      else Raise ValueError
  | _ => Raise ValueError
  end.

(** The 2-D slice [s] is what the variable stores at time [t] and level
    [level]. *)
Definition stored_at {A} (times : list Z) (levels : list Q)
    (values : list (list A)) (t : Z) (level : Q) (s : A) : Prop :=
  exists i j x row,
    times !! i = Some t /\
    levels !! j = Some x /\ (x == level)%Q /\
    values !! i = Some row /\ row !! j = Some s.

(** The same for a time coordinate held as numeric offsets from an epoch,
    as a netCDF file has it. *)
Definition stored_at_offset {A} (offsets levels : list Q)
    (values : list (list A)) (t level : Q) (s : A) : Prop :=
  exists i j x y row,
    offsets !! i = Some x /\ (x == t)%Q /\
    levels !! j = Some y /\ (y == level)%Q /\
    values !! i = Some row /\ row !! j = Some s.

(** The shape of a (time, level, y, x) variable agrees with its
    coordinate arrays. *)
Definition well_shaped {T A} (times : list T) (levels : list Q)
    (values : list (list A)) : Prop :=
  length values = length times /\
  Forall (fun row => length row = length levels) values.

(** No two entries of a level coordinate are the same number. *)
Definition distinct_levels (levels : list Q) : Prop :=
  forall i j x y,
    levels !! i = Some x -> levels !! j = Some y -> (x == y)%Q -> i = j.

End Select.

(** ** The external collaborators

    What the notebooks call but do not define.  [arr] is a 2-D array of
    magnitudes as NumPy holds it; [pydatetime] is a decoded time. *)

Class CalcLib : Type := {
  arr : Type;
  pydatetime : Type;
  (** [scipy.ndimage.gaussian_filter(a, sigma=sigma, order=0)] on a bare array *)
  gaussian_filter : Q -> arr -> arr;
  (** [np.deg2rad] *)
  deg2rad : arr -> arr;
  (** [a + b] and [a * c] on magnitudes *)
  arr_add : arr -> arr -> arr;
  arr_scale : Q -> arr -> arr;
  (** the unit registry's conversion of a magnitude between different units *)
  convert : Pint.pint_unit -> Pint.pint_unit -> arr -> result arr;
  (** [metpy.calc] *)
  lat_lon_grid_deltas : arr -> arr -> Pint.quantity arr * Pint.quantity arr;
  coriolis_parameter : arr -> Pint.quantity arr;
  vorticity : Pint.quantity arr -> Pint.quantity arr ->
              Pint.quantity arr -> Pint.quantity arr -> Pint.quantity arr;
  advection : Pint.quantity arr -> list (Pint.quantity arr) ->
              Pint.quantity arr * Pint.quantity arr -> Pint.quantity arr;
  (** [netCDF4.num2date(values.squeeze(), units=...)] *)
  num2date : list Q -> string -> pydatetime;
  (** [datetime.utcfromtimestamp(ns.astype('O') / 1e9)] *)
  utcfromtimestamp : Z -> pydatetime;
  (** the [datetime64[ns]] label pandas looks a [datetime] up under *)
  timestamp_ns : pydatetime -> Z;
  (** [str(d)], what an f-string interpolates *)
  str_datetime : pydatetime -> string;
  str_datetimes : list pydatetime -> string;
  (** [np.meshgrid(x, y)] *)
  meshgrid : list Q -> list Q -> arr * arr;
  (** the number of inline labels a contour set ends up with *)
  label_count : arr -> list Q -> nat;
  (** the outcome of a call that configures the axes or adds an artist
      that is not a data layer ([set_extent], [coastlines], [add_feature],
      [clabel], [set_label]), by the name of the method *)
  axes_call : string -> result unit
}.

(** What MetPy documents about the units of its results. *)
Class CalcLibLaws (L : CalcLib) : Prop := {
  coriolis_units : forall a, Pint.q_units (coriolis_parameter a) = Pint.units_per_s;
  vorticity_units : forall u v dx dy,
    Pint.q_units u = Pint.units_m_s -> Pint.q_units v = Pint.units_m_s ->
    Pint.q_units (vorticity u v dx dy) = Pint.units_per_s
}.

(** ** Interpreter state *)

Module Py.
Import Strftime Pint Select.

Section WithLib.
Context {L : CalcLib}.

(** [ncss.query()] and what the notebook sets on it. *)
Record query : Type := Query {
  q_time : option datetime;
  q_accept : option string;
  q_variables : list string;
  q_lonlat : bool
}.

(** A variable of a [netCDF4.Dataset]. *)
Inductive nc_payload : Type :=
  | Coord1D (c : list Q)
  | Grid2D (a : arr)
  | Grid4D (v : list (list arr))
  | GridMapping.

Record nc_variable : Type := NcVariable {
  nc_dimensions : list string;
  nc_units : string;
  nc_attrs : list string;   (* the names of its other attributes *)
  nc_data : nc_payload
}.

(** [ds.variables] *)
Definition nc_dataset : Type := gmap string nc_variable.

(** The subset service of one catalog entry: a query in, a dataset out. *)
Definition ncss_service : Type := query -> result nc_dataset.

(** An [xarray.Dataset]: time-like and numeric coordinates, data
    variables, and the attribute names of the grid-mapping variable
    [LambertConformal_Projection] when it is there. *)
Record xr_dataset : Type := XrDataset {
  xr_times : gmap string (list Z);
  xr_coords : gmap string (list Q);
  xr_vars : gmap string (data_array arr);
  xr_projection : option (list string)
}.

(** The remote archive. *)
Record remote : Type := Remote {
  tds_catalog : string -> result (gmap string ncss_service);
  open_dataset : string -> result xr_dataset
}.

(** The builtins the notebooks call by name. *)
Inductive builtin : Type :=
  | BRange
  | BPrint.

(** Python values the notebooks bind to names. *)
Inductive value : Type :=
  | VArr (a : arr)
  | VQty (q : quantity arr)
  | VCoord (c : list Q)
  | VInt (n : nat)
  | VStr (s : string)
  | VDt (d : datetime)
  | VDate (d : pydatetime)
  | VDates (l : list pydatetime)
  | VCatalog (c : gmap string ncss_service)
  | VNcss (svc : ncss_service)
  | VQuery (q : query)
  | VNc (ds : nc_dataset)
  | VNcVar (v : nc_variable)
  | VXr (d : xr_dataset)
  | VSel (s : selected arr)
  | VContourSet (z : arr) (levels : list Q)
  | VBuiltin (b : builtin)
  | VOpaque (what : string).

(** What has been drawn. *)
Inductive layer : Type :=
  | Contour (x y z : arr) (levels : list Q)
  | Contourf (x y z : arr) (levels : list Q)
  | Barbs (x y u v : arr).

Record figure : Type := Figure {
  fig_titles : gmap string string;   (* [loc] to text *)
  fig_layers : list layer;           (* the data layers, in drawing order *)
  fig_decor : list string            (* what else was done to the axes *)
}.

(** The global namespace and the current figure. *)
Record state : Type := State {
  ns : gmap string value;
  fig : figure
}.

Definition initial : state := State ∅ (Figure ∅ [] []).

Definition stmt : Type := state -> result state.

(** [x = v] *)
Definition bind_name (x : string) (v : value) (s : state) : state :=
  State (<[x := v]> (ns s)) (fig s).

(** Reading the global [x]. *)
Definition lookup_name (x : string) (s : state) : result value :=
  of_option NameError (ns s !! x).

(** [x = e] for an expression [e] over the current state. *)
Definition assign (x : string) (e : state -> result value) : stmt :=
  fun s => v ← e s; Ok (bind_name x v s).

Definition draw (l : layer) (s : state) : state :=
  State (ns s)
    (Figure (fig_titles (fig s)) (fig_layers (fig s) ++ [l]) (fig_decor (fig s))).

(** A call that configures the axes or adds an artist other than a data
    layer. *)
Definition decorate (what : string) (s : state) : state :=
  State (ns s)
    (Figure (fig_titles (fig s)) (fig_layers (fig s)) (fig_decor (fig s) ++ [what])).

(** [receiver.method(...)] for such a call: the receiver is read, the
    library call may raise. *)
Definition axes_stmt (receiver method : string) : stmt := fun s =>
  _ ← lookup_name receiver s; _ ← axes_call method; Ok (decorate method s).

(** [plt.title(text, loc=loc)] *)
Definition set_title (loc text : string) (s : state) : state :=
  State (ns s)
    (Figure (<[loc := text]> (fig_titles (fig s))) (fig_layers (fig s))
       (fig_decor (fig s))).

(** Running statements in order. *)
Fixpoint run (prog : list stmt) (s : state) : result state :=
  match prog with
  | [] => Ok s
  | st :: rest => s' ← st s; run rest s'
  end.

(** [st] leaves the binding of [x] as it was. *)
Definition preserves (x : string) (st : stmt) : Prop :=
  forall s s', st s = Ok s' -> lookup_name x s' = lookup_name x s.

(** [st] leaves the title at [loc] as it was. *)
Definition keeps_title (loc : string) (st : stmt) : Prop :=
  forall s s', st s = Ok s' ->
    fig_titles (fig s') !! loc = fig_titles (fig s) !! loc.

(** [st] draws nothing and sets no title. *)
Definition keeps_figure (st : stmt) : Prop :=
  forall s s', st s = Ok s' -> fig s' = fig s.

(** Two states show the same figure and bind the names in [X] to the
    same values. *)
Definition alike (X : list string) (s s' : state) : Prop :=
  fig s = fig s' /\ forall x, In x X -> lookup_name x s = lookup_name x s'.

(** From states alike on [X], [st] succeeds on both or on neither, and
    leaves states alike on [Y]. *)
Definition transfers (X Y : list string) (st : stmt) : Prop :=
  forall s s' s1, alike X s s' -> st s = Ok s1 ->
    exists s1', st s' = Ok s1' /\ alike Y s1 s1'.

(** Dynamic casts. *)
Definition the_arr (v : value) : result arr :=
  match v with VArr a => Ok a | _ => Raise TypeError end.
Definition the_qty (v : value) : result (quantity arr) :=
  match v with VQty q => Ok q | _ => Raise TypeError end.
Definition the_int (v : value) : result nat :=
  match v with VInt n => Ok n | _ => Raise TypeError end.
Definition the_coord (v : value) : result (list Q) :=
  match v with VCoord c => Ok c | _ => Raise TypeError end.
Definition the_dt (v : value) : result datetime :=
  match v with VDt d => Ok d | _ => Raise TypeError end.
Definition the_str (v : value) : result string :=
  match v with VStr d => Ok d | _ => Raise TypeError end.
Definition the_dates (v : value) : result (list pydatetime) :=
  match v with VDates l => Ok l | _ => Raise TypeError end.
Definition the_catalog (v : value) : result (gmap string ncss_service) :=
  match v with VCatalog c => Ok c | _ => Raise TypeError end.
Definition the_ncss (v : value) : result ncss_service :=
  match v with VNcss c => Ok c | _ => Raise TypeError end.
Definition the_query (v : value) : result query :=
  match v with VQuery c => Ok c | _ => Raise TypeError end.
Definition the_nc (v : value) : result nc_dataset :=
  match v with VNc c => Ok c | _ => Raise TypeError end.
Definition the_ncvar (v : value) : result nc_variable :=
  match v with VNcVar c => Ok c | _ => Raise TypeError end.
Definition the_xr (v : value) : result xr_dataset :=
  match v with VXr c => Ok c | _ => Raise TypeError end.
Definition the_sel (v : value) : result (selected arr) :=
  match v with VSel c => Ok c | _ => Raise TypeError end.

(** [np.asarray(v)]: a quantity is stripped to its magnitude, a
    selected 2-D slice gives its values. *)
Definition asarray (v : value) : result arr :=
  match v with
  | VArr a => Ok a
  | VQty q => Ok (magnitude q)
  | VSel (Sel2D a) => Ok a
  | _ => Raise TypeError
  end.

(** [str(v)] inside an f-string. *)
Definition py_str (v : value) : result string :=
  match v with
  | VStr s => Ok s
  | VDate d => Ok (str_datetime d)
  | VDates l => Ok (str_datetimes l)
  | _ => Raise TypeError
  end.

(** The name a builtin is looked up under. *)
Definition builtin_name (b : builtin) : string :=
  match b with
  | BRange => "range"
  | BPrint => "print"
  end.

(** Reading a name the notebook does not bind itself: Python searches the
    global namespace first and the builtins after it. *)
Definition lookup_builtin (b : builtin) (s : state) : value :=
  default (VBuiltin b) (ns s !! builtin_name b).



(** [f(n)] as the iterable of a [for] loop.  The builtin [range] gives
    0, ..., n-1; [print(n)] returns [None], which cannot be iterated; no
    other value of this model can be called. *)
Definition call_range (f : value) (n : nat) : result (list nat) :=
  match f with
  | VBuiltin BRange => Ok (seq 0 n)
  | _ => Raise TypeError
  end.

(** [f(v)] as a statement.  The builtin [print] writes [str(v)] to the
    output stream; [range(v)] rejects what is not an integer; no other
    value of this model can be called. *)
Definition call_print (f : value) (v : value) : result unit :=
  match f with
  | VBuiltin BPrint => _ ← py_str v; Ok tt
  | _ => Raise TypeError
  end.

(** [v.a] for an attribute other than [units] and [dimensions]. *)
Definition has_attr (attrs : list string) (a : string) : result unit :=
  if existsb (String.eqb a) attrs then Ok tt else Raise AttributeError.

(** [np.arange(start, stop, step)] for integers and a positive step. *)
Definition arange (start stop step : Z) : list Q :=
  map (fun k : nat => inject_Z (start + Z.of_nat k * step))
      (seq 0 (Z.to_nat ((stop - start + step - 1) / step))).

(** [ds.variables[name]] *)
Definition nc_var (x : string) (name : string) (s : state) : result nc_variable :=
  v ← lookup_name x s; ds ← the_nc v; of_option KeyError (ds !! name).

Definition payload_2d (v : nc_variable) : result arr :=
  match nc_data v with Grid2D a => Ok a | _ => Raise IndexError end.
Definition payload_1d (v : nc_variable) : result (list Q) :=
  match nc_data v with Coord1D c => Ok c | _ => Raise IndexError end.
Definition payload_4d (v : nc_variable) : result (list (list arr)) :=
  match nc_data v with Grid4D c => Ok c | _ => Raise IndexError end.

(** The coordinates a (time, level, y, x) variable of [ds] is stored on,
    as netCDF defines them: the variables that its first two dimensions
    name.  Gives the name of the vertical dimension, the time offsets,
    the levels and the slices. *)
Definition nc_axes (ds : nc_dataset) (name : string)
    : option (string * list Q * list Q * list (list arr)) :=
  match ds !! name with
  | Some v =>
      match nc_dimensions v, nc_data v with
      | tdim :: ldim :: _, Grid4D values =>
          match ds !! tdim, ds !! ldim with
          | Some vt, Some vl =>
              match nc_data vt, nc_data vl with
              | Coord1D tc, Coord1D levels => Some (ldim, tc, levels, values)
              | _, _ => None
              end
          | _, _ => None
          end
      | _, _ => None
      end
  | None => None
  end.

End WithLib.
End Py.

(** ** The vorticity notebook *)

Module Vorticity.
Import Strftime Pint Select Py.

Section WithLib.
Context {L : CalcLib} (R : remote).

Definition hght_name : string := "Geopotential_height_isobaric".
Definition uwnd_name : string := "u-component_of_wind_isobaric".
Definition vwnd_name : string := "v-component_of_wind_isobaric".

(** *** Cell: data acquisition *)

(** [dt = datetime(2016, 4, 16, 18)] *)
Definition s_dt : stmt :=
  assign "dt" (fun _ => Ok (VDt Acquire.dt0)).

(** [base_url = 'https://www.ncei.noaa.gov/thredds/catalog/model-namanl-old/'] *)
Definition s_base_url : stmt :=
  assign "base_url" (fun _ => Ok (VStr Acquire.catalog_base_url)).

(** [cat = TDSCatalog(f'{base_url}{dt:%Y%m}/{dt:%Y%m%d}/catalog.xml')] *)
Definition s_cat : stmt :=
  assign "cat" (fun s =>
    b ← lookup_name "base_url" s; b ← the_str b;
    d ← lookup_name "dt" s; d ← the_dt d;
    c ← tds_catalog R (Acquire.catalog_url_from b d);
    Ok (VCatalog c)).

(** [ncss = cat.datasets[f'namanl_218_{dt:%Y%m%d}_{dt:%H}00_000.grb'].subset()] *)
Definition s_ncss : stmt :=
  assign "ncss" (fun s =>
    c ← lookup_name "cat" s; c ← the_catalog c;
    d ← lookup_name "dt" s; d ← the_dt d;
    svc ← of_option KeyError (c !! Acquire.catalog_dataset_key d);
    Ok (VNcss svc)).

(** [query = ncss.query()] *)
Definition s_query : stmt :=
  assign "query" (fun s =>
    n ← lookup_name "ncss" s; _ ← the_ncss n;
    Ok (VQuery (Query None None [] false))).

(** [query.time(dt)] *)
Definition s_query_time : stmt :=
  assign "query" (fun s =>
    q ← lookup_name "query" s; q ← the_query q;
    d ← lookup_name "dt" s; d ← the_dt d;
    Ok (VQuery (Query (Some d) (q_accept q) (q_variables q) (q_lonlat q)))).

(** [query.accept('netcdf')] *)
Definition s_query_accept : stmt :=
  assign "query" (fun s =>
    q ← lookup_name "query" s; q ← the_query q;
    Ok (VQuery (Query (q_time q) (Some "netcdf") (q_variables q) (q_lonlat q)))).

(** [query.variables('Geopotential_height_isobaric',
                     'u-component_of_wind_isobaric',
                     'v-component_of_wind_isobaric')] *)
Definition s_query_variables : stmt :=
  assign "query" (fun s =>
    q ← lookup_name "query" s; q ← the_query q;
    Ok (VQuery (Query (q_time q) (q_accept q)
                  (q_variables q ++ [hght_name; uwnd_name; vwnd_name])
                  (q_lonlat q)))).

(** [query.add_lonlat()] *)
Definition s_query_lonlat : stmt :=
  assign "query" (fun s =>
    q ← lookup_name "query" s; q ← the_query q;
    Ok (VQuery (Query (q_time q) (q_accept q) (q_variables q) true))).

(** [ds = ncss.get_data(query)] *)
Definition s_ds : stmt :=
  assign "ds" (fun s =>
    n ← lookup_name "ncss" s; n ← the_ncss n;
    q ← lookup_name "query" s; q ← the_query q;
    ds ← n q;
    Ok (VNc ds)).

(** [lon = ds.variables['lon'][:]], [lat = ds.variables['lat'][:]] *)
Definition s_lon : stmt :=
  assign "lon" (fun s => v ← nc_var "ds" "lon" s; a ← payload_2d v; Ok (VArr a)).
Definition s_lat : stmt :=
  assign "lat" (fun s => v ← nc_var "ds" "lat" s; a ← payload_2d v; Ok (VArr a)).

(** [times = ds.variables[ds.variables['Geopotential_height_isobaric'].dimensions[0]]] *)
Definition s_times : stmt :=
  assign "times" (fun s =>
    v ← nc_var "ds" hght_name s;
    d0 ← getitem (nc_dimensions v) 0;
    t ← nc_var "ds" d0 s;
    Ok (VNcVar t)).

(** [vtime = num2date(times[:].squeeze(), units=times.units)] *)
Definition s_vtime : stmt :=
  assign "vtime" (fun s =>
    t ← lookup_name "times" s; t ← the_ncvar t;
    c ← payload_1d t;
    Ok (VDate (num2date c (nc_units t)))).

(** [lev_500 = np.where(ds.variables['isobaric'][:] == 500)[0][0]] *)
Definition s_lev_500 : stmt :=
  assign "lev_500" (fun s =>
    v ← nc_var "ds" "isobaric" s; c ← payload_1d v;
    lev ← find_level c 500;
    Ok (VInt lev)).

(** [ds.variables[name][0, lev_500, :, :]] *)
Definition slice_500 (name : string) (s : state) : result arr :=
  v ← nc_var "ds" name s; g ← payload_4d v;
  lev ← lookup_name "lev_500" s; lev ← the_int lev;
  getitem2 g 0 lev.

(** [hght_500 = ds.variables['Geopotential_height_isobaric'][0, lev_500, :, :]] *)
Definition s_hght_500 : stmt :=
  assign "hght_500" (fun s => a ← slice_500 hght_name s; Ok (VArr a)).

(** [hght_500 = ndimage.gaussian_filter(hght_500, sigma=3, order=0) * units.meter] *)
Definition s_hght_500_smooth : stmt :=
  assign "hght_500" (fun s =>
    h ← lookup_name "hght_500" s; a ← asarray h;
    Ok (VQty (tag units_meter (gaussian_filter 3 a)))).

(** [uwnd_500 = units('m/s') * ds.variables['u-component_of_wind_isobaric'][0, lev_500, :, :]] *)
Definition s_uwnd_500 : stmt :=
  assign "uwnd_500" (fun s =>
    u ← parse_units "m/s"; a ← slice_500 uwnd_name s; Ok (VQty (tag u a))).

(** [vwnd_500 = units('m/s') * ds.variables['v-component_of_wind_isobaric'][0, lev_500, :, :]] *)
Definition s_vwnd_500 : stmt :=
  assign "vwnd_500" (fun s =>
    u ← parse_units "m/s"; a ← slice_500 vwnd_name s; Ok (VQty (tag u a))).

Definition acquisition_cell : list stmt :=
  [ s_dt; s_base_url; s_cat; s_ncss; s_query; s_query_time; s_query_accept;
    s_query_variables; s_query_lonlat; s_ds; s_lon; s_lat; s_times; s_vtime;
    s_lev_500; s_hght_500; s_hght_500_smooth; s_uwnd_500; s_vwnd_500 ].

(** *** Cell: calculations *)

(** [dx, dy = mpcalc.lat_lon_grid_deltas(lon, lat)] *)
Definition s_deltas : stmt := fun s =>
  lon ← lookup_name "lon" s; lon ← the_arr lon;
  lat ← lookup_name "lat" s; lat ← the_arr lat;
  let d := lat_lon_grid_deltas lon lat in
  Ok (bind_name "dy" (VQty (snd d)) (bind_name "dx" (VQty (fst d)) s)).

(** [f = mpcalc.coriolis_parameter(np.deg2rad(lat)).to(units('1/sec'))] *)
Definition s_f : stmt :=
  assign "f" (fun s =>
    lat ← lookup_name "lat" s; lat ← the_arr lat;
    u ← parse_units "1/sec";
    q ← to_ convert (coriolis_parameter (deg2rad lat)) u;
    Ok (VQty q)).

(** [avor = mpcalc.vorticity(uwnd_500, vwnd_500, dx, dy, dim_order='yx') + f] *)
Definition s_avor : stmt :=
  assign "avor" (fun s =>
    u ← lookup_name "uwnd_500" s; u ← the_qty u;
    v ← lookup_name "vwnd_500" s; v ← the_qty v;
    dx ← lookup_name "dx" s; dx ← the_qty dx;
    dy ← lookup_name "dy" s; dy ← the_qty dy;
    f ← lookup_name "f" s; f ← the_qty f;
    q ← qadd convert arr_add (vorticity u v dx dy) f;
    Ok (VQty q)).

(** [avor = ndimage.gaussian_filter(avor, sigma=3, order=0) * units('1/s')] *)
Definition s_avor_smooth : stmt :=
  assign "avor" (fun s =>
    a ← lookup_name "avor" s; a ← asarray a;
    u ← parse_units "1/s";
    Ok (VQty (tag u (gaussian_filter 3 a)))).

(** [vort_adv = mpcalc.advection(avor, [uwnd_500, vwnd_500], (dx, dy),
                                 dim_order='yx') * 1e9] *)
Definition s_vort_adv : stmt :=
  assign "vort_adv" (fun s =>
    a ← lookup_name "avor" s; a ← the_qty a;
    u ← lookup_name "uwnd_500" s; u ← the_qty u;
    v ← lookup_name "vwnd_500" s; v ← the_qty v;
    dx ← lookup_name "dx" s; dx ← the_qty dx;
    dy ← lookup_name "dy" s; dy ← the_qty dy;
    Ok (VQty (qscale arr_scale 1000000000 (advection a [u; v] (dx, dy))))).

Definition calculation_cell : list stmt :=
  [ s_deltas; s_f; s_avor; s_avor_smooth; s_vort_adv ].

(** *** Cell: map creation *)

(** [dproj = ds.variables['LambertConformal_Projection']] *)
Definition s_dproj : stmt :=
  assign "dproj" (fun s =>
    v ← nc_var "ds" "LambertConformal_Projection" s; Ok (VNcVar v)).

(** [globe = ccrs.Globe(ellipse='sphere', semimajor_axis=dproj.earth_radius,
                        semiminor_axis=dproj.earth_radius)] *)
Definition s_globe : stmt :=
  assign "globe" (fun s =>
    d ← lookup_name "dproj" s; v ← the_ncvar d;
    _ ← has_attr (nc_attrs v) "earth_radius";
    Ok (VOpaque "Globe")).

(** [datacrs = ccrs.LambertConformal(
        central_latitude=dproj.latitude_of_projection_origin,
        central_longitude=dproj.longitude_of_central_meridian,
        standard_parallels=[dproj.standard_parallel], globe=globe)] *)
Definition s_datacrs : stmt :=
  assign "datacrs" (fun s =>
    d ← lookup_name "dproj" s; v ← the_ncvar d;
    _ ← has_attr (nc_attrs v) "latitude_of_projection_origin";
    _ ← has_attr (nc_attrs v) "longitude_of_central_meridian";
    _ ← has_attr (nc_attrs v) "standard_parallel";
    _ ← lookup_name "globe" s; Ok (VOpaque "LambertConformal")).

(** [plotcrs = ccrs.LambertConformal(central_latitude=45., ...)] *)
Definition s_plotcrs : stmt :=
  assign "plotcrs" (fun _ => Ok (VOpaque "LambertConformal")).

(** [fig = plt.figure(1, figsize=(14., 12))], [gs = gridspec.GridSpec(...)],
    [ax = plt.subplot(gs[0], projection=plotcrs)] *)
Definition s_fig : stmt := assign "fig" (fun _ => Ok (VOpaque "Figure")).
Definition s_gs : stmt := assign "gs" (fun _ => Ok (VOpaque "GridSpec")).
Definition s_ax : stmt :=
  assign "ax" (fun s =>
    _ ← lookup_name "gs" s; _ ← lookup_name "plotcrs" s; Ok (VOpaque "GeoAxes")).

(** [plt.title(r'500-hPa Heights (m), AVOR$*10^5$ ($s^{-1}$), AVOR Adv$*10^8$ ($s^{-2}$)',
               loc='left')] *)
Definition s_title_left : stmt := fun s =>
  Ok (set_title "left"
        "500-hPa Heights (m), AVOR$*10^5$ ($s^{-1}$), AVOR Adv$*10^8$ ($s^{-2}$)" s).

(** [plt.title(f'VALID: {vtime}', loc='right')] *)
Definition s_title_right : stmt := fun s =>
  v ← lookup_name "vtime" s; t ← py_str v;
  Ok (set_title "right" ("VALID: " +:+ t) s).

(** [ax.set_extent([235., 290., 20., 58.], ccrs.PlateCarree())],
    [ax.coastlines('50m', edgecolor='black', linewidth=0.75)],
    [ax.add_feature(cfeature.STATES, linewidth=.5)] *)
Definition s_set_extent : stmt := axes_stmt "ax" "set_extent".
Definition s_coastlines : stmt := axes_stmt "ax" "coastlines".
Definition s_add_feature : stmt := axes_stmt "ax" "add_feature".

(** [clev500 = np.arange(5100, 6061, 60)] *)
Definition s_clev500 : stmt :=
  assign "clev500" (fun _ => Ok (VCoord (arange 5100 6061 60))).

(** [cs = ax.contour(lon, lat, hght_500.m, clev500, ...)] *)
Definition s_cs : stmt := fun s =>
  _ ← lookup_name "ax" s;
  lon ← lookup_name "lon" s; lon ← the_arr lon;
  lat ← lookup_name "lat" s; lat ← the_arr lat;
  h ← lookup_name "hght_500" s; h ← the_qty h;
  lv ← lookup_name "clev500" s; lv ← the_coord lv;
  Ok (bind_name "cs" (VContourSet (magnitude h) lv)
        (draw (Contour lon lat (magnitude h) lv) s)).

(** [plt.clabel(cs, fontsize=10, inline=1, ...)] *)
Definition s_clabel_cs : stmt := axes_stmt "cs" "clabel".

(** [clevvort500 = np.arange(-9, 50, 5)] *)
Definition s_clevvort500 : stmt :=
  assign "clevvort500" (fun _ => Ok (VCoord (arange (-9) 50 5))).

(** [cs2 = ax.contour(lon, lat, avor*10**5, clevvort500, ...)] *)
Definition s_cs2 : stmt := fun s =>
  _ ← lookup_name "ax" s;
  lon ← lookup_name "lon" s; lon ← the_arr lon;
  lat ← lookup_name "lat" s; lat ← the_arr lat;
  a ← lookup_name "avor" s; a ← the_qty a;
  lv ← lookup_name "clevvort500" s; lv ← the_coord lv;
  let z := magnitude (qscale arr_scale 100000 a) in
  Ok (bind_name "cs2" (VContourSet z lv) (draw (Contour lon lat z lv) s)).

(** [plt.clabel(cs2, fontsize=10, inline=1, ...)] *)
Definition s_clabel_cs2 : stmt := axes_stmt "cs2" "clabel".

(** [clev_avoradv = np.arange(-30, 31, 5)] *)
Definition s_clev_avoradv : stmt :=
  assign "clev_avoradv" (fun _ => Ok (VCoord (arange (-30) 31 5))).

(** [cf = ax.contourf(lon, lat, vort_adv.m, clev_avoradv[clev_avoradv != 0], ...)] *)
Definition s_cf : stmt := fun s =>
  _ ← lookup_name "ax" s;
  lon ← lookup_name "lon" s; lon ← the_arr lon;
  lat ← lookup_name "lat" s; lat ← the_arr lat;
  a ← lookup_name "vort_adv" s; a ← the_qty a;
  lv ← lookup_name "clev_avoradv" s; lv ← the_coord lv;
  let lv' := List.filter (fun x => negb (Qeq_bool x 0)) lv in
  Ok (bind_name "cf" (VContourSet (magnitude a) lv')
        (draw (Contourf lon lat (magnitude a) lv') s)).

(** [cax = plt.subplot(gs[1])], [cb = plt.colorbar(cf, cax=cax, ...)] *)
Definition s_cax : stmt :=
  assign "cax" (fun s => _ ← lookup_name "gs" s; Ok (VOpaque "Axes")).
Definition s_cb : stmt :=
  assign "cb" (fun s =>
    _ ← lookup_name "cf" s; _ ← lookup_name "cax" s;
    _ ← lookup_name "clev_avoradv" s; Ok (VOpaque "Colorbar")).

(** [cb.set_label(r'$1/s^2$', size='large')] *)
Definition s_cb_label : stmt := axes_stmt "cb" "set_label".

(** [ax.barbs(lon, lat, uwnd_500.m, vwnd_500.m, ...)] *)
Definition s_barbs : stmt := fun s =>
  _ ← lookup_name "ax" s;
  lon ← lookup_name "lon" s; lon ← the_arr lon;
  lat ← lookup_name "lat" s; lat ← the_arr lat;
  u ← lookup_name "uwnd_500" s; u ← the_qty u;
  v ← lookup_name "vwnd_500" s; v ← the_qty v;
  Ok (draw (Barbs lon lat (magnitude u) (magnitude v)) s).

Definition map_cell : list stmt :=
  [ s_dproj; s_globe; s_datacrs; s_plotcrs; s_fig; s_gs; s_ax;
    s_title_left; s_title_right; s_set_extent; s_coastlines; s_add_feature;
    s_clev500; s_cs; s_clabel_cs; s_clevvort500; s_cs2; s_clabel_cs2;
    s_clev_avoradv; s_cf; s_cax; s_cb; s_cb_label; s_barbs ].

(** The notebook, top to bottom. *)
Definition notebook : list stmt :=
  acquisition_cell ++ calculation_cell ++ map_cell.

(** The same statements, cut where the valid time is created and where
    it is written into the title. *)
Definition upto_vtime : list stmt :=
  [ s_dt; s_base_url; s_cat; s_ncss; s_query; s_query_time; s_query_accept;
    s_query_variables; s_query_lonlat; s_ds; s_lon; s_lat; s_times ].

Definition vtime_to_title : list stmt :=
  [ s_lev_500; s_hght_500; s_hght_500_smooth; s_uwnd_500; s_vwnd_500 ]
  ++ calculation_cell
  ++ [ s_dproj; s_globe; s_datacrs; s_plotcrs; s_fig; s_gs; s_ax; s_title_left ].

Definition after_title : list stmt :=
  [ s_set_extent; s_coastlines; s_add_feature;
    s_clev500; s_cs; s_clabel_cs; s_clevvort500; s_cs2; s_clabel_cs2;
    s_clev_avoradv; s_cf; s_cax; s_cb; s_cb_label; s_barbs ].

(** The names the notebook binds. *)
Definition bound_names : list string :=
  [ "dt"; "base_url"; "cat"; "ncss"; "query"; "ds"; "lon"; "lat"; "times";
    "vtime"; "lev_500"; "hght_500"; "uwnd_500"; "vwnd_500";
    "dx"; "dy"; "f"; "avor"; "vort_adv";
    "dproj"; "globe"; "datacrs"; "plotcrs"; "fig"; "gs"; "ax"; "clev500"; "cs";
    "clevvort500"; "cs2"; "clev_avoradv"; "cf"; "cax"; "cb" ].

(** The query the notebook has assembled when it calls [get_data]. *)
Definition query_sent : query :=
  Query (Some Acquire.dt0) (Some "netcdf") [hght_name; uwnd_name; vwnd_name] true.

(** The three requests of the acquisition cell, in the order the cell
    makes them: the catalog document of the day, the entry under the dataset
    key, the subset query. *)
Definition requested : result nc_dataset :=
  cat ← tds_catalog R (Acquire.catalog_url Acquire.dt0);
  svc ← of_option (A := ncss_service) KeyError
          (cat !! Acquire.catalog_dataset_key Acquire.dt0);
  svc query_sent.

End WithLib.
End Vorticity.

(** ** The xarray notebook *)

Module Xarray.
Import Strftime Pint Select Py.

Section WithLib.
Context {L : CalcLib} (R : remote).

(** *** Cell: accessing data *)

(** [dt = datetime(2016, 4, 16, 18)] *)
Definition s_dt : stmt :=
  assign "dt" (fun _ => Ok (VDt Acquire.dt0)).

(** [base_url = 'https://www.ncei.noaa.gov/thredds/dodsC/model-namanl-old/'] *)
Definition s_base_url : stmt :=
  assign "base_url" (fun _ => Ok (VStr Acquire.opendap_base_url)).

(** [data = xr.open_dataset(f'{base_url}{dt:%Y%m}/{dt:%Y%m%d}/'
                            f'namanl_218_{dt:%Y%m%d}_{dt:%H}00_000.grb',
                            decode_times=True)] *)
Definition s_data : stmt :=
  assign "data" (fun s =>
    b ← lookup_name "base_url" s; b ← the_str b;
    d ← lookup_name "dt" s; d ← the_dt d;
    x ← open_dataset R (Acquire.opendap_url_from b d);
    Ok (VXr x)).

(** *** Cell: the mesh

    [x, y = np.meshgrid(data['x'].values * 1000, data['y'].values * 1000)] *)
Definition s_mesh : stmt := fun s =>
  d ← lookup_name "data" s; d ← the_xr d;
  xs ← of_option KeyError (xr_coords d !! "x");
  ys ← of_option KeyError (xr_coords d !! "y");
  let m := meshgrid (map (fun v => v * 1000)%Q xs) (map (fun v => v * 1000)%Q ys) in
  Ok (bind_name "y" (VArr (snd m)) (bind_name "x" (VArr (fst m)) s)).

(** *** Cell: valid times *)

(** [vtimes = []] *)
Definition s_vtimes : stmt :=
  assign "vtimes" (fun _ => Ok (VDates [])).

(** One pass of the loop body with the loop variable at [t]:
    [vtimes.append(datetime.utcfromtimestamp(data.time[t].data.astype('O') / 1e9))] *)
Definition s_append (t : nat) : stmt := fun s =>
  let s := bind_name "t" (VInt t) s in
  d ← lookup_name "data" s; d ← the_xr d;
  tm ← of_option AttributeError (xr_times d !! "time");
  ns_t ← getitem tm t;
  l ← lookup_name "vtimes" s; l ← the_dates l;
  Ok (bind_name "vtimes" (VDates (l ++ [utcfromtimestamp ns_t])) s).

(** [for t in range(data.time.size): ...].  The notebook does not bind
    [range]: the name is read from the namespace, then from the builtins. *)
Definition s_vtimes_loop : stmt := fun s =>
  let f := lookup_builtin BRange s in
  d ← lookup_name "data" s; d ← the_xr d;
  tm ← of_option AttributeError (xr_times d !! "time");
  ks ← call_range f (length tm);
  run (map s_append ks) s.

(** [print(vtimes)]: writes to the output stream only.  The notebook
    does not bind [print] either. *)
Definition s_print : stmt := fun s =>
  let f := lookup_builtin BPrint s in
  v ← lookup_name "vtimes" s; _ ← call_print f v; Ok s.

(** *** Cell: selection *)

(** [data[name].sel(time1=vtimes[0], isobaric=500)] *)
Definition sel_500 (name : string) (s : state) : result value :=
  d ← lookup_name "data" s; d ← the_xr d;
  da ← of_option KeyError (xr_vars d !! name);
  l ← lookup_name "vtimes" s; l ← the_dates l;
  t0 ← getitem l 0;
  r ← sel_time1_isobaric da (timestamp_ns t0) 500;
  Ok (VSel r).

Definition s_hght_500 : stmt := assign "hght_500" (sel_500 Vorticity.hght_name).
Definition s_uwnd_500 : stmt := assign "uwnd_500" (sel_500 Vorticity.uwnd_name).
Definition s_vwnd_500 : stmt := assign "vwnd_500" (sel_500 Vorticity.vwnd_name).

(** *** Cell: the map *)

(** [datacrs = ccrs.LambertConformal(
        central_latitude=data.LambertConformal_Projection.latitude_of_projection_origin,
        central_longitude=data.LambertConformal_Projection.longitude_of_central_meridian)] *)
Definition s_datacrs : stmt :=
  assign "datacrs" (fun s =>
    d ← lookup_name "data" s; d ← the_xr d;
    p ← of_option AttributeError (xr_projection d);
    _ ← has_attr p "latitude_of_projection_origin";
    _ ← has_attr p "longitude_of_central_meridian";
    Ok (VOpaque "LambertConformal")).

Definition s_plotcrs : stmt :=
  assign "plotcrs" (fun _ => Ok (VOpaque "LambertConformal")).
Definition s_fig : stmt := assign "fig" (fun _ => Ok (VOpaque "Figure")).
Definition s_ax : stmt :=
  assign "ax" (fun s => _ ← lookup_name "plotcrs" s; Ok (VOpaque "GeoAxes")).

(** [ax.coastlines('50m', edgecolor='black')],
    [ax.add_feature(cfeature.STATES, linewidth=0.5)],
    [ax.set_extent([-130, -67, 20, 50], ccrs.PlateCarree())] *)
Definition s_coastlines : stmt := axes_stmt "ax" "coastlines".
Definition s_add_feature : stmt := axes_stmt "ax" "add_feature".
Definition s_set_extent : stmt := axes_stmt "ax" "set_extent".

(** [clev500 = np.arange(5100, 6000, 60)] *)
Definition s_clev500 : stmt :=
  assign "clev500" (fun _ => Ok (VCoord (arange 5100 6000 60))).

(** [cs = ax.contour(x, y, ndimage.gaussian_filter(hght_500, sigma=5), clev500, ...)] *)
Definition s_cs : stmt := fun s =>
  _ ← lookup_name "ax" s;
  x ← lookup_name "x" s; x ← the_arr x;
  y ← lookup_name "y" s; y ← the_arr y;
  h ← lookup_name "hght_500" s; h ← asarray h;
  lv ← lookup_name "clev500" s; lv ← the_coord lv;
  _ ← lookup_name "datacrs" s;
  let z := gaussian_filter 5 h in
  Ok (bind_name "cs" (VContourSet z lv) (draw (Contour x y z lv) s)).

(** [ax.clabel(cs, fontsize=12, colors='k', inline=1, ...)] *)
Definition s_clabel : stmt := fun s =>
  _ ← lookup_name "ax" s; _ ← lookup_name "cs" s;
  _ ← axes_call "clabel"; Ok (decorate "clabel" s).

(** [for t in cs.labelTexts: t.set_bbox({'fc': 'w'})]: the loop variable
    is bound when there is at least one label. *)
Definition s_label_boxes : stmt := fun s =>
  c ← lookup_name "cs" s;
  match c with
  | VContourSet z lv =>
      if (0 <? label_count z lv)%nat then Ok (bind_name "t" (VOpaque "Text") s)
      else Ok s
  | _ => Raise AttributeError
  end.

(** [ax.barbs(x, y, uwnd_500.data, vwnd_500.data, ...)] *)
Definition s_barbs : stmt := fun s =>
  _ ← lookup_name "ax" s;
  x ← lookup_name "x" s; x ← the_arr x;
  y ← lookup_name "y" s; y ← the_arr y;
  u ← lookup_name "uwnd_500" s; u ← asarray u;
  v ← lookup_name "vwnd_500" s; v ← asarray v;
  _ ← lookup_name "datacrs" s;
  Ok (draw (Barbs x y u v) s).

(** [plt.title('500-hPa Geopotential Heights (m)', loc='left')] *)
Definition s_title_left : stmt := fun s =>
  Ok (set_title "left" "500-hPa Geopotential Heights (m)" s).

(** [plt.title(f'VALID: {vtimes[0]}', loc='right')] *)
Definition s_title_right : stmt := fun s =>
  l ← lookup_name "vtimes" s; l ← the_dates l;
  t0 ← getitem l 0;
  Ok (set_title "right" ("VALID: " +:+ str_datetime t0) s).

Definition access_cell : list stmt := [ s_dt; s_base_url; s_data ].
Definition mesh_cell : list stmt := [ s_mesh ].
Definition times_cell : list stmt := [ s_vtimes; s_vtimes_loop; s_print ].
Definition selection_cell : list stmt := [ s_hght_500; s_uwnd_500; s_vwnd_500 ].
Definition map_cell : list stmt :=
  [ s_datacrs; s_plotcrs; s_fig; s_ax; s_coastlines; s_add_feature; s_set_extent;
    s_clev500; s_cs; s_clabel; s_label_boxes;
    s_barbs; s_title_left; s_title_right ].

Definition notebook : list stmt :=
  access_cell ++ mesh_cell ++ times_cell ++ selection_cell ++ map_cell.

(** The map cell up to the right-hand title. *)
Definition map_before_title : list stmt :=
  [ s_datacrs; s_plotcrs; s_fig; s_ax; s_coastlines; s_add_feature; s_set_extent;
    s_clev500; s_cs; s_clabel; s_label_boxes;
    s_barbs; s_title_left ].

(** The names every run of the notebook binds; the loop variable [t] is
    bound only when a loop body runs. *)
Definition bound_names : list string :=
  [ "dt"; "base_url"; "data"; "x"; "y"; "vtimes";
    "hght_500"; "uwnd_500"; "vwnd_500";
    "datacrs"; "plotcrs"; "fig"; "ax"; "clev500"; "cs" ].

End WithLib.
End Xarray.

(** ** The selection requirement as the specification words it

    "For every dataset in which the requested time and level values are
    present, selection returns exactly the 2-D slice stored at those
    coordinates", read on each of the two selection paths. *)

Module Specified.
Import Select Py.

Section WithLib.
Context {L : CalcLib}.
Local Open Scope Q_scope.




End WithLib.
End Specified.

(** ** A library instance that records data flow

    Every operation of [CalcLib] builds the term that names it and its
    arguments, so the value a notebook binds to a name is the expression
    tree of the calls that produced it. *)

Module Provenance.
Import Strftime Pint Select Py.

#[warnings="-register-all"]
Inductive term : Type :=
  | Src (name : string)
  | Num (q : Q)
  | App (fn : string) (args : list term).

(** Some call to the Gaussian filter occurs in [t]. *)
Fixpoint smoothed (t : term) : bool :=
  match t with
  | Src _ => false
  | Num _ => false
  | App fn args => (String.eqb fn "gaussian_filter" || existsb smoothed args)%bool
  end.

(** The derived-quantity computations of the notebooks. *)
Definition derived (fn : string) : bool :=
  (String.eqb fn "vorticity" || String.eqb fn "advection")%bool.

(** No call in [t] of a function selected by [which] has an argument that
    went through the Gaussian filter. *)
Fixpoint read_unsmoothed (which : string -> bool) (t : term) : bool :=
  match t with
  | Src _ => true
  | Num _ => true
  | App fn args =>
      ((if which fn then negb (existsb smoothed args) else true)
       && forallb (read_unsmoothed which) args)%bool
  end.

(** The source array [name] occurs in [t]. *)
Fixpoint mentions_src (name : string) (t : term) : bool :=
  match t with
  | Src n => String.eqb n name
  | Num _ => false
  | App _ args => existsb (mentions_src name) args
  end.

Definition mags (qs : list (quantity term)) : list term := map magnitude qs.

#[export] Instance symbolic : CalcLib := {|
  arr := term;
  pydatetime := term;
  gaussian_filter sigma a := App "gaussian_filter" [a; Num sigma];
  deg2rad a := App "deg2rad" [a];
  arr_add a b := App "add" [a; b];
  arr_scale c a := App "mul" [a; Num c];
  convert src dst a := Ok (App "convert" [a]);
  lat_lon_grid_deltas lon lat :=
    (Quantity (App "grid_delta_x" [lon; lat]) units_meter,
     Quantity (App "grid_delta_y" [lon; lat]) units_meter);
  coriolis_parameter lat := Quantity (App "coriolis_parameter" [lat]) units_per_s;
  vorticity u v dx dy :=
    Quantity (App "vorticity" (mags [u; v; dx; dy])) units_per_s;
  advection a wind d :=
    Quantity (App "advection" (magnitude a :: mags wind ++ mags [fst d; snd d]))
             (unit_mul (q_units a) units_per_s);
  num2date c u := App "num2date" (map Num c);
  utcfromtimestamp z := App "utcfromtimestamp" [Num (inject_Z z)];
  timestamp_ns d :=
    match d with
    | App _ [Num q] => Qfloor q
    | _ => 0%Z
    end;
  str_datetime d :=
    match d with
    | App fn _ => fn
    | _ => ""
    end;
  str_datetimes l := "[...]";
  meshgrid xs ys :=
    (App "meshgrid_x" (map Num xs ++ map Num ys),
     App "meshgrid_y" (map Num xs ++ map Num ys));
  label_count z lv := length lv;
  axes_call method := Ok tt
|}.

(** The attributes of the grid-mapping variable of a NAM file. *)
Definition projection_attrs : list string :=
  [ "grid_mapping_name"; "latitude_of_projection_origin";
    "longitude_of_central_meridian"; "standard_parallel"; "earth_radius" ].

(** A small NAM-like NCSS response: one time, four levels. *)
Definition levels4 : list Q := [1000; 850; 500; 300]%Q.

Definition grid4d (name : string) : nc_variable :=
  NcVariable ["time"; "isobaric"; "y"; "x"] "" []
    (Grid4D [[Src (name +:+ "@1000"); Src (name +:+ "@850");
              Src (name +:+ "@500"); Src (name +:+ "@300")]]).

Definition sample_nc : nc_dataset :=
  {[ "lon" := NcVariable ["y"; "x"] "degrees_east" [] (Grid2D (Src "lon"));
     "lat" := NcVariable ["y"; "x"] "degrees_north" [] (Grid2D (Src "lat"));
     "time" := NcVariable ["time"] "Hour since 2016-04-16T18:00:00Z" [] (Coord1D [0%Q]);
     "isobaric" := NcVariable ["isobaric"] "hPa" [] (Coord1D levels4);
     "LambertConformal_Projection" := NcVariable [] "" projection_attrs GridMapping;
     Vorticity.hght_name := grid4d "hght";
     Vorticity.uwnd_name := grid4d "uwnd";
     Vorticity.vwnd_name := grid4d "vwnd" ]}.

Definition sample_array (name : string) : data_array term :=
  DataArray ["time1"; "isobaric"; "y"; "x"] [1460829600000000000%Z] levels4
    [[Src (name +:+ "@1000"); Src (name +:+ "@850");
      Src (name +:+ "@500"); Src (name +:+ "@300")]].

Definition sample_xr : xr_dataset :=
  XrDataset {[ "time" := [1460829600000000000%Z];
               "time1" := [1460829600000000000%Z] ]}
            {[ "x" := [0; 12]%Q; "y" := [0; 12]%Q ]}
            {[ Vorticity.hght_name := sample_array "hght";
               Vorticity.uwnd_name := sample_array "uwnd";
               Vorticity.vwnd_name := sample_array "vwnd" ]}
            (Some projection_attrs).





(** An archive that serves the sample under the addresses of
    [datetime(2016, 4, 16, 18)] and nothing else. *)
Definition sample_remote : remote :=
  Remote
    (fun url =>
       if String.eqb url (Acquire.catalog_url Acquire.dt0)
       then Ok {[ Acquire.dataset_name Acquire.dt0 := fun _ : query => Ok sample_nc ]}
       else Raise FetchError)
    (fun url =>
       if String.eqb url (Acquire.opendap_url Acquire.dt0)
       then Ok sample_xr
       else Raise FetchError).



(** An archive that cannot be reached. *)
Definition offline : remote :=
  Remote (fun _ => Raise FetchError) (fun _ => Raise FetchError).

(** A namespace as the calculation cell finds it, with the height field
    held in feet. *)
Definition feet : pint_unit := {[ "foot" := 1%Z ]}.

Definition calc_state : state :=
  bind_name "avor" (VQty (Quantity (Src "avor") feet))
    (bind_name "hght_500" (VQty (Quantity (Src "hght") feet))
       (bind_name "vwnd_500" (VQty (tag units_m_s (Src "v")))
          (bind_name "uwnd_500" (VQty (tag units_m_s (Src "u")))
             (bind_name "lat" (VArr (Src "lat"))
                (bind_name "lon" (VArr (Src "lon")) initial))))).

(** The reading of "smoothing is purely a presentation step" on a run of
    the vorticity notebook: in what ends up bound to any name, every
    derived-quantity computation has read unsmoothed fields only. *)
Definition smoothing_only_presentational (R : remote) : Prop :=
  forall x s' q,
    run (Vorticity.notebook R) initial = Ok s' ->
    lookup_name x s' = Ok (VQty q) ->
    read_unsmoothed derived (magnitude q) = true.

(** The quantity bound to [x] at the end of a run. *)
Definition bound_quantity (x : string) (r : result state) : option (quantity term) :=
  match r with
  | Ok s =>
      match ns s !! x with
      | Some (VQty q) => Some q
      | _ => None
      end
  | Raise _ => None
  end.

(** The term bound to [x] at the end of a run, if it is an array or a
    quantity. *)
Definition bound_term (x : string) (r : result state) : option term :=
  match r with
  | Ok s =>
      match ns s !! x with
      | Some (VArr a) => Some a
      | Some (VQty q) => Some (magnitude q)
      | Some (VSel (Sel2D a)) => Some a
      | _ => None
      end
  | Raise _ => None
  end.

End Provenance.


(* ===================================================================== *)
(** * Part II: properties                                                *)
(* ===================================================================== *)

(** ** Strings and addresses *)

Section StringFacts.
Import Strftime Acquire.

Lemma append_cons (x : ascii) (a b : string) :
  String x a +:+ b = String x (a +:+ b).
Proof. reflexivity. Qed.

Lemma append_assoc (a b c : string) : (a +:+ b) +:+ c = a +:+ (b +:+ c).
Proof.
  induction a as [|x a IH]; [reflexivity|].
  now rewrite !append_cons, IH.
Qed.

Lemma mentions_append (ch : ascii) (a b : string) :
  mentions ch (a +:+ b) = (mentions ch a || mentions ch b)%bool.
Proof.
  induction a as [|x a IH]; [reflexivity|].
  rewrite append_cons. simpl. rewrite IH. now rewrite orb_assoc.
Qed.

Lemma split_on_plain (sep : ascii) (a : string) :
  mentions sep a = false -> split_on sep a = [a].
Proof.
  induction a as [|x a IH]; simpl; [reflexivity|].
  intros H. apply orb_false_iff in H as [Hx Ha].
  rewrite Hx, (IH Ha). reflexivity.
Qed.

Lemma split_on_segment (sep : ascii) (a b : string) :
  mentions sep a = false ->
  split_on sep (a +:+ String sep b) = a :: split_on sep b.
Proof.
  induction a as [|x a IH].
  - intros _. change ("" +:+ String sep b) with (String sep b).
    simpl. now rewrite Ascii.eqb_refl.
  - intros H. simpl in H. apply orb_false_iff in H as [Hx Ha].
    rewrite append_cons. simpl. rewrite Hx, (IH Ha). reflexivity.
Qed.

Lemma digits_no_slash (u : Decimal.uint) :
  mentions "/" (NilEmpty.string_of_uint u) = false.
Proof. induction u; simpl; auto. Qed.

Lemma zeros_no_slash (k : nat) : mentions "/" (zeros k) = false.
Proof. induction k; simpl; auto. Qed.

Lemma zfill_no_slash (w n : nat) : mentions "/" (zfill w (str_nat n)) = false.
Proof.
  unfold zfill, str_nat.
  now rewrite mentions_append, zeros_no_slash, digits_no_slash.
Qed.

Lemma str_nat_no_slash (n : nat) : mentions "/" (str_nat n) = false.
Proof. apply digits_no_slash. Qed.

Lemma strftime_month_dir (dt : datetime) :
  strftime "%Y%m" dt
  = str_nat (year dt) +:+ zfill 2 (str_nat (month dt)) +:+ "".
Proof. reflexivity. Qed.

Lemma strftime_day_dir (dt : datetime) :
  strftime "%Y%m%d" dt
  = str_nat (year dt) +:+ zfill 2 (str_nat (month dt))
      +:+ zfill 2 (str_nat (day dt)) +:+ "".
Proof. reflexivity. Qed.

Lemma strftime_hour (dt : datetime) :
  strftime "%H" dt = zfill 2 (str_nat (hour dt)) +:+ "".
Proof. reflexivity. Qed.

Lemma month_dir_no_slash (dt : datetime) : mentions "/" (strftime "%Y%m" dt) = false.
Proof.
  rewrite strftime_month_dir.
  now rewrite !mentions_append, str_nat_no_slash, !zfill_no_slash.
Qed.

Lemma day_dir_no_slash (dt : datetime) : mentions "/" (strftime "%Y%m%d" dt) = false.
Proof.
  rewrite strftime_day_dir.
  now rewrite !mentions_append, str_nat_no_slash, !zfill_no_slash.
Qed.

Lemma dataset_name_no_slash (dt : datetime) : mentions "/" (dataset_name dt) = false.
Proof.
  unfold dataset_name. rewrite strftime_day_dir, strftime_hour.
  now rewrite !mentions_append, str_nat_no_slash, !zfill_no_slash.
Qed.

Lemma split_catalog_url (dt : datetime) :
  split_on "/" (catalog_url dt) =
    ["https:"; ""; "www.ncei.noaa.gov"; "thredds"; "catalog"; "model-namanl-old";
     strftime "%Y%m" dt; strftime "%Y%m%d" dt; "catalog.xml"].
Proof.
  change (catalog_url dt)
    with ("https:" +:+ String "/" ("" +:+ String "/" ("www.ncei.noaa.gov" +:+ String "/"
           ("thredds" +:+ String "/" ("catalog" +:+ String "/" ("model-namanl-old"
             +:+ String "/" (strftime "%Y%m" dt +:+ String "/"
               (strftime "%Y%m%d" dt +:+ String "/" "catalog.xml")))))))).
  rewrite !split_on_segment by (reflexivity || apply month_dir_no_slash
                                || apply day_dir_no_slash).
  reflexivity.
Qed.

Lemma split_opendap_url (dt : datetime) :
  split_on "/" (opendap_url dt) =
    ["https:"; ""; "www.ncei.noaa.gov"; "thredds"; "dodsC"; "model-namanl-old";
     strftime "%Y%m" dt; strftime "%Y%m%d" dt; dataset_name dt].
Proof.
  unfold opendap_url, opendap_url_from. rewrite !append_assoc.
  change (split_on "/"
           ("https:" +:+ String "/" ("" +:+ String "/" ("www.ncei.noaa.gov" +:+ String "/"
             ("thredds" +:+ String "/" ("dodsC" +:+ String "/" ("model-namanl-old"
               +:+ String "/" (strftime "%Y%m" dt +:+ String "/"
                 (strftime "%Y%m%d" dt +:+ String "/" (dataset_name dt)))))))))
          = ["https:"; ""; "www.ncei.noaa.gov"; "thredds"; "dodsC"; "model-namanl-old";
             strftime "%Y%m" dt; strftime "%Y%m%d" dt; dataset_name dt]).
  rewrite !split_on_segment by (reflexivity || apply month_dir_no_slash
                                || apply day_dir_no_slash).
  rewrite split_on_plain by apply dataset_name_no_slash.
  reflexivity.
Qed.

(** C5.  For every target timestamp [dt] the catalog-and-subset path of
    the vorticity notebook and the OPeNDAP path of the xarray notebook
    lead to the same archived product: the same server and model
    directory, the month and day directories [%Y%m] and [%Y%m%d] of [dt],
    and the file [namanl_218_%Y%m%d_%H00_000.grb]. *)
Theorem same_archived_product (dt : datetime) :
  catalog_product dt = opendap_product dt /\
  opendap_product dt =
    Some (Product "www.ncei.noaa.gov" "model-namanl-old"
            (strftime "%Y%m" dt) (strftime "%Y%m%d" dt)
            ("namanl_218_" +:+ strftime "%Y%m%d" dt +:+ "_" +:+ strftime "%H" dt
               +:+ "00_000.grb")) /\
  catalog_url dt =
    archive_root +:+ "catalog/" +:+ model_id +:+ "/" +:+ date_path dt +:+ "catalog.xml" /\
  opendap_url dt =
    archive_root +:+ "dodsC/" +:+ model_id +:+ "/" +:+ date_path dt +:+ dataset_name dt /\
  catalog_dataset_key dt = dataset_name dt.
Proof.
  unfold catalog_product, opendap_product.
  rewrite split_catalog_url, split_opendap_url.
  repeat split;
    unfold opendap_url, opendap_url_from, date_path;
    now rewrite !append_assoc.
Qed.

Example same_archived_product_2016041618 :
  catalog_product dt0 = opendap_product dt0 /\
  opendap_url dt0 =
    "https://www.ncei.noaa.gov/thredds/dodsC/model-namanl-old/201604/20160416/namanl_218_20160416_1800_000.grb" /\
  catalog_url dt0 =
    "https://www.ncei.noaa.gov/thredds/catalog/model-namanl-old/201604/20160416/catalog.xml".
Proof. repeat split. Qed.

End StringFacts.

(** ** Units *)

Section UnitFacts.
Import Pint.
Context {A : Type} (convert : pint_unit -> pint_unit -> A -> result A).

Lemma parse_per_sec : parse_units "1/sec" = Ok units_per_s.
Proof. vm_compute. reflexivity. Qed.

Lemma parse_per_s : parse_units "1/s" = Ok units_per_s.
Proof. vm_compute. reflexivity. Qed.

Lemma parse_m_s : parse_units "m/s" = Ok units_m_s.
Proof. vm_compute. reflexivity. Qed.

Lemma to_same_units (q : quantity A) (u : pint_unit) :
  q_units q = u -> to_ convert q u = Ok q.
Proof. intros H. unfold to_. now rewrite decide_True. Qed.

(** C6.  The unit conversions of the pipeline give the original value
    back: a quantity already in 1/s (as the Coriolis parameter is)
    converted with [.to(units('1/sec'))] and back is unchanged, and an
    array tagged with [m/s], [1/s] or [meter] has that array as its
    magnitude and is unchanged by a conversion to its own unit. *)
Theorem pipeline_unit_conversions_round_trip (q : quantity A) (x : A) :
  q_units q = units_per_s ->
  (exists u q',
      parse_units "1/sec" = Ok u /\
      to_ convert q u = Ok q' /\
      magnitude q' = magnitude q /\
      to_ convert q' (q_units q) = Ok q) /\
  (forall u,
      magnitude (tag u x) = x /\ to_ convert (tag u x) u = Ok (tag u x)) /\
  parse_units "m/s" = Ok units_m_s /\
  parse_units "1/s" = Ok units_per_s.
Proof.
  intros Hq. split.
  - exists units_per_s, q. split; [apply parse_per_sec|].
    rewrite Hq. rewrite to_same_units by exact Hq. auto.
  - split; [|split; [apply parse_m_s | apply parse_per_s]].
    intros u. split; [reflexivity|]. now apply to_same_units.
Qed.

Lemma qadd_same_units (add : A -> A -> A) (q1 q2 : quantity A) :
  q_units q2 = q_units q1 ->
  qadd convert add q1 q2
  = Ok (Quantity (add (magnitude q1) (magnitude q2)) (q_units q1)).
Proof. intros H. unfold qadd. now rewrite to_same_units. Qed.

End UnitFacts.

(** The Coriolis parameter of 0.0001 1/s, converted and converted back. *)
Lemma pipeline_unit_conversions_round_trip_witness :
  Pint.q_units (Pint.Quantity (1 # 10000)%Q Pint.units_per_s) = Pint.units_per_s /\
  exists u q',
    Pint.parse_units "1/sec" = Ok u /\
    Pint.to_ (fun _ _ (m : Q) => Raise DimensionalityError)
             (Pint.Quantity (1 # 10000)%Q Pint.units_per_s) u = Ok q' /\
    Pint.magnitude q' = (1 # 10000)%Q /\
    Pint.to_ (fun _ _ (m : Q) => Raise DimensionalityError) q' Pint.units_per_s
      = Ok (Pint.Quantity (1 # 10000)%Q Pint.units_per_s).
Proof.
  split; [reflexivity|].
  exact (proj1 (pipeline_unit_conversions_round_trip
                  (fun _ _ (m : Q) => Raise DimensionalityError)
                  (Pint.Quantity (1 # 10000)%Q Pint.units_per_s) 0%Q eq_refl)).
Defined.

(** ** Selection *)

Section SearchFacts.
Import Select.
Context {K : Type} (eqb : K -> K -> bool).

Lemma positions_from_none (k : nat) (index : list K) (label : K) :
  Forall (fun x => eqb x label = false) index ->
  positions_from eqb k index label = [].
Proof.
  intros H. revert k. induction H as [|x index Hx _ IH]; intros k; simpl.
  - reflexivity.
  - now rewrite Hx, IH.
Qed.

(** The first position found is the least index holding the label. *)
Lemma positions_from_head (k : nat) (index : list K) (label : K) :
  Exists (fun x => eqb x label = true) index ->
  exists i x rest,
    positions_from eqb k index label = (k + i)%nat :: rest /\
    index !! i = Some x /\ eqb x label = true /\
    forall j y, (j < i)%nat -> index !! j = Some y -> eqb y label = false.
Proof.
  intros H. revert k. induction index as [|a index IH]; intros k.
  - inversion H.
  - simpl. destruct (eqb a label) eqn:Ha.
    + exists 0%nat, a, (positions_from eqb (S k) index label).
      repeat split; auto; [f_equal; lia | intros; lia].
    + assert (H' : Exists (fun x => eqb x label = true) index)
        by (inversion H; subst; [congruence | assumption]).
      destruct (IH H' (S k)) as (i & x & rest & Hp & Hi & Hx & Hmin).
      exists (S i), x, rest. repeat split; auto.
      * rewrite Hp. f_equal. lia.
      * intros [|j] y Hj Hy; simpl in Hy.
        -- congruence.
        -- apply (Hmin j y); [lia | assumption].
Qed.

(** A label that occurs at [i] and nowhere else is found exactly there. *)
Lemma positions_from_once (k i : nat) (index : list K) (label : K) (x : K) :
  index !! i = Some x -> eqb x label = true ->
  (forall j y, index !! j = Some y -> eqb y label = true -> j = i) ->
  positions_from eqb k index label = [(k + i)%nat].
Proof.
  revert k i. induction index as [|a index IH]; intros k i Hi Hx Huniq.
  - discriminate.
  - simpl. destruct i as [|i]; simpl in Hi.
    + inversion Hi; subst a. rewrite Hx.
      rewrite positions_from_none.
      * f_equal. lia.
      * apply Forall_forall. intros y Hy.
        destruct (eqb y label) eqn:E; [|reflexivity].
        apply list_elem_of_lookup in Hy as [j Hj].
        specialize (Huniq (S j) y Hj E). discriminate.
    + destruct (eqb a label) eqn:Ha.
      * specialize (Huniq 0%nat a eq_refl Ha). discriminate.
      * rewrite (IH (S k) i Hi Hx).
        -- f_equal. lia.
        -- intros j y Hj Hy. specialize (Huniq (S j) y Hj Hy). lia.
Qed.

End SearchFacts.

Section SelectionFacts.
Import Select.
Local Open Scope Q_scope.

Lemma absent_eqb (level : Q) (levels : list Q) :
  Forall (fun x => ~ x == level) levels ->
  Forall (fun x => Qeq_bool x level = false) levels.
Proof.
  intros H. eapply Forall_impl; [exact H|]. intros x Hx.
  destruct (Qeq_bool x level) eqn:E; [|reflexivity].
  apply Qeq_bool_iff in E. contradiction.
Qed.

Lemma present_eqb (level : Q) (levels : list Q) :
  Exists (fun x => x == level) levels ->
  Exists (fun x => Qeq_bool x level = true) levels.
Proof.
  intros H. eapply Exists_impl; [exact H|].
  intros x Hx. now apply Qeq_bool_iff.
Qed.

Lemma get_loc_absent (levels : list Q) (level : Q) :
  Forall (fun x => ~ x == level) levels ->
  get_loc Qeq_bool levels level = Raise KeyError.
Proof.
  intros H. unfold get_loc, positions.
  now rewrite positions_from_none by now apply absent_eqb.
Qed.

Lemma get_loc_time_cases (times : list Z) (t : Z) :
  get_loc Z.eqb times t = Raise KeyError \/ exists l, get_loc Z.eqb times t = Ok l.
Proof.
  unfold get_loc. destruct (positions Z.eqb times t) as [|i [|j js]]; eauto.
Qed.

(** Label lookup in a coordinate without repeated values. *)
Lemma get_loc_level_once (levels : list Q) (level : Q) :
  Exists (fun x => x == level) levels -> distinct_levels levels ->
  exists j x, get_loc Qeq_bool levels level = Ok (LocInt j) /\
              levels !! j = Some x /\ x == level.
Proof.
  intros Hex Hd.
  destruct (positions_from_head Qeq_bool 0 levels level (present_eqb _ _ Hex))
    as (j & x & rest & _ & Hj & Hx & _).
  exists j, x. apply Qeq_bool_iff in Hx. split; [|auto].
  unfold get_loc, positions.
  rewrite (positions_from_once Qeq_bool 0 j levels level x Hj).
  - reflexivity.
  - now apply Qeq_bool_iff.
  - intros j' y Hj' Hy. apply Qeq_bool_iff in Hy.
    apply (Hd j' j y x Hj' Hj). now rewrite Hy, Hx.
Qed.

Lemma get_loc_time_once (times : list Z) (t : Z) :
  In t times -> NoDup times ->
  exists i, get_loc Z.eqb times t = Ok (LocInt i) /\ times !! i = Some t.
Proof.
  intros Hin Hnd.
  apply (proj2 (list_elem_of_In _ _)) in Hin.
  apply list_elem_of_lookup in Hin as [i Hi].
  exists i. split; [|assumption].
  unfold get_loc, positions.
  rewrite (positions_from_once Z.eqb 0 i times t t Hi).
  - reflexivity.
  - apply Z.eqb_refl.
  - intros j y Hj Hy. apply Z.eqb_eq in Hy. subst y.
    eapply NoDup_lookup; eauto.
Qed.

Lemma well_shaped_lookup {T A} (times : list T) (levels : list Q)
    (values : list (list A)) (i j : nat) :
  well_shaped times levels values ->
  (i < length times)%nat -> (j < length levels)%nat ->
  exists row s, values !! i = Some row /\ row !! j = Some s.
Proof.
  intros [Hlen Hrows] Hi Hj.
  destruct (lookup_lt_is_Some_2 values i) as [row Hrow]; [lia|].
  pose proof (Forall_lookup_1 _ _ _ _ Hrows Hrow) as Hr. simpl in Hr.
  destruct (lookup_lt_is_Some_2 row j) as [s Hs]; [lia|].
  eauto.
Qed.

(** Neither search finds a level that is not in the coordinate array. *)
Lemma absent_level_search_fails {A} (isobaric : list Q) :
  Forall (fun x => ~ x == 500) isobaric ->
  np_where_eq isobaric 500 = [] /\
  find_level isobaric 500 = Raise IndexError /\
  (forall var : list (list A),
      select_positional isobaric 500 var = Raise IndexError) /\
  (forall (times : list Z) (values : list (list A)) (rest : list string) (t : Z),
      sel_time1_isobaric
        (DataArray ("time1" :: "isobaric" :: rest) times isobaric values) t 500
      = Raise KeyError).
Proof.
  intros H.
  assert (Hw : np_where_eq isobaric 500 = [])
    by (apply positions_from_none; now apply absent_eqb).
  assert (Hf : find_level isobaric 500 = Raise IndexError)
    by (unfold find_level; now rewrite Hw).
  repeat split; auto.
  - intros var. unfold select_positional. now rewrite Hf.
  - intros times values rest t. unfold sel_time1_isobaric. simpl.
    destruct (get_loc_time_cases times t) as [-> | [l ->]]; simpl.
    + reflexivity.
    + now rewrite get_loc_absent.
Qed.

Lemma positional_selects_stored {A} (times : list Z) (levels : list Q)
    (values : list (list A)) (t : Z) :
  well_shaped times levels values ->
  Exists (fun x => x == 500) levels ->
  times !! 0%nat = Some t ->
  exists i s,
    find_level levels 500 = Ok i /\
    select_positional levels 500 values = Ok s /\
    stored_at times levels values t 500 s /\
    (forall j y, (j < i)%nat -> levels !! j = Some y -> ~ y == 500).
Proof.
  intros Hshape Hex Ht.
  destruct (positions_from_head Qeq_bool 0 levels 500 (present_eqb _ _ Hex))
    as (i & x & rest & Hp & Hi & Hx & Hmin).
  apply Qeq_bool_iff in Hx.
  destruct (well_shaped_lookup times levels values 0 i Hshape) as (row & s & Hrow & Hs).
  { eapply lookup_lt_Some; eauto. }
  { eapply lookup_lt_Some; eauto. }
  assert (Hf : find_level levels 500 = Ok i)
    by (unfold find_level, np_where_eq, positions; now rewrite Hp).
  exists i, s. repeat split.
  - exact Hf.
  - unfold select_positional, getitem2, getitem. rewrite Hf. simpl.
    rewrite Hrow. simpl. now rewrite Hs.
  - exists 0%nat, i, x, row. auto.
  - intros j y Hj Hy Hyeq. apply Qeq_bool_iff in Hyeq.
    rewrite (Hmin j y Hj Hy) in Hyeq. discriminate.
Qed.


End SelectionFacts.

Section FindLevel.
Import Select.
Local Open Scope Q_scope.

Lemma find_level_present (levels : list Q) :
  Exists (fun x => x == 500) levels ->
  exists lev x,
    find_level levels 500 = Ok lev /\ levels !! lev = Some x /\ x == 500 /\
    (forall j y, (j < lev)%nat -> levels !! j = Some y -> ~ y == 500).
Proof.
  intros Hex.
  destruct (positions_from_head Qeq_bool 0 levels 500 (present_eqb _ _ Hex))
    as (i & x & rest & Hp & Hi & Hx & Hmin).
  exists i, x. split; [|split; [exact Hi|split]].
  - unfold find_level, np_where_eq, positions. now rewrite Hp.
  - now apply Qeq_bool_iff.
  - intros j y Hj Hy Hyeq. apply Qeq_bool_iff in Hyeq.
    rewrite (Hmin j y Hj Hy) in Hyeq. discriminate.
Qed.

Lemma find_level_Ok_inv (levels : list Q) (lev : nat) :
  find_level levels 500 = Ok lev ->
  exists x, levels !! lev = Some x /\ x == 500 /\
            forall j y, (j < lev)%nat -> levels !! j = Some y -> ~ y == 500.
Proof.
  intros H.
  destruct (existsb (fun x => Qeq_bool x 500) levels) eqn:E.
  - apply existsb_exists in E as (x0 & Hin & Hx0).
    assert (Hex : Exists (fun x => x == 500) levels).
    { apply List.Exists_exists. exists x0. split; [exact Hin|].
      now apply Qeq_bool_iff. }
    destruct (find_level_present levels Hex) as (lev' & x & Hlev & Hx & Hx500 & Hmin).
    rewrite Hlev in H. injection H as <-. eauto.
  - assert (Hall : Forall (fun x => Qeq_bool x 500 = false) levels).
    { apply List.Forall_forall. intros x Hin.
      destruct (Qeq_bool x 500) eqn:Ex; [|reflexivity].
      assert (existsb (fun x => Qeq_bool x 500) levels = true)
        by (apply existsb_exists; eauto).
      congruence. }
    unfold find_level, np_where_eq, positions in H.
    rewrite (positions_from_none Qeq_bool 0 levels 500 Hall) in H. discriminate.
Qed.

End FindLevel.

(** ** The interpreter *)

Section InterpreterFacts.
Import Py.
Context {L : CalcLib}.

Lemma lookup_bind_eq (x : string) (v : value) (s : state) :
  lookup_name x (bind_name x v s) = Ok v.
Proof. unfold lookup_name, bind_name. simpl. now rewrite lookup_insert_eq. Qed.

Lemma lookup_bind_ne (x y : string) (v : value) (s : state) :
  x <> y -> lookup_name y (bind_name x v s) = lookup_name y s.
Proof.
  intros H. unfold lookup_name, bind_name. simpl. now rewrite lookup_insert_ne.
Qed.

Lemma lookup_draw (x : string) (l : layer) (s : state) :
  lookup_name x (draw l s) = lookup_name x s.
Proof. reflexivity. Qed.

Lemma lookup_set_title (x loc text : string) (s : state) :
  lookup_name x (set_title loc text s) = lookup_name x s.
Proof. reflexivity. Qed.

Lemma lookup_decorate (x what : string) (s : state) :
  lookup_name x (decorate what s) = lookup_name x s.
Proof. reflexivity. Qed.

Lemma call_range_Ok_inv (f : value) (n : nat) (ks : list nat) :
  call_range f n = Ok ks -> f = VBuiltin BRange /\ ks = seq 0 n.
Proof.
  destruct f as [| | | | | | | | | | | | | | | |b|]; try discriminate;
    destruct b; try discriminate.
  intros [= <-]. auto.
Qed.

Lemma lookup_name_Ok (x : string) (s : state) (v : value) :
  lookup_name x s = Ok v <-> ns s !! x = Some v.
Proof.
  unfold lookup_name. destruct (ns s !! x); simpl; split; congruence.
Qed.

Lemma run_app (p q : list stmt) (s : state) :
  run (p ++ q) s = s' ← run p s; run q s'.
Proof.
  revert s. induction p as [|st p IH]; intros s; simpl.
  - reflexivity.
  - destruct (st s) as [s1|e]; simpl; [apply IH | reflexivity].
Qed.

Lemma run_app_Ok (p q : list stmt) (s s' : state) :
  run (p ++ q) s = Ok s' <-> exists s1, run p s = Ok s1 /\ run q s1 = Ok s'.
Proof.
  rewrite run_app. destruct (run p s) as [s1|e]; simpl; split.
  - eauto.
  - now intros (s2 & [= ->] & H).
  - discriminate.
  - now intros (s2 & [=] & _).
Qed.

Lemma run_cons_Ok (st : stmt) (p : list stmt) (s s' : state) :
  run (st :: p) s = Ok s' <-> exists s1, st s = Ok s1 /\ run p s1 = Ok s'.
Proof.
  simpl. destruct (st s) as [s1|e]; simpl; split.
  - eauto.
  - now intros (s2 & [= ->] & H).
  - discriminate.
  - now intros (s2 & [=] & _).
Qed.

End InterpreterFacts.

(** Resolving the reads of a statement against the known bindings. *)
Ltac read_names :=
  repeat first
    [ rewrite lookup_bind_eq
    | rewrite lookup_bind_ne by discriminate
    | rewrite lookup_draw
    | rewrite lookup_set_title
    | rewrite lookup_decorate
    | match goal with
      | H : Py.lookup_name ?x ?s = Ok _ |- context [Py.lookup_name ?x ?s] => rewrite H
      end ];
  cbn [mbind result_bind Py.the_arr Py.the_qty Py.the_int Py.the_coord Py.the_dt
       Py.the_str Py.the_dates Py.the_catalog Py.the_ncss Py.the_query Py.the_nc
       Py.the_ncvar Py.the_xr Py.the_sel Py.asarray].

(** ** The vorticity notebook: calculations *)

Section CalculationFacts.
Import Pint Py Vorticity.
Context {L : CalcLib} {LL : CalcLibLaws L}.

Variables (s : state) (lon lat u v : arr).
Hypothesis Hlon : lookup_name "lon" s = Ok (VArr lon).
Hypothesis Hlat : lookup_name "lat" s = Ok (VArr lat).
Hypothesis Hu : lookup_name "uwnd_500" s = Ok (VQty (tag units_m_s u)).
Hypothesis Hv : lookup_name "vwnd_500" s = Ok (VQty (tag units_m_s v)).

Let U := tag units_m_s u.
Let V := tag units_m_s v.
Let dx := fst (lat_lon_grid_deltas lon lat).
Let dy := snd (lat_lon_grid_deltas lon lat).
Let f := coriolis_parameter (deg2rad lat).
Let zeta := vorticity U V dx dy.
Let avor_sum := Quantity (arr_add (magnitude zeta) (magnitude f)) units_per_s.
Let avor_smooth := tag units_per_s (gaussian_filter 3 (magnitude avor_sum)).
Let adv := advection avor_smooth [U; V] (dx, dy).

Let s1 := bind_name "dy" (VQty dy) (bind_name "dx" (VQty dx) s).
Let s2 := bind_name "f" (VQty f) s1.
Let s3 := bind_name "avor" (VQty avor_sum) s2.
Let s4 := bind_name "avor" (VQty avor_smooth) s3.
Let s5 := bind_name "vort_adv" (VQty (qscale arr_scale 1000000000 adv)) s4.

Lemma s_deltas_spec : s_deltas s = Ok s1.
Proof using Hlon Hlat. unfold s_deltas. read_names. reflexivity. Qed.

Lemma s_f_spec : s_f s1 = Ok s2.
Proof using Hlon Hlat LL.
  unfold s_f, assign, s1. read_names.
  rewrite parse_per_sec. cbn [mbind result_bind].
  rewrite to_same_units by apply coriolis_units. reflexivity.
Qed.

Lemma s_avor_spec : s_avor s2 = Ok s3.
Proof using Hlon Hlat Hu Hv LL.
  unfold s_avor, assign, s2, s1. read_names.
  fold U V zeta.
  rewrite qadd_same_units.
  - cbn [mbind result_bind]. unfold s3, avor_sum.
    unfold zeta. rewrite vorticity_units by reflexivity. reflexivity.
  - unfold f, zeta. rewrite coriolis_units, vorticity_units; reflexivity.
Qed.

Lemma s_avor_smooth_spec : s_avor_smooth s3 = Ok s4.
Proof using Type.
  unfold s_avor_smooth, assign, s3. read_names.
  rewrite parse_per_s. reflexivity.
Qed.

Lemma s_vort_adv_spec : s_vort_adv s4 = Ok s5.
Proof using Hlon Hlat Hu Hv.
  unfold s_vort_adv, assign, s4, s3, s2, s1. read_names. reflexivity.
Qed.

Lemma calculation_cell_spec : run calculation_cell s = Ok s5.
Proof using Hlon Hlat Hu Hv LL.
  unfold calculation_cell. cbn [run].
  rewrite s_deltas_spec. cbn [mbind result_bind].
  rewrite s_f_spec. cbn [mbind result_bind].
  rewrite s_avor_spec. cbn [mbind result_bind].
  rewrite s_avor_smooth_spec. cbn [mbind result_bind].
  rewrite s_vort_adv_spec. reflexivity.
Qed.

(** C1.  Absolute vorticity is the relative vorticity of the wind pair,
    computed with the grid spacings [dx], [dy] that
    [lat_lon_grid_deltas(lon, lat)] derives from the coordinate arrays,
    plus the Coriolis parameter of the latitudes; the vorticity advection
    is the advection of the Gaussian-smoothed absolute vorticity by the
    same wind pair with the same [dx], [dy] (bound to [vort_adv] after
    the display scaling by 1e9). *)
Theorem vorticity_advection_assembly :
  exists sa s',
    run [s_deltas; s_f; s_avor] s = Ok sa /\
    lookup_name "avor" sa
      = Ok (VQty (Quantity
                    (arr_add
                       (magnitude
                          (vorticity (tag units_m_s u) (tag units_m_s v)
                             (fst (lat_lon_grid_deltas lon lat))
                             (snd (lat_lon_grid_deltas lon lat))))
                       (magnitude (coriolis_parameter (deg2rad lat))))
                    units_per_s)) /\
    run [s_avor_smooth; s_vort_adv] sa = Ok s' /\
    run calculation_cell s = Ok s' /\
    exists avor_raw smoothed advected,
      lookup_name "avor" sa = Ok (VQty avor_raw) /\
      smoothed = tag units_per_s (gaussian_filter 3 (magnitude avor_raw)) /\
      advected = advection smoothed [tag units_m_s u; tag units_m_s v]
                   (lat_lon_grid_deltas lon lat) /\
      lookup_name "avor" s' = Ok (VQty smoothed) /\
      lookup_name "vort_adv" s'
        = Ok (VQty (qscale arr_scale 1000000000 advected)).
Proof using Hlon Hlat Hu Hv LL.
  exists s3, s5. repeat split.
  - cbn [run]. rewrite s_deltas_spec. cbn [mbind result_bind].
    rewrite s_f_spec. cbn [mbind result_bind].
    rewrite s_avor_spec. reflexivity.
  - unfold s3. now rewrite lookup_bind_eq.
  - cbn [run]. rewrite s_avor_smooth_spec. cbn [mbind result_bind].
    rewrite s_vort_adv_spec. reflexivity.
  - apply calculation_cell_spec.
  - exists avor_sum, avor_smooth, adv. repeat split.
    + unfold s3. now rewrite lookup_bind_eq.
    + unfold adv, dx, dy. now destruct (lat_lon_grid_deltas lon lat).
    + unfold s5, s4. read_names. reflexivity.
    + unfold s5. now rewrite lookup_bind_eq.
Qed.

End CalculationFacts.

Section SymbolicLaws.
Import Pint Py Provenance.

#[export] Instance symbolic_laws : CalcLibLaws symbolic.
Proof. split; reflexivity. Qed.

End SymbolicLaws.

Lemma vorticity_advection_assembly_witness :
  Provenance.bound_term "vort_adv"
    (Py.run Vorticity.calculation_cell Provenance.calc_state)
  = Some
      (Provenance.App "mul"
         [Provenance.App "advection"
            [Provenance.App "gaussian_filter"
               [Provenance.App "add"
                  [Provenance.App "vorticity"
                     [Provenance.Src "u"; Provenance.Src "v";
                      Provenance.App "grid_delta_x"
                        [Provenance.Src "lon"; Provenance.Src "lat"];
                      Provenance.App "grid_delta_y"
                        [Provenance.Src "lon"; Provenance.Src "lat"]];
                   Provenance.App "coriolis_parameter"
                     [Provenance.App "deg2rad" [Provenance.Src "lat"]]];
                Provenance.Num 3];
             Provenance.Src "u"; Provenance.Src "v";
             Provenance.App "grid_delta_x"
               [Provenance.Src "lon"; Provenance.Src "lat"];
             Provenance.App "grid_delta_y"
               [Provenance.Src "lon"; Provenance.Src "lat"]];
          Provenance.Num 1000000000]).
Proof.
  destruct (vorticity_advection_assembly (L := Provenance.symbolic)
              Provenance.calc_state (Provenance.Src "lon") (Provenance.Src "lat")
              (Provenance.Src "u") (Provenance.Src "v")
              eq_refl eq_refl eq_refl eq_refl)
    as (sa & s' & _ & Hraw & _ & Hrun & (a & sm & ad & Ha & -> & -> & _ & Hadv)).
  rewrite Hrun. unfold Provenance.bound_term.
  apply lookup_name_Ok in Hadv. rewrite Hadv.
  rewrite Hraw in Ha. injection Ha as <-. reflexivity.
Defined.

(** ** Smoothing and units *)

Section SmoothingFacts.
Import Pint Py Vorticity.
Context {L : CalcLib}.

Lemma s_hght_500_smooth_spec (s : state) (hv : value) (x : arr) :
  lookup_name "hght_500" s = Ok hv -> asarray hv = Ok x ->
  s_hght_500_smooth s
  = Ok (bind_name "hght_500" (VQty (Quantity (gaussian_filter 3 x) units_meter)) s).
Proof.
  intros Hh Ha. unfold s_hght_500_smooth, assign. rewrite Hh.
  cbn [mbind result_bind]. rewrite Ha. reflexivity.
Qed.

Lemma s_avor_smooth_any (s : state) (av : value) (y : arr) :
  lookup_name "avor" s = Ok av -> asarray av = Ok y ->
  s_avor_smooth s
  = Ok (bind_name "avor" (VQty (Quantity (gaussian_filter 3 y) units_per_s)) s).
Proof.
  intros Hh Ha. unfold s_avor_smooth, assign. rewrite Hh.
  cbn [mbind result_bind]. rewrite Ha. cbn [mbind result_bind].
  rewrite parse_per_s. reflexivity.
Qed.

(** C10.  Whatever unit the input of a smoothing step carries, the output
    carries the unit written in the statement (meter for the height,
    1/s for the absolute vorticity) and its magnitude is the filter applied
    to the input's bare magnitude: the unit of the input is dropped and no
    magnitude is converted. *)
Theorem smoothing_reattaches_hardcoded_unit (s : state) (x y : arr)
    (ux uy : pint_unit) :
  lookup_name "hght_500" s = Ok (VQty (Quantity x ux)) ->
  lookup_name "avor" s = Ok (VQty (Quantity y uy)) ->
  (exists s',
      s_hght_500_smooth s = Ok s' /\
      lookup_name "hght_500" s'
      = Ok (VQty (Quantity (gaussian_filter 3 x) units_meter))) /\
  (exists s',
      s_avor_smooth s = Ok s' /\
      lookup_name "avor" s'
      = Ok (VQty (Quantity (gaussian_filter 3 y) units_per_s))) /\
  (forall s0,
      lookup_name "hght_500" s0 = Ok (VArr x) ->
      exists s',
        s_hght_500_smooth s0 = Ok s' /\
        lookup_name "hght_500" s'
        = Ok (VQty (Quantity (gaussian_filter 3 x) units_meter))).
Proof.
  intros Hh Ha. repeat split.
  - eexists. split.
    + now apply (s_hght_500_smooth_spec s (VQty (Quantity x ux)) x).
    + apply lookup_bind_eq.
  - eexists. split.
    + now apply (s_avor_smooth_any s (VQty (Quantity y uy)) y).
    + apply lookup_bind_eq.
  - intros s0 H0. eexists. split.
    + now apply (s_hght_500_smooth_spec s0 (VArr x) x).
    + apply lookup_bind_eq.
Qed.

End SmoothingFacts.

(** A height field and a vorticity field both tagged in feet go in; meter
    and 1/s come out, over the filtered bare magnitudes. *)
Lemma smoothing_reattaches_hardcoded_unit_witness :
  Provenance.bound_term "hght_500" (Vorticity.s_hght_500_smooth Provenance.calc_state)
  = Some (Provenance.App "gaussian_filter" [Provenance.Src "hght"; Provenance.Num 3]) /\
  exists s',
    Vorticity.s_hght_500_smooth Provenance.calc_state = Ok s' /\
    Py.lookup_name "hght_500" s'
    = Ok (Py.VQty (L := Provenance.symbolic)
            (Pint.Quantity
               (Provenance.App "gaussian_filter" [Provenance.Src "hght"; Provenance.Num 3])
               Pint.units_meter)).
Proof.
  destruct (smoothing_reattaches_hardcoded_unit (L := Provenance.symbolic)
              Provenance.calc_state (Provenance.Src "hght") (Provenance.Src "avor")
              Provenance.feet Provenance.feet eq_refl eq_refl)
    as ((s' & Hrun & Hout) & _).
  split.
  - rewrite Hrun. unfold Provenance.bound_term.
    apply lookup_name_Ok in Hout. now rewrite Hout.
  - exists s'. split; assumption.
Defined.

(** ** Bindings that later statements leave alone *)

(** Case analysis on a successful run of a statement. *)
Ltac split_result H :=
  repeat match type of H with
    | Ok _ = Ok _ => injection H as <-
    | Raise _ = Ok _ => discriminate H
    | context [mbind _ ?r] => destruct r eqn:?; cbn [mbind result_bind] in H
    | context [match ?r with _ => _ end] => destruct r eqn:?
    end.

Section FrameFacts.
Import Py.
Context {L : CalcLib}.

Lemma assign_preserves (x y : string) (e : state -> result value) :
  y <> x -> preserves x (assign y e).
Proof.
  intros Hne s s' H. unfold assign in H. split_result H.
  now apply lookup_bind_ne.
Qed.

Lemma assign_keeps_title (loc y : string) (e : state -> result value) :
  keeps_title loc (assign y e).
Proof.
  intros s s' H. unfold assign in H. split_result H. reflexivity.
Qed.

Lemma axes_stmt_preserves (x receiver method : string) :
  preserves x (axes_stmt receiver method).
Proof.
  intros s s' H. unfold axes_stmt in H. split_result H. reflexivity.
Qed.

Lemma axes_stmt_keeps_title (loc receiver method : string) :
  keeps_title loc (axes_stmt receiver method).
Proof.
  intros s s' H. unfold axes_stmt in H. split_result H. reflexivity.
Qed.

Lemma run_preserves (x : string) (prog : list stmt) :
  Forall (preserves x) prog -> preserves x (run prog).
Proof.
  induction 1 as [|st prog Hst _ IH]; intros s s' H.
  - simpl in H. now injection H as <-.
  - apply run_cons_Ok in H as (s1 & H1 & H2).
    rewrite (IH s1 s' H2). now apply Hst.
Qed.

Lemma run_keeps_title (loc : string) (prog : list stmt) :
  Forall (keeps_title loc) prog -> keeps_title loc (run prog).
Proof.
  induction 1 as [|st prog Hst _ IH]; intros s s' H.
  - simpl in H. now injection H as <-.
  - apply run_cons_Ok in H as (s1 & H1 & H2).
    rewrite (IH s1 s' H2). now apply Hst.
Qed.

End FrameFacts.

(** A statement of either notebook that does not assign [x] preserves it. *)
Ltac solve_preserves :=
  first
    [ apply assign_preserves; discriminate
    | apply axes_stmt_preserves
    | let s := fresh "s" in
      let s' := fresh "s'" in
      let H := fresh "H" in
      intros s s' H;
      unfold Vorticity.s_deltas, Vorticity.s_title_left, Vorticity.s_title_right,
        Vorticity.s_cs, Vorticity.s_cs2, Vorticity.s_cf, Vorticity.s_barbs,
        Xarray.s_mesh, Xarray.s_print, Xarray.s_cs, Xarray.s_clabel,
        Xarray.s_label_boxes,
        Xarray.s_barbs, Xarray.s_title_left, Xarray.s_title_right in H;
      split_result H; read_names; reflexivity ].

Ltac solve_keeps_title :=
  first
    [ apply assign_keeps_title
    | apply axes_stmt_keeps_title
    | let s := fresh "s" in
      let s' := fresh "s'" in
      let H := fresh "H" in
      intros s s' H;
      unfold Vorticity.s_deltas, Vorticity.s_cs, Vorticity.s_cs2, Vorticity.s_cf,
        Vorticity.s_barbs, Xarray.s_mesh, Xarray.s_print, Xarray.s_cs,
        Xarray.s_clabel, Xarray.s_label_boxes, Xarray.s_barbs in H;
      split_result H; reflexivity ].

Ltac each_statement tac :=
  repeat first [ apply List.Forall_nil | apply List.Forall_cons; [tac|] ].

(** ** Stepping through a run *)

Section RunSteps.
Import Py.
Context {L : CalcLib}.

Lemma run_step_ok (st : stmt) (rest : list stmt) (s s1 : state) :
  st s = Ok s1 -> run (st :: rest) s = run rest s1.
Proof. intros H. cbn [run]. now rewrite H. Qed.

Lemma run_step_raise (st : stmt) (rest : list stmt) (s : state) (e : exn) :
  st s = Raise e -> run (st :: rest) s = Raise e.
Proof. intros H. cbn [run]. now rewrite H. Qed.

Lemma run_app_raise (p q : list stmt) (s : state) (e : exn) :
  run p s = Raise e -> run (p ++ q) s = Raise e.
Proof. intros H. rewrite run_app, H. reflexivity. Qed.


End RunSteps.

(** Using the equations at hand on the reads of a statement. *)
Ltac known :=
  repeat match goal with
    | H : ?l = Ok _ |- context [?l] => rewrite H
    | H : ?l = Some _ |- context [?l] => rewrite H
    | H : ?l = Raise _ |- context [?l] => rewrite H
    | H : ?l = None |- context [?l] => rewrite H
    | H : ?l = Py.Coord1D _ |- context [?l] => rewrite H
    | H : ?l = Py.Grid2D _ |- context [?l] => rewrite H
    | H : ?l = Py.Grid4D _ |- context [?l] => rewrite H
    | H : ?l = _ :: _ |- context [?l] => rewrite H
    end.

Ltac exec_vorticity :=
  unfold Vorticity.s_dt, Vorticity.s_base_url, Vorticity.s_cat, Vorticity.s_ncss,
    Vorticity.s_query, Vorticity.s_query_time, Vorticity.s_query_accept,
    Vorticity.s_query_variables, Vorticity.s_query_lonlat, Vorticity.s_ds,
    Vorticity.s_lon, Vorticity.s_lat, Vorticity.s_times, Vorticity.s_vtime,
    Vorticity.s_lev_500, Vorticity.s_hght_500, Vorticity.s_hght_500_smooth,
    Vorticity.s_uwnd_500, Vorticity.s_vwnd_500,
    Vorticity.s_dproj, Vorticity.s_globe, Vorticity.s_datacrs, Vorticity.s_plotcrs,
    Vorticity.s_fig, Vorticity.s_gs, Vorticity.s_ax, Vorticity.s_title_left,
    Vorticity.s_title_right, Vorticity.s_set_extent, Vorticity.s_coastlines,
    Vorticity.s_add_feature, Vorticity.s_clev500, Vorticity.s_cs,
    Vorticity.s_clabel_cs, Vorticity.s_clevvort500, Vorticity.s_cs2,
    Vorticity.s_clabel_cs2, Vorticity.s_clev_avoradv,
    Vorticity.s_cf, Vorticity.s_cax, Vorticity.s_cb, Vorticity.s_cb_label,
    Vorticity.s_barbs,
    Vorticity.slice_500, Py.axes_stmt, Py.assign, Py.nc_var, Py.payload_1d,
    Py.payload_2d, Py.payload_4d;
  repeat (progress (read_names; known;
                    cbn [of_option mbind result_bind Py.q_time Py.q_accept
                         Py.q_variables Py.q_lonlat app Py.py_str]));
  try reflexivity.

Ltac exec_xarray :=
  unfold Xarray.s_dt, Xarray.s_base_url, Xarray.s_data, Xarray.s_mesh,
    Xarray.s_vtimes, Xarray.s_print, Xarray.s_hght_500, Xarray.s_uwnd_500,
    Xarray.s_vwnd_500, Xarray.sel_500, Xarray.s_datacrs, Xarray.s_plotcrs,
    Xarray.s_fig, Xarray.s_ax, Xarray.s_coastlines, Xarray.s_add_feature,
    Xarray.s_set_extent, Xarray.s_clev500, Xarray.s_cs, Xarray.s_clabel,
    Xarray.s_barbs, Xarray.s_title_left, Xarray.s_title_right,
    Py.axes_stmt, Py.assign, Select.getitem;
  cbn zeta;
  repeat (progress (read_names; known;
                    cbn [of_option mbind result_bind Py.py_str lookup list_lookup]));
  try reflexivity.

(** A successful cast tells the kind of the value. *)
Ltac cast_inv :=
  repeat match goal with
    | Hq : ?f ?a = Ok _ |- _ =>
        is_var a;
        match type of a with Py.value => idtac end;
        destruct a; try discriminate Hq;
        cbn [Py.the_arr Py.the_qty Py.the_int Py.the_coord Py.the_dt Py.the_str
             Py.the_dates Py.the_catalog Py.the_ncss Py.the_query Py.the_nc
             Py.the_ncvar Py.the_xr Py.the_sel Py.asarray Py.py_str] in Hq;
        try discriminate Hq
    end.

(** Taking the equations of a successful step apart, call by call. *)
Ltac crack :=
  repeat first
    [ progress cast_inv
    | match goal with
      | Hq : ?t = Ok _ |- _ =>
          match t with
          | context [mbind] => split_result Hq
          | context [match _ with _ => _ end] => split_result Hq
          | of_option _ ?o =>
              destruct o eqn:?; cbn [of_option] in Hq;
              [injection Hq as <- | discriminate Hq]
          | Ok _ => injection Hq as <-
          end
      end ].

(** One statement of a successful run, taken apart. *)
Ltac inv_step_by exec H :=
  let s1 := fresh "s" in
  let H1 := fresh "H1" in
  apply run_cons_Ok in H as (s1 & H1 & H);
  revert H1; exec; intros H1; crack.

Ltac inv_step H := inv_step_by exec_vorticity H.

Section ValidTimeVorticity.
Import Pint Select Py Vorticity.
Context {L : CalcLib} (R : remote).

Lemma notebook_cut :
  notebook R
  = (upto_vtime R ++ [s_vtime] ++ vtime_to_title ++ [s_title_right] ++ after_title)%list.
Proof. reflexivity. Qed.

Lemma vtime_to_title_preserves : Forall (preserves "vtime") vtime_to_title.
Proof.
  unfold vtime_to_title, calculation_cell. cbn [app].
  each_statement solve_preserves.
Qed.

Lemma after_title_preserves : Forall (preserves "vtime") after_title.
Proof. unfold after_title. each_statement solve_preserves. Qed.

Lemma after_title_keeps_title : Forall (keeps_title "right") after_title.
Proof. unfold after_title. each_statement solve_keeps_title. Qed.

Lemma s_vtime_binds (s s1 : state) :
  s_vtime s = Ok s1 ->
  exists (t : nc_variable) (c : list Q),
    lookup_name "times" s = Ok (VNcVar t) /\ nc_data t = Coord1D c /\
    lookup_name "vtime" s1 = Ok (VDate (num2date c (nc_units t))).
Proof.
  intros H. unfold s_vtime, assign in H.
  destruct (lookup_name "times" s) as [tv|] eqn:Ht; cbn [mbind result_bind] in H;
    [|discriminate].
  destruct tv; cbn [the_ncvar mbind result_bind] in H; try discriminate.
  unfold payload_1d in H.
  destruct (nc_data v) eqn:Hd; cbn [mbind result_bind] in H; try discriminate.
  injection H as <-. exists v, c. repeat split; auto.
  apply lookup_bind_eq.
Qed.

Lemma s_title_right_writes (s s' : state) :
  s_title_right s = Ok s' ->
  exists t, (v ← lookup_name "vtime" s; py_str v) = Ok t /\
            fig_titles (fig s') !! "right" = Some ("VALID: " +:+ t) /\
            lookup_name "vtime" s' = lookup_name "vtime" s.
Proof.
  intros H. unfold s_title_right in H.
  destruct (lookup_name "vtime" s) as [v|] eqn:Hv; cbn [mbind result_bind] in *;
    [|discriminate].
  destruct (py_str v) as [t|] eqn:Ht; cbn [mbind result_bind] in H; [|discriminate].
  injection H as <-. exists t. split; [reflexivity|]. split.
  - simpl. apply lookup_insert_eq.
  - rewrite lookup_set_title. exact Hv.
Qed.

(** What [times] is bound to when [vtime] is computed: the variable of the
    subset response that the first dimension of the height variable
    names. *)
Lemma upto_vtime_inv (s0 s1 : state) :
  run (upto_vtime R) s0 = Ok s1 ->
  exists ds vh tdim vt,
    requested R = Ok ds /\
    ds !! hght_name = Some vh /\
    getitem (nc_dimensions vh) 0 = Ok tdim /\
    ds !! tdim = Some vt /\
    lookup_name "ds" s1 = Ok (VNc ds) /\
    lookup_name "times" s1 = Ok (VNcVar vt).
Proof.
  intros Ha.
  match goal with |- ?G => set (P := G) end.
  unfold upto_vtime in Ha.
  do 13 (inv_step Ha).
  cbn [run] in Ha. injection Ha as <-.
  match goal with
  | Hcat : tds_catalog R _ = Ok ?cat, Hkey : ?cat !! _ = Some ?svc,
    Hsvc : ?svc _ = Ok ?ds |- _ =>
      assert (Hreq : requested R = Ok ds)
        by (unfold requested, query_sent;
            change (Acquire.catalog_url Acquire.dt0)
              with (Acquire.catalog_url_from Acquire.catalog_base_url Acquire.dt0);
            rewrite Hcat; cbn [mbind result_bind]; rewrite Hkey;
            cbn [of_option mbind result_bind]; exact Hsvc)
  end.
  subst P. do 4 eexists.
  split; [exact Hreq|].
  do 3 (split; [eassumption|]).
  split; read_names; reflexivity.
Qed.

Lemma vtime_fixed (s0 s' : state) :
  run (notebook R) s0 = Ok s' ->
  exists (ds : nc_dataset) (vh : nc_variable) (tdim : string)
         (sv : state) (t : nc_variable) (c : list Q),
    requested R = Ok ds /\
    ds !! hght_name = Some vh /\
    getitem (nc_dimensions vh) 0 = Ok tdim /\
    ds !! tdim = Some t /\
    run (upto_vtime R ++ [s_vtime])%list s0 = Ok sv /\
    nc_data t = Coord1D c /\
    lookup_name "vtime" sv = Ok (VDate (num2date c (nc_units t))) /\
    lookup_name "vtime" s' = lookup_name "vtime" sv /\
    fig_titles (fig s') !! "right"
    = Some ("VALID: " +:+ str_datetime (num2date c (nc_units t))).
Proof.
  rewrite notebook_cut. intros H.
  apply run_app_Ok in H as (sa & Ha & H).
  apply run_app_Ok in H as (sv & Hv & H).
  apply run_app_Ok in H as (sb & Hb & H).
  apply run_app_Ok in H as (sc & Hc & Hd).
  apply run_cons_Ok in Hv as (sv' & Hv & Hnil). injection Hnil as ->.
  apply run_cons_Ok in Hc as (sc' & Hc & Hnil). injection Hnil as ->.
  destruct (s_vtime_binds sa sv Hv) as (t & c & Htimes & Hdata & Hbound).
  destruct (upto_vtime_inv s0 sa Ha)
    as (ds & vh & tdim & vt & Hreq & Hvh & Hdim & Hvt & _ & Htimes').
  rewrite Htimes' in Htimes. injection Htimes as ->.
  pose proof (run_preserves "vtime" _ vtime_to_title_preserves sv sb Hb) as Hkeep1.
  destruct (s_title_right_writes sb sc Hc) as (txt & Htxt & Htitle & Hkeep2).
  pose proof (run_preserves "vtime" _ after_title_preserves sc s' Hd) as Hkeep3.
  pose proof (run_keeps_title "right" _ after_title_keeps_title sc s' Hd) as Hkeep4.
  exists ds, vh, tdim, sv, t, c. repeat split; auto.
  - apply run_app_Ok. exists sa. split; [exact Ha|].
    apply run_cons_Ok. exists sv. split; [exact Hv | reflexivity].
  - now rewrite Hkeep3, Hkeep2, Hkeep1.
  - rewrite Hkeep4, Htitle. rewrite Hkeep1, Hbound in Htxt.
    cbn [mbind result_bind py_str] in Htxt. now injection Htxt as <-.
Qed.

End ValidTimeVorticity.

Section ValidTimeXarray.
Import Pint Select Py Xarray.
Context {L : CalcLib} (R : remote).

Lemma xarray_notebook_cut :
  notebook R
  = ((access_cell R ++ mesh_cell) ++ times_cell ++ selection_cell
       ++ map_before_title ++ [s_title_right])%list.
Proof. reflexivity. Qed.

Lemma s_append_spec (d : xr_dataset) (tm : list Z) (k : nat) (x : Z)
    (l : list pydatetime) (s : state) :
  xr_times d !! "time" = Some tm -> tm !! k = Some x ->
  lookup_name "data" s = Ok (VXr d) ->
  lookup_name "vtimes" s = Ok (VDates l) ->
  s_append k s
  = Ok (bind_name "vtimes" (VDates (l ++ [utcfromtimestamp x]))
          (bind_name "t" (VInt k) s)).
Proof.
  intros Htm Hk Hd Hl. unfold s_append. cbn zeta. read_names.
  rewrite Htm. cbn [of_option mbind result_bind].
  unfold getitem. rewrite Hk. cbn [of_option mbind result_bind].
  read_names. reflexivity.
Qed.

(** The loop appends the decoded times in order, one per pass; it binds
    [t] and [vtimes] and nothing else, and draws nothing. *)
Lemma vtimes_loop_runs (d : xr_dataset) (tm : list Z) :
  xr_times d !! "time" = Some tm ->
  forall (n k : nat) (l : list pydatetime) (s : state),
    lookup_name "data" s = Ok (VXr d) ->
    lookup_name "vtimes" s = Ok (VDates l) ->
    (k + n <= length tm)%nat ->
    exists s',
      run (map s_append (seq k n)) s = Ok s' /\
      lookup_name "vtimes" s'
      = Ok (VDates (l ++ map utcfromtimestamp (take n (drop k tm)))) /\
      fig s' = fig s /\
      forall x, x <> "t" -> x <> "vtimes" -> lookup_name x s' = lookup_name x s.
Proof.
  intros Htm. induction n as [|n IH]; intros k l s Hd Hl Hlen.
  - exists s. cbn [seq map run]. rewrite take_0. cbn [map].
    rewrite app_nil_r. auto.
  - destruct (lookup_lt_is_Some_2 tm k) as [x Hx]; [lia|].
    cbn [seq map run].
    rewrite (s_append_spec d tm k x l s Htm Hx Hd Hl). cbn [mbind result_bind].
    destruct (IH (S k) (l ++ [utcfromtimestamp x])
                (bind_name "vtimes" (VDates (l ++ [utcfromtimestamp x]))
                   (bind_name "t" (VInt k) s)))
      as (s' & Hrun & Hl' & Hfig & Hframe).
    + read_names. reflexivity.
    + read_names. reflexivity.
    + lia.
    + exists s'. split; [exact Hrun|]. split; [|split].
      * rewrite Hl'. rewrite (drop_S tm x k Hx). cbn [firstn map].
        now rewrite <- app_assoc.
      * rewrite Hfig. reflexivity.
      * intros y Hy1 Hy2. rewrite (Hframe y Hy1 Hy2).
        rewrite !lookup_bind_ne by congruence. reflexivity.
Qed.

(** A times cell that completes has found [range] and [print] callable,
    has bound [vtimes] to the decoded entries of [data.time] and, when
    that coordinate is not empty, [t]; it has bound nothing else and
    drawn nothing. *)
Lemma times_cell_binds (d : xr_dataset) (s s' : state) :
  lookup_name "data" s = Ok (VXr d) ->
  run times_cell s = Ok s' ->
  exists tm,
    xr_times d !! "time" = Some tm /\
    lookup_name "data" s' = Ok (VXr d) /\
    lookup_name "vtimes" s' = Ok (VDates (map utcfromtimestamp tm)) /\
    fig s' = fig s /\
    (forall x, x <> "t" -> x <> "vtimes" -> lookup_name x s' = lookup_name x s).
Proof.
  intros Hd H. unfold times_cell in H. cbn [run] in H.
  unfold s_vtimes at 1, assign in H. cbn [mbind result_bind] in H.
  unfold s_vtimes_loop at 1 in H. cbn zeta in H.
  rewrite lookup_bind_ne in H by discriminate.
  rewrite Hd in H. cbn [the_xr mbind result_bind] in H.
  destruct (xr_times d !! "time") as [tm|] eqn:Htm;
    cbn [of_option mbind result_bind] in H; [|discriminate].
  destruct (call_range _ (length tm)) as [ks|] eqn:Hks;
    cbn [mbind result_bind] in H; [|discriminate].
  apply call_range_Ok_inv in Hks as [_ ->].
  destruct (vtimes_loop_runs d tm Htm (length tm) 0 []
              (bind_name "vtimes" (VDates []) s))
    as (s1 & Hrun & Hl1 & Hfig & Hframe).
  { read_names. reflexivity. }
  { read_names. reflexivity. }
  { lia. }
  rewrite Hrun in H. cbn [mbind result_bind] in H.
  unfold s_print in H. cbn zeta in H. rewrite Hl1 in H.
  cbn [mbind result_bind] in H.
  destruct (call_print _ _) as [u|]; cbn [mbind result_bind] in H; [|discriminate].
  injection H as <-.
  exists tm. split; [reflexivity|]. split; [|split; [|split]].
  - rewrite Hframe by discriminate. read_names. reflexivity.
  - rewrite Hl1. rewrite drop_0, firstn_all. reflexivity.
  - rewrite Hfig. reflexivity.
  - intros x Hx1 Hx2. rewrite (Hframe x Hx1 Hx2).
    rewrite lookup_bind_ne by congruence. reflexivity.
Qed.

Lemma access_binds_data (s s' : state) :
  run (access_cell R ++ mesh_cell)%list s = Ok s' ->
  exists d,
    open_dataset R (Acquire.opendap_url Acquire.dt0) = Ok d /\
    lookup_name "data" s' = Ok (VXr d).
Proof.
  intros H.
  match goal with |- ?G => set (P := G) end.
  unfold access_cell, mesh_cell in H. cbn [app] in H.
  do 4 (inv_step_by exec_xarray H).
  cbn [run] in H. injection H as <-.
  subst P. eexists. split; [eassumption|]. read_names. reflexivity.
Qed.

Lemma sel_500_reads (name : string) (s : state) (v : value) (d : xr_dataset)
    (t0 : pydatetime) (rest : list pydatetime) :
  lookup_name "data" s = Ok (VXr d) ->
  lookup_name "vtimes" s = Ok (VDates (t0 :: rest)) ->
  sel_500 name s = Ok v ->
  exists da r,
    xr_vars d !! name = Some da /\
    sel_time1_isobaric da (timestamp_ns t0) 500 = Ok r /\
    v = VSel r.
Proof.
  intros Hd Hl H. unfold sel_500 in H. rewrite Hd, Hl in H.
  cbn [the_xr the_dates mbind result_bind] in H.
  destruct (xr_vars d !! name) as [da|]; cbn [of_option mbind result_bind] in H;
    [|discriminate].
  unfold getitem in H. cbn [lookup list_lookup of_option mbind result_bind] in H.
  destruct (sel_time1_isobaric da (timestamp_ns t0) 500) as [r|] eqn:Hr;
    cbn [mbind result_bind] in H; [|discriminate].
  injection H as <-. eauto.
Qed.

Lemma selection_cell_preserves (x : string) :
  x <> "hght_500" -> x <> "uwnd_500" -> x <> "vwnd_500" ->
  Forall (preserves x) selection_cell.
Proof.
  intros H1 H2 H3. unfold selection_cell.
  each_statement ltac:(apply assign_preserves; congruence).
Qed.

Lemma map_before_title_preserves : Forall (preserves "vtimes") map_before_title.
Proof. unfold map_before_title. each_statement solve_preserves. Qed.

Lemma map_before_title_preserves_hght :
  Forall (preserves "hght_500") map_before_title.
Proof. unfold map_before_title. each_statement solve_preserves. Qed.

Lemma xarray_title_right_writes (s s' : state) (t0 : pydatetime)
    (rest : list pydatetime) :
  lookup_name "vtimes" s = Ok (VDates (t0 :: rest)) ->
  s_title_right s = Ok s' ->
  fig_titles (fig s') !! "right" = Some ("VALID: " +:+ str_datetime t0) /\
  lookup_name "vtimes" s' = lookup_name "vtimes" s /\
  lookup_name "hght_500" s' = lookup_name "hght_500" s.
Proof.
  intros Hl H. unfold s_title_right in H. rewrite Hl in H.
  cbn [the_dates mbind result_bind] in H. unfold getitem in H.
  cbn [lookup list_lookup of_option mbind result_bind] in H.
  injection H as <-. repeat split. simpl. apply lookup_insert_eq.
Qed.

Lemma vtimes_fixed (s0 s' : state) :
  run (notebook R) s0 = Ok s' ->
  exists (sv : state) (d : xr_dataset) (tm : list Z) (t0 : pydatetime)
         (rest : list pydatetime) (da : data_array arr) (r : selected arr),
    open_dataset R (Acquire.opendap_url Acquire.dt0) = Ok d /\
    run ((access_cell R ++ mesh_cell) ++ times_cell)%list s0 = Ok sv /\
    xr_times d !! "time" = Some tm /\
    map utcfromtimestamp tm = t0 :: rest /\
    lookup_name "vtimes" sv = Ok (VDates (t0 :: rest)) /\
    lookup_name "vtimes" s' = lookup_name "vtimes" sv /\
    xr_vars d !! Vorticity.hght_name = Some da /\
    sel_time1_isobaric da (timestamp_ns t0) 500 = Ok r /\
    lookup_name "hght_500" s' = Ok (VSel r) /\
    fig_titles (fig s') !! "right" = Some ("VALID: " +:+ str_datetime t0).
Proof.
  rewrite xarray_notebook_cut. intros H.
  apply run_app_Ok in H as (sa & Ha & H).
  apply run_app_Ok in H as (sv & Hv & H).
  apply run_app_Ok in H as (ss & Hs & H).
  apply run_app_Ok in H as (sm & Hm & Ht).
  apply run_cons_Ok in Ht as (st & Ht & Hnil). injection Hnil as ->.
  destruct (access_binds_data s0 sa Ha) as (d & Hopen & Hd).
  destruct (times_cell_binds d sa sv Hd Hv) as (tm & Htm & Hdv & Hlv & _).
  (* the first selection needs [vtimes[0]] *)
  pose proof Hs as Hs'. unfold selection_cell in Hs'.
  apply run_cons_Ok in Hs' as (s1 & H1 & Hs').
  unfold s_hght_500, assign in H1.
  destruct (sel_500 Vorticity.hght_name sv) as [v|] eqn:Hsel;
    cbn [mbind result_bind] in H1; [|discriminate].
  injection H1 as <-.
  destruct (map utcfromtimestamp tm) as [|t0 rest] eqn:Hmap.
  { unfold sel_500 in Hsel. rewrite Hdv, Hlv in Hsel.
    cbn [the_xr the_dates mbind result_bind] in Hsel.
    destruct (xr_vars d !! Vorticity.hght_name);
      cbn [of_option mbind result_bind] in Hsel; discriminate. }
  destruct (sel_500_reads _ sv v d t0 rest Hdv Hlv Hsel) as (da & r & Hda & Hr & ->).
  assert (Hh1 : lookup_name "hght_500" ss = Ok (VSel r)).
  { assert (Hp : Forall (preserves "hght_500") [s_uwnd_500; s_vwnd_500])
      by (each_statement ltac:(apply assign_preserves; discriminate)).
    rewrite (run_preserves "hght_500" _ Hp _ _ Hs'). apply lookup_bind_eq. }
  assert (Hl1 : lookup_name "vtimes" ss = lookup_name "vtimes" sv).
  { apply (run_preserves "vtimes" selection_cell); [|exact Hs].
    apply selection_cell_preserves; discriminate. }
  pose proof (run_preserves "vtimes" _ map_before_title_preserves ss sm Hm) as Hl2.
  pose proof (run_preserves "hght_500" _ map_before_title_preserves_hght ss sm Hm) as Hh2.
  destruct (xarray_title_right_writes sm s' t0 rest) as (Htitle & Hl3 & Hh3);
    [now rewrite Hl2, Hl1 | exact Ht |].
  exists sv, d, tm, t0, rest, da, r. repeat split; auto.
  - apply run_app_Ok. eauto.
  - now rewrite Hl3, Hl2, Hl1.
  - now rewrite Hh3, Hh2.
Qed.

End ValidTimeXarray.

(** ** The valid time *)

Section ValidTime.
Import Pint Select Py.
Context {L : CalcLib} (R : remote).

(** C9.  The valid time is computed once, from the time coordinate, and no
    later statement rebinds it.  In the vorticity notebook the value is
    [num2date] of the offsets and the units of the variable that the first
    dimension of the height variable names in the response to the subset
    request; in the xarray notebook the list holds [utcfromtimestamp] of
    each entry of the coordinate [time] of the dataset opened at the
    OPeNDAP address.  At the end of a run the name still holds the value
    it was created with, the right-hand title interpolates that value,
    and (xarray notebook) the time label used for selection is that
    value's. *)
Theorem valid_time_never_mutated (s0 s' : state) :
  (run (Vorticity.notebook R) s0 = Ok s' ->
   exists (ds : nc_dataset) (vh : nc_variable) (tdim : string)
          (sv : state) (t : nc_variable) (c : list Q),
     Vorticity.requested R = Ok ds /\
     ds !! Vorticity.hght_name = Some vh /\
     getitem (nc_dimensions vh) 0 = Ok tdim /\
     ds !! tdim = Some t /\
     run (Vorticity.upto_vtime R ++ [Vorticity.s_vtime])%list s0 = Ok sv /\
     nc_data t = Coord1D c /\
     lookup_name "vtime" sv = Ok (VDate (num2date c (nc_units t))) /\
     lookup_name "vtime" s' = lookup_name "vtime" sv /\
     fig_titles (fig s') !! "right"
     = Some ("VALID: " +:+ str_datetime (num2date c (nc_units t)))) /\
  (run (Xarray.notebook R) s0 = Ok s' ->
   exists (sv : state) (d : xr_dataset) (tm : list Z) (t0 : pydatetime)
          (rest : list pydatetime) (da : data_array arr) (r : selected arr),
     open_dataset R (Acquire.opendap_url Acquire.dt0) = Ok d /\
     run ((Xarray.access_cell R ++ Xarray.mesh_cell) ++ Xarray.times_cell)%list s0
     = Ok sv /\
     xr_times d !! "time" = Some tm /\
     map utcfromtimestamp tm = t0 :: rest /\
     lookup_name "vtimes" sv = Ok (VDates (t0 :: rest)) /\
     lookup_name "vtimes" s' = lookup_name "vtimes" sv /\
     xr_vars d !! Vorticity.hght_name = Some da /\
     sel_time1_isobaric da (timestamp_ns t0) 500 = Ok r /\
     lookup_name "hght_500" s' = Ok (VSel r) /\
     fig_titles (fig s') !! "right" = Some ("VALID: " +:+ str_datetime t0)).
Proof.
  split.
  - apply vtime_fixed.
  - apply vtimes_fixed.
Qed.

End ValidTime.

Lemma valid_time_never_mutated_witness :
  (exists s',
      Py.run (Vorticity.notebook Provenance.sample_remote) Py.initial = Ok s' /\
      Py.fig_titles (Py.fig s') !! "right" = Some "VALID: num2date") /\
  (exists s',
      Py.run (Xarray.notebook Provenance.sample_remote) Py.initial = Ok s' /\
      Py.fig_titles (Py.fig s') !! "right" = Some "VALID: utcfromtimestamp").
Proof.
  split.
  - assert (Hok : is_ok (Py.run (Vorticity.notebook Provenance.sample_remote) Py.initial)
                  = true) by (vm_compute; reflexivity).
    destruct (Py.run (Vorticity.notebook Provenance.sample_remote) Py.initial)
      as [s'|e] eqn:E; [|discriminate Hok].
    exists s'. split; [reflexivity|].
    destruct (proj1 (valid_time_never_mutated Provenance.sample_remote Py.initial s') E)
      as (ds & vh & tdim & sv & t & c & _ & _ & _ & _ & _ & _ & _ & _ & Htitle).
    exact Htitle.
  - assert (Hok : is_ok (Py.run (Xarray.notebook Provenance.sample_remote) Py.initial)
                  = true) by (vm_compute; reflexivity).
    destruct (Py.run (Xarray.notebook Provenance.sample_remote) Py.initial)
      as [s'|e] eqn:E; [|discriminate Hok].
    exists s'. split; [reflexivity|].
    destruct (proj2 (valid_time_never_mutated Provenance.sample_remote Py.initial s') E)
      as (sv & d & tm & t0 & rest & da & r & _ & Hrun & Htm & Hmap & _ & _ & _ & _ & _
          & Htitle).
    rewrite Htitle. f_equal.
    assert (Hstr : Forall (fun t => str_datetime (CalcLib := Provenance.symbolic) t
                                   = "utcfromtimestamp")
                     (map (utcfromtimestamp (CalcLib := Provenance.symbolic)) tm))
      by (clear; induction tm; simpl; constructor; auto).
    rewrite Hmap in Hstr. apply Forall_cons in Hstr as [-> _]. reflexivity.
Defined.

(** ** What reads a smoothed field *)

Section SmoothingUse.
Import Pint Select Py.
Context {L : CalcLib} {LL : CalcLibLaws L}.

Lemma xarray_s_cs_effect (s s' : state) :
  Xarray.s_cs s = Ok s' ->
  (forall x, x <> "cs" -> lookup_name x s' = lookup_name x s) /\
  exists hv h mx my lv,
    lookup_name "hght_500" s = Ok hv /\ asarray hv = Ok h /\
    fig_layers (fig s') = fig_layers (fig s) ++ [Contour mx my (gaussian_filter 5 h) lv].
Proof.
  intros H. unfold Xarray.s_cs in H.
  destruct (lookup_name "ax" s); cbn [mbind result_bind] in H; [|discriminate].
  destruct (lookup_name "x" s) as [vx|]; cbn [mbind result_bind] in H; [|discriminate].
  destruct (the_arr vx) as [mx|]; cbn [mbind result_bind] in H; [|discriminate].
  destruct (lookup_name "y" s) as [vy|]; cbn [mbind result_bind] in H; [|discriminate].
  destruct (the_arr vy) as [my|]; cbn [mbind result_bind] in H; [|discriminate].
  destruct (lookup_name "hght_500" s) as [hv|] eqn:Hh; cbn [mbind result_bind] in H;
    [|discriminate].
  destruct (asarray hv) as [h|] eqn:Ha; cbn [mbind result_bind] in H; [|discriminate].
  destruct (lookup_name "clev500" s) as [vl|]; cbn [mbind result_bind] in H;
    [|discriminate].
  destruct (the_coord vl) as [lv|]; cbn [mbind result_bind] in H; [|discriminate].
  destruct (lookup_name "datacrs" s); cbn [mbind result_bind] in H; [|discriminate].
  injection H as <-. split.
  - intros x Hx. rewrite lookup_bind_ne by congruence. apply lookup_draw.
  - exists hv, h, mx, my, lv. auto.
Qed.

(** C4, as the notebooks have it.  Smoothing the height field is a
    presentation step: what the calculation cell binds to [avor] and
    [vort_adv] is the same whatever is bound to [hght_500], and the xarray
    notebook hands the smoothed height to [contour] without binding it to a
    name.  The vorticity computation reads the wind components as they were
    selected; the advection computation reads the smoothed absolute
    vorticity. *)
Theorem smoothed_height_is_presentation_only (s : state) (lon lat u v : arr)
    (h : value) :
  lookup_name "lon" s = Ok (VArr lon) ->
  lookup_name "lat" s = Ok (VArr lat) ->
  lookup_name "uwnd_500" s = Ok (VQty (tag units_m_s u)) ->
  lookup_name "vwnd_500" s = Ok (VQty (tag units_m_s v)) ->
  (exists s' avor_raw smoothed,
      run Vorticity.calculation_cell (bind_name "hght_500" h s) = Ok s' /\
      avor_raw
      = arr_add
          (magnitude (vorticity (tag units_m_s u) (tag units_m_s v)
                        (fst (lat_lon_grid_deltas lon lat))
                        (snd (lat_lon_grid_deltas lon lat))))
          (magnitude (coriolis_parameter (deg2rad lat))) /\
      smoothed = tag units_per_s (gaussian_filter 3 avor_raw) /\
      lookup_name "avor" s' = Ok (VQty smoothed) /\
      lookup_name "vort_adv" s'
      = Ok (VQty (qscale arr_scale 1000000000
                    (advection smoothed [tag units_m_s u; tag units_m_s v]
                       (lat_lon_grid_deltas lon lat)))) /\
      lookup_name "hght_500" s' = Ok h) /\
  (forall sx sx',
      Xarray.s_cs sx = Ok sx' ->
      (forall x, x <> "cs" -> lookup_name x sx' = lookup_name x sx) /\
      exists hv hx mx my lv,
        lookup_name "hght_500" sx = Ok hv /\ asarray hv = Ok hx /\
        fig_layers (fig sx')
        = fig_layers (fig sx) ++ [Contour mx my (gaussian_filter 5 hx) lv]).
Proof.
  intros Hlon Hlat Hu Hv. split.
  - eexists. eexists. eexists. split.
    + apply (calculation_cell_spec (bind_name "hght_500" h s) lon lat u v);
        rewrite lookup_bind_ne by discriminate; assumption.
    + split; [reflexivity|]. split; [reflexivity|]. split; [|split].
      * read_names. reflexivity.
      * read_names. now destruct (lat_lon_grid_deltas lon lat).
      * read_names. reflexivity.
  - intros sx sx'. apply xarray_s_cs_effect.
Qed.

End SmoothingUse.

Section SmoothingUseSample.
Import Pint Select Py Provenance.

Lemma bound_quantity_lookup (x : string) (s : state) (q : quantity term) :
  bound_quantity x (Ok s) = Some q -> lookup_name x s = Ok (VQty q).
Proof.
  unfold bound_quantity, lookup_name.
  destruct (ns s !! x) as [[]|]; simpl; congruence.
Qed.

(** C4, counterexample.  On the sample archive the advection call of the
    vorticity notebook has the smoothed absolute vorticity among its
    arguments. *)
Lemma advection_reads_smoothed_field :
  ~ smoothing_only_presentational sample_remote.
Proof.
  intros Hclaim.
  assert (Hbad : exists q,
             bound_quantity "vort_adv" (run (Vorticity.notebook sample_remote) initial)
             = Some q /\
             read_unsmoothed derived (magnitude q) = false)
    by (vm_compute; eexists; split; reflexivity).
  destruct Hbad as (q & Hq & Hr).
  destruct (run (Vorticity.notebook sample_remote) initial) as [s'|e] eqn:E;
    [|discriminate Hq].
  apply bound_quantity_lookup in Hq.
  pose proof (Hclaim "vort_adv" s' q E Hq) as Hc.
  change (read_unsmoothed derived (magnitude q) = true) in Hc.
  rewrite Hc in Hr. discriminate.
Qed.

(** On the same run: the vorticity call has read unsmoothed fields only,
    the smoothed height reaches no derived quantity, and the figure holds
    the smoothed height, the scaled smoothed vorticity, the advection and
    the winds. *)
Example sample_run_data_flow :
  exists t,
    bound_term "vort_adv" (run (Vorticity.notebook sample_remote) initial) = Some t /\
    read_unsmoothed (String.eqb "vorticity") t = true /\
    read_unsmoothed (String.eqb "advection") t = false /\
    mentions_src "hght@500" t = false /\
    bound_term "hght_500" (run (Vorticity.notebook sample_remote) initial)
    = Some (App "gaussian_filter" [Src "hght@500"; Num 3]) /\
    bound_term "hght_500" (run (Xarray.notebook sample_remote) initial)
    = Some (Src "hght@500").
Proof. vm_compute. eexists. repeat split. Qed.

End SmoothingUseSample.

Lemma smoothed_height_is_presentation_only_witness :
  exists s',
    Py.run Vorticity.calculation_cell
      (Py.bind_name "hght_500" (Py.VOpaque "anything") Provenance.calc_state) = Ok s' /\
    Py.lookup_name "hght_500" s' = Ok (Py.VOpaque "anything") /\
    Provenance.bound_term "avor" (Ok s')
    = Some (Provenance.App "gaussian_filter"
              [Provenance.App "add"
                 [Provenance.App "vorticity"
                    [Provenance.Src "u"; Provenance.Src "v";
                     Provenance.App "grid_delta_x"
                       [Provenance.Src "lon"; Provenance.Src "lat"];
                     Provenance.App "grid_delta_y"
                       [Provenance.Src "lon"; Provenance.Src "lat"]];
                  Provenance.App "coriolis_parameter"
                    [Provenance.App "deg2rad" [Provenance.Src "lat"]]];
               Provenance.Num 3]).
Proof.
  destruct (smoothed_height_is_presentation_only (L := Provenance.symbolic)
              Provenance.calc_state (Provenance.Src "lon") (Provenance.Src "lat")
              (Provenance.Src "u") (Provenance.Src "v") (Py.VOpaque "anything")
              eq_refl eq_refl eq_refl eq_refl)
    as ((s' & a & sm & Hrun & -> & -> & Havor & _ & Hh) & _).
  exists s'. split; [exact Hrun|]. split; [exact Hh|].
  unfold Provenance.bound_term. apply lookup_name_Ok in Havor.
  now rewrite Havor.
Defined.

(** ** Selection inside the notebooks *)

Section NotebookSelection.
Import Pint Select Py.
Context {L : CalcLib}.
Local Open Scope Q_scope.

Lemma s_lev_500_spec (s : state) (ds : nc_dataset) (v : nc_variable)
    (isobaric : list Q) :
  lookup_name "ds" s = Ok (VNc ds) -> ds !! "isobaric" = Some v ->
  nc_data v = Coord1D isobaric ->
  Vorticity.s_lev_500 s
  = (lev ← find_level isobaric 500; Ok (bind_name "lev_500" (VInt lev) s)).
Proof.
  intros Hds Hv Hd. unfold Vorticity.s_lev_500, assign, nc_var.
  rewrite Hds. cbn [the_nc mbind result_bind]. rewrite Hv.
  cbn [of_option mbind result_bind]. unfold payload_1d. rewrite Hd.
  cbn [mbind result_bind]. now destruct (find_level isobaric 500).
Qed.


Lemma sel_500_spec (name : string) (s : state) (d : xr_dataset)
    (da : data_array arr) (t0 : pydatetime) (rest : list pydatetime) :
  lookup_name "data" s = Ok (VXr d) -> xr_vars d !! name = Some da ->
  lookup_name "vtimes" s = Ok (VDates (t0 :: rest)) ->
  Xarray.sel_500 name s
  = (r ← sel_time1_isobaric da (timestamp_ns t0) 500; Ok (VSel r)).
Proof.
  intros Hd Hda Hl. unfold Xarray.sel_500. rewrite Hd, Hl.
  cbn [the_xr the_dates mbind result_bind]. rewrite Hda. reflexivity.
Qed.

(** C2.  When no entry of the vertical coordinate equals 500 the
    exact-equality search yields no index and indexing its empty result
    raises [IndexError], so the positional selection of the vorticity
    notebook fails at [lev_500 = ...]; the label-based selection of the
    xarray notebook raises [KeyError].  Neither returns a slice of a
    neighbouring level. *)
Theorem absent_level_fails (isobaric : list Q) :
  Forall (fun x => ~ x == 500) isobaric ->
  np_where_eq isobaric 500 = [] /\
  find_level isobaric 500 = Raise IndexError /\
  (forall var : list (list arr),
      select_positional isobaric 500 var = Raise IndexError) /\
  (forall (s : state) (ds : nc_dataset) (v : nc_variable) (rest : list stmt),
      lookup_name "ds" s = Ok (VNc ds) -> ds !! "isobaric" = Some v ->
      nc_data v = Coord1D isobaric ->
      Vorticity.s_lev_500 s = Raise IndexError /\
      run (Vorticity.s_lev_500 :: rest) s = Raise IndexError) /\
  (forall (times : list Z) (values : list (list arr)) (dims : list string) (t : Z),
      sel_time1_isobaric
        (DataArray ("time1" :: "isobaric" :: dims) times isobaric values) t 500
      = Raise KeyError) /\
  (forall (name : string) (s : state) (d : xr_dataset) (times : list Z)
          (values : list (list arr)) (dims : list string)
          (t0 : pydatetime) (rest : list pydatetime),
      lookup_name "data" s = Ok (VXr d) ->
      xr_vars d !! name
      = Some (DataArray ("time1" :: "isobaric" :: dims) times isobaric values) ->
      lookup_name "vtimes" s = Ok (VDates (t0 :: rest)) ->
      Xarray.sel_500 name s = Raise KeyError).
Proof.
  intros H.
  destruct (absent_level_search_fails (A := arr) isobaric H) as (Hw & Hf & Hp & Hl).
  split; [exact Hw|]. split; [exact Hf|]. split; [exact Hp|]. split; [|split].
  - intros s ds v rest Hds Hv Hd.
    assert (Hs : Vorticity.s_lev_500 s = Raise IndexError)
      by (rewrite (s_lev_500_spec s ds v isobaric Hds Hv Hd), Hf; reflexivity).
    split; [exact Hs|]. cbn [run]. now rewrite Hs.
  - exact Hl.
  - intros name s d times values dims t0 rest Hd Hda Hvt.
    rewrite (sel_500_spec name s d _ t0 rest Hd Hda Hvt), Hl. reflexivity.
Qed.

Lemma nc_axes_inv (ds : nc_dataset) (name ldim : string) (tc levels : list Q)
    (values : list (list arr)) :
  nc_axes ds name = Some (ldim, tc, levels, values) ->
  exists v tdim rest vt vl,
    ds !! name = Some v /\ nc_dimensions v = tdim :: ldim :: rest /\
    nc_data v = Grid4D values /\
    ds !! tdim = Some vt /\ nc_data vt = Coord1D tc /\
    ds !! ldim = Some vl /\ nc_data vl = Coord1D levels.
Proof.
  unfold nc_axes. intros H.
  destruct (ds !! name) as [v|] eqn:Hv; [|discriminate].
  destruct (nc_dimensions v) as [|tdim [|ldim' rest]] eqn:Hdims; try discriminate.
  destruct (nc_data v) as [| |values'|] eqn:Hdv; try discriminate.
  destruct (ds !! tdim) as [vt|] eqn:Hvt; [|discriminate].
  destruct (ds !! ldim') as [vl|] eqn:Hvl; [|discriminate].
  destruct (nc_data vt) as [tc'| | |] eqn:Hdt; try discriminate.
  destruct (nc_data vl) as [levels'| | |] eqn:Hdl; try discriminate.
  injection H as -> -> -> ->.
  exists v, tdim, rest, vt, vl. repeat split; auto.
Qed.


End NotebookSelection.

Lemma absent_level_fails_witness :
  Select.find_level [1000; 850; 700]%Q 500 = Raise IndexError /\
  Select.select_positional [1000; 850; 700]%Q 500
    [[Provenance.Src "a"; Provenance.Src "b"; Provenance.Src "c"]] = Raise IndexError /\
  Select.sel_time1_isobaric
    (Select.DataArray ["time1"; "isobaric"; "y"; "x"] [10%Z] [1000; 850; 700]%Q
       [[Provenance.Src "a"; Provenance.Src "b"; Provenance.Src "c"]]) 10 500
  = Raise KeyError.
Proof.
  assert (H : Forall (fun x => ~ (x == 500)%Q) [1000; 850; 700]%Q)
    by (repeat constructor; intros E; vm_compute in E; discriminate).
  destruct (absent_level_fails (L := Provenance.symbolic) _ H)
    as (_ & Hf & Hp & _ & Hl & _).
  split; [exact Hf | split; [apply Hp | apply Hl]].
Defined.






(* ===================================================================== *)
(** * Part III: further properties of the notebooks' code               *)
(* ===================================================================== *)

(** ** The Gaussian filter: shape *)

Section FilterShape.
Import Ndimage.
Local Open Scope Q_scope.
Variable exp_ : Q -> Q.

Lemma Forall2_imap_self {A B} (P : B -> A -> Prop) (F : nat -> A -> B) (l : list A) :
  (forall i x, l !! i = Some x -> P (F i x) x) ->
  Forall2 P (imap F l) l.
Proof.
  intros H. apply Forall2_same_length_lookup_2.
  - apply length_imap.
  - intros i x y Hx Hy. rewrite list_lookup_imap, Hy in Hx.
    inversion Hx; subst. now apply H.
Qed.

Lemma Forall2_map_self {A} (P : A -> A -> Prop) (h : A -> A) (l : list A) :
  Forall (fun x => P (h x) x) l -> Forall2 P (map h l) l.
Proof. induction 1; simpl; constructor; auto. Qed.

Lemma same_shape_refl (f : field) : same_shape f f.
Proof. apply Forall_Forall2_diag, Forall_forall. reflexivity. Qed.

Lemma same_shape_trans (f g h : field) :
  same_shape f g -> same_shape g h -> same_shape f h.
Proof.
  unfold same_shape. intros H1. revert h.
  induction H1 as [|r r' f g Hr _ IH]; intros h H2; inversion H2; subst;
    constructor; [congruence | now apply IH].
Qed.

Lemma correlate1d_length (ws line : list Q) :
  length (correlate1d ws line) = length line.
Proof. unfold correlate1d. now rewrite length_map, length_seq. Qed.

Lemma correlate_axis0_shape (ws : list Q) (f : field) :
  same_shape (correlate_axis0 ws f) f.
Proof.
  unfold same_shape, correlate_axis0. apply Forall2_imap_self.
  intros i row _. now rewrite length_map, length_seq.
Qed.

Lemma correlate_axis1_shape (ws : list Q) (f : field) :
  same_shape (correlate_axis1 ws f) f.
Proof.
  unfold same_shape, correlate_axis1. apply Forall2_map_self, Forall_forall.
  intros row _. apply correlate1d_length.
Qed.

(** X1.  The smoothed array has the shape of the input, so it can be contoured
    over the same coordinate arrays: whatever the input (ragged, empty)
    and whatever [sigma]. *)
Theorem gaussian_filter_keeps_shape (sigma : Q) (f : field) :
  same_shape (gaussian_filter exp_ sigma f) f /\
  length (gaussian_filter exp_ sigma f) = length f.
Proof.
  assert (H : same_shape (gaussian_filter exp_ sigma f) f).
  { unfold gaussian_filter. destruct (Qlt_le_dec (1 # 1000000000000000) sigma).
    - eapply same_shape_trans; [apply correlate_axis1_shape|].
      apply correlate_axis0_shape.
    - apply same_shape_refl. }
  split; [exact H|]. eapply Forall2_length, H.
Qed.

End FilterShape.

(** ** When the archive does not deliver *)

Section BuiltinFacts.
Import Py.
Context {L : CalcLib}.


Lemma lookup_builtin_same (b : builtin) (s s' : state) :
  lookup_name (builtin_name b) s' = lookup_name (builtin_name b) s ->
  lookup_builtin b s' = lookup_builtin b s.
Proof.
  unfold lookup_builtin, lookup_name. intros H.
  destruct (ns s' !! builtin_name b), (ns s !! builtin_name b);
    cbn [of_option] in H; congruence.
Qed.

End BuiltinFacts.

Section XarrayForward.
Import Pint Select Py Xarray.
Context {L : CalcLib} (R : remote).
Local Open Scope Q_scope.



End XarrayForward.

Section VorticityFailures.
Import Pint Select Py Vorticity.
Context {L : CalcLib} (R : remote).

(** X7.  A failure of any of the three requests of the acquisition cell ends
    the run of the vorticity notebook with the error of that request: the
    service's own error when the catalog or the subset query fails,
    [KeyError] when the catalog has no entry under the dataset key.  This
    holds from every starting namespace. *)
Theorem vorticity_request_failure_ends_run (s0 : state) (e : exn) :
  requested R = Raise e -> run (notebook R) s0 = Raise e.
Proof.
  unfold requested. intros H.
  change (Acquire.catalog_url Acquire.dt0)
    with (Acquire.catalog_url_from Acquire.catalog_base_url Acquire.dt0) in H.
  unfold notebook. apply run_app_raise. unfold acquisition_cell.
  do 2 (erewrite run_step_ok by exec_vorticity).
  destruct (tds_catalog R (Acquire.catalog_url_from Acquire.catalog_base_url Acquire.dt0))
    as [cat|e1] eqn:Hcat; cbn [mbind result_bind] in H.
  - erewrite run_step_ok by exec_vorticity.
    match type of H with
    | context [of_option _ ?o] => destruct o as [svc|] eqn:Hkey
    end; cbn [of_option mbind result_bind] in H.
    + unfold query_sent in H.
      do 6 (erewrite run_step_ok by exec_vorticity).
      apply run_step_raise. exec_vorticity.
    + injection H as <-. apply run_step_raise. exec_vorticity.
  - injection H as ->. apply run_step_raise. exec_vorticity.
Qed.

End VorticityFailures.

Lemma vorticity_request_failure_ends_run_witness :
  Py.run (Vorticity.notebook Provenance.offline) Py.initial = Raise FetchError.
Proof.
  apply (vorticity_request_failure_ends_run (L := Provenance.symbolic)).
  reflexivity.
Defined.

Section XarrayFailures.
Import Pint Select Py Xarray.
Context {L : CalcLib} (R : remote).

(** X8.  When the OPeNDAP address cannot be opened, the xarray notebook ends
    with the error [open_dataset] raised, from every starting namespace. *)
Theorem xarray_open_failure_ends_run (s0 : state) (e : exn) :
  open_dataset R (Acquire.opendap_url Acquire.dt0) = Raise e ->
  run (notebook R) s0 = Raise e.
Proof.
  intros H.
  change (Acquire.opendap_url Acquire.dt0)
    with (Acquire.opendap_url_from Acquire.opendap_base_url Acquire.dt0) in H.
  unfold notebook. apply run_app_raise. unfold access_cell.
  do 2 (erewrite run_step_ok by exec_xarray).
  apply run_step_raise. exec_xarray.
Qed.



End XarrayFailures.

Lemma xarray_open_failure_ends_run_witness :
  Py.run (Xarray.notebook Provenance.offline) Py.initial = Raise FetchError.
Proof.
  apply (xarray_open_failure_ends_run (L := Provenance.symbolic)).
  reflexivity.
Defined.




(** ** What each cell may rebind, and what draws *)

Section FigureFrame.
Import Py.
Context {L : CalcLib}.

Lemma assign_keeps_figure (y : string) (e : state -> result value) :
  keeps_figure (assign y e).
Proof. intros s s' H. unfold assign in H. split_result H. reflexivity. Qed.

Lemma run_keeps_figure (prog : list stmt) :
  Forall keeps_figure prog -> keeps_figure (run prog).
Proof.
  induction 1 as [|st prog Hst _ IH]; intros s s' H.
  - simpl in H. now injection H as <-.
  - apply run_cons_Ok in H as (s1 & H1 & H2).
    rewrite (IH s1 s' H2). now apply Hst.
Qed.

End FigureFrame.

(** A name outside the list [names] differs from each of its members. *)
Ltac other_name H :=
  let E := fresh in
  intros E; apply H; rewrite <- E; cbn [In]; tauto.

(** A statement preserves a name that is none of those it assigns. *)
Ltac solve_frame Hx :=
  first
    [ apply assign_preserves; other_name Hx
    | apply axes_stmt_preserves
    | let s := fresh "s" in
      let s' := fresh "s'" in
      let H := fresh "H" in
      intros s s' H;
      unfold Vorticity.s_deltas, Vorticity.s_title_left, Vorticity.s_title_right,
        Vorticity.s_cs, Vorticity.s_cs2, Vorticity.s_cf, Vorticity.s_barbs,
        Xarray.s_mesh, Xarray.s_print, Xarray.s_cs, Xarray.s_clabel,
        Xarray.s_label_boxes,
        Xarray.s_barbs, Xarray.s_title_left, Xarray.s_title_right in H;
      split_result H;
      repeat first [ rewrite lookup_bind_ne by other_name Hx
                   | rewrite lookup_draw | rewrite lookup_set_title
                   | rewrite lookup_decorate ];
      reflexivity ].

Ltac solve_keeps_figure :=
  first
    [ apply assign_keeps_figure
    | let s := fresh "s" in
      let s' := fresh "s'" in
      let H := fresh "H" in
      intros s s' H;
      unfold Vorticity.s_deltas, Xarray.s_mesh, Xarray.s_print in H;
      split_result H; reflexivity ].

Section VorticityFrame.
Import Pint Select Py Vorticity.
Context {L : CalcLib} (R : remote).

(** X11.  In the vorticity notebook data flows one way.  The acquisition and
    calculation cells draw nothing and set no title; the calculation cell
    rebinds only [dx], [dy], [f], [avor] and [vort_adv]; the map cell
    rebinds only its own plotting names, so no field, coordinate or time
    bound by the earlier cells is changed by plotting. *)
Theorem vorticity_cells_frame :
  keeps_figure (run (acquisition_cell R)) /\
  keeps_figure (run calculation_cell) /\
  (forall x, ~ In x ["dx"; "dy"; "f"; "avor"; "vort_adv"] ->
             preserves x (run calculation_cell)) /\
  (forall x, ~ In x ["dproj"; "globe"; "datacrs"; "plotcrs"; "fig"; "gs"; "ax";
                     "clev500"; "cs"; "clevvort500"; "cs2"; "clev_avoradv";
                     "cf"; "cax"; "cb"] ->
             preserves x (run map_cell)).
Proof.
  split; [|split; [|split]].
  - apply run_keeps_figure. unfold acquisition_cell.
    each_statement solve_keeps_figure.
  - apply run_keeps_figure. unfold calculation_cell.
    each_statement solve_keeps_figure.
  - intros x Hx. apply run_preserves. unfold calculation_cell.
    each_statement ltac:(solve_frame Hx).
  - intros x Hx. apply run_preserves. unfold map_cell.
    each_statement ltac:(solve_frame Hx).
Qed.

End VorticityFrame.

Section XarrayFrame.
Import Pint Select Py Xarray.
Context {L : CalcLib} (R : remote).

Lemma s_append_frame (k : nat) (x : string) :
  x <> "t" -> x <> "vtimes" -> preserves x (s_append k).
Proof.
  intros H1 H2 s s' H. unfold s_append in H. cbn zeta in H.
  split_result H. rewrite !lookup_bind_ne by congruence. reflexivity.
Qed.

Lemma s_append_keeps_figure (k : nat) : keeps_figure (s_append k).
Proof.
  intros s s' H. unfold s_append in H. cbn zeta in H.
  split_result H. reflexivity.
Qed.

Lemma s_vtimes_loop_frame (x : string) :
  x <> "t" -> x <> "vtimes" -> preserves x s_vtimes_loop.
Proof.
  intros H1 H2 s s' H. unfold s_vtimes_loop in H. cbn zeta in H.
  destruct (lookup_name "data" s) as [v|]; cbn [mbind result_bind] in H;
    [|discriminate].
  destruct (the_xr v) as [d|]; cbn [mbind result_bind] in H; [|discriminate].
  destruct (xr_times d !! "time") as [tm|]; cbn [of_option mbind result_bind] in H;
    [|discriminate].
  destruct (call_range _ (length tm)) as [ks|]; cbn [mbind result_bind] in H;
    [|discriminate].
  revert H. apply run_preserves.
  apply Forall_forall. intros st Hst.
  apply list_elem_of_In, in_map_iff in Hst as (k & <- & _).
  now apply s_append_frame.
Qed.

Lemma s_vtimes_loop_keeps_figure : keeps_figure s_vtimes_loop.
Proof.
  intros s s' H. unfold s_vtimes_loop in H. cbn zeta in H.
  destruct (lookup_name "data" s) as [v|]; cbn [mbind result_bind] in H;
    [|discriminate].
  destruct (the_xr v) as [d|]; cbn [mbind result_bind] in H; [|discriminate].
  destruct (xr_times d !! "time") as [tm|]; cbn [of_option mbind result_bind] in H;
    [|discriminate].
  destruct (call_range _ (length tm)) as [ks|]; cbn [mbind result_bind] in H;
    [|discriminate].
  revert H. apply run_keeps_figure.
  apply Forall_forall. intros st Hst.
  apply list_elem_of_In, in_map_iff in Hst as (k & <- & _).
  apply s_append_keeps_figure.
Qed.

(** X12.  In the xarray notebook, nothing is drawn and no title is set before
    the map cell; the valid-time cell rebinds only [vtimes] and the loop
    variable [t], whatever the length of the coordinate [time]; the map
    cell rebinds only its own plotting names and [t], so the selected
    fields, the mesh and the valid times are not changed by plotting. *)
Theorem xarray_cells_frame :
  keeps_figure (run (access_cell R ++ mesh_cell ++ times_cell ++ selection_cell)%list) /\
  (forall x, ~ In x ["vtimes"; "t"] -> preserves x (run times_cell)) /\
  (forall x, ~ In x ["datacrs"; "plotcrs"; "fig"; "ax"; "clev500"; "cs"; "t"] ->
             preserves x (run map_cell)).
Proof.
  split; [|split].
  - apply run_keeps_figure.
    unfold access_cell, mesh_cell, times_cell, selection_cell. cbn [app].
    each_statement ltac:(first [ apply s_vtimes_loop_keeps_figure
                               | solve_keeps_figure ]).
  - intros x Hx. apply run_preserves. unfold times_cell.
    each_statement ltac:(first [ apply s_vtimes_loop_frame; other_name Hx
                               | solve_frame Hx ]).
  - intros x Hx. apply run_preserves. unfold map_cell.
    each_statement ltac:(solve_frame Hx).
Qed.

End XarrayFrame.

(** ** The two selection paths on the same data *)

Section SelectionAgreement.
Import Select.
Context {A : Type}.
Local Open Scope Q_scope.

(** X13.  On a variable whose first time label is [t], whose time labels are
    not repeated and whose levels are distinct, the positional path of
    the vorticity notebook ([np.where(...)[0][0]], then [var[0, lev]]) and
    the label path of the xarray notebook ([sel(time1=t, isobaric=500)])
    return the same 2-D slice. *)
Theorem positional_and_label_selection_agree (times : list Z) (levels : list Q)
    (values : list (list A)) (dims : list string) (t : Z) :
  well_shaped times levels values ->
  Exists (fun x => x == 500) levels ->
  times !! 0%nat = Some t -> NoDup times -> distinct_levels levels ->
  exists slice,
    select_positional levels 500 values = Ok slice /\
    sel_time1_isobaric
      (DataArray ("time1" :: "isobaric" :: dims) times levels values) t 500
    = Ok (Sel2D slice).
Proof.
  intros Hshape Hex Ht Hnd Hdl.
  destruct (positional_selects_stored times levels values t Hshape Hex Ht)
    as (lev & s & Hlev & Hpos & (i & j & x & row & Hi & Hj & Hx & Hrow & Hs) & _).
  exists s. split; [exact Hpos|].
  assert (Hin : In t times).
  { apply list_elem_of_In. eapply list_elem_of_lookup_2; eauto. }
  destruct (get_loc_time_once times t Hin Hnd) as (i' & Hli & Hi').
  destruct (get_loc_level_once levels 500 Hex Hdl) as (j' & x' & Hlj & Hj' & Hx').
  assert (i' = i) by (eapply NoDup_lookup; eauto). subst i'.
  assert (j' = j).
  { apply (Hdl j' j x' x Hj' Hj). now rewrite Hx', Hx. }
  subst j'.
  unfold sel_time1_isobaric. simpl. rewrite Hli. simpl. rewrite Hlj. simpl.
  unfold getitem2, getitem. rewrite Hrow. simpl. now rewrite Hs.
Qed.

End SelectionAgreement.

Lemma positional_and_label_selection_agree_witness :
  exists slice,
    Select.select_positional Provenance.levels4 500
      [[Provenance.Src "a"; Provenance.Src "b"; Provenance.Src "c"; Provenance.Src "d"]]
    = Ok slice /\
    Select.sel_time1_isobaric
      (Select.DataArray ["time1"; "isobaric"; "y"; "x"] [10%Z] Provenance.levels4
         [[Provenance.Src "a"; Provenance.Src "b"; Provenance.Src "c";
           Provenance.Src "d"]])
      10 500
    = Ok (Select.Sel2D slice).
Proof.
  apply (positional_and_label_selection_agree [10%Z] Provenance.levels4
           [[Provenance.Src "a"; Provenance.Src "b"; Provenance.Src "c";
             Provenance.Src "d"]] ["y"; "x"] 10%Z).
  - split; [reflexivity | repeat constructor].
  - do 2 apply Exists_cons_tl. apply Exists_cons_hd. reflexivity.
  - reflexivity.
  - apply NoDup_singleton.
  - intros [|[|[|[|i]]]] [|[|[|[|j]]]] x y Hx Hy E; simpl in Hx, Hy;
      try discriminate; try reflexivity;
      inversion Hx; inversion Hy; subst; vm_compute in E; discriminate.
Defined.

(** ** Contour levels *)

Section ArangeFacts.
Import Py.
Local Open Scope Z_scope.

(** X14.  [np.arange(start, stop, step)] with a positive step holds exactly the
    numbers [start + k * step], [k >= 0], that lie below [stop]: [start]
    is a level when it is below [stop], [stop] never is. *)
Theorem arange_members (start stop step : Z) (q : Q) :
  0 < step ->
  In q (arange start stop step) <->
  exists k, 0 <= k /\ start + k * step < stop /\ q = inject_Z (start + k * step).
Proof.
  intros Hstep. unfold arange. rewrite in_map_iff. split.
  - intros (k & <- & Hk). apply in_seq in Hk as [_ Hk].
    exists (Z.of_nat k). split; [lia|]. split; [|reflexivity].
    cbn [Nat.add] in Hk.
    assert (Hlt : Z.of_nat k < (stop - start + step - 1) / step) by lia.
    pose proof (Z.mul_div_le (stop - start + step - 1) step Hstep). nia.
  - intros (k & Hk & Hlt & ->). exists (Z.to_nat k). split.
    + now rewrite Z2Nat.id.
    + apply in_seq. split; [lia|]. cbn [Nat.add].
      assert (k + 1 <= (stop - start + step - 1) / step).
      { apply Z.div_le_lower_bound; [assumption | nia]. }
      lia.
Qed.

End ArangeFacts.

Lemma arange_members_witness :
  In (inject_Z 5940) (Py.arange 5100 6000 60) /\
  ~ In (inject_Z 6000) (Py.arange 5100 6000 60).
Proof.
  split.
  - apply (proj2 (arange_members 5100 6000 60 (inject_Z 5940) eq_refl)).
    exists 14%Z. split; [lia|]. split; reflexivity.
  - intros H. apply (proj1 (arange_members 5100 6000 60 (inject_Z 6000) eq_refl)) in H.
    destruct H as (k & Hk & Hlt & Heq).
    injection Heq as Heq. lia.
Defined.

(** ** Independence from what the namespace held before *)

Section AlikeFacts.
Import Py.
Context {L : CalcLib}.

Lemma alike_bind (X : list string) (w : string) (v : value) (s s' : state) :
  alike X s s' -> alike (w :: X) (bind_name w v s) (bind_name w v s').
Proof.
  intros [Hfig Hns]. split; [exact Hfig|].
  intros x Hx. destruct (decide (w = x)) as [<-|Hne].
  - now rewrite !lookup_bind_eq.
  - rewrite !lookup_bind_ne by assumption. destruct Hx as [E|Hx]; [contradiction|].
    now apply Hns.
Qed.

Lemma alike_weaken (X Y : list string) (s s' : state) :
  (forall x, In x Y -> In x X) -> alike X s s' -> alike Y s s'.
Proof. intros Hsub [Hfig Hns]. split; [exact Hfig|]. intros x Hx. apply Hns, Hsub, Hx. Qed.

Lemma alike_rebind (X : list string) (w : string) (v : value) (s s' : state) :
  alike X s s' -> alike X (bind_name w v s) (bind_name w v s').
Proof.
  intros H. apply (alike_weaken (w :: X)); [intros x Hx; now right|].
  now apply alike_bind.
Qed.

Lemma alike_draw (X : list string) (l : layer) (s s' : state) :
  alike X s s' -> alike X (draw l s) (draw l s').
Proof.
  intros [Hfig Hns]. split; [|exact Hns].
  unfold draw. cbn [fig]. now rewrite Hfig.
Qed.

Lemma alike_set_title (X : list string) (loc text : string) (s s' : state) :
  alike X s s' -> alike X (set_title loc text s) (set_title loc text s').
Proof.
  intros [Hfig Hns]. split; [|exact Hns].
  unfold set_title. cbn [fig]. now rewrite Hfig.
Qed.

Lemma alike_decorate (X : list string) (what : string) (s s' : state) :
  alike X s s' -> alike X (decorate what s) (decorate what s').
Proof.
  intros [Hfig Hns]. split; [|exact Hns].
  unfold decorate. cbn [fig]. now rewrite Hfig.
Qed.

Lemma axes_stmt_transfers (X : list string) (receiver method : string) :
  In receiver X -> transfers X X (axes_stmt receiver method).
Proof.
  intros Hin s s' s1 Hal H. unfold axes_stmt in H |- *.
  rewrite <- (proj2 Hal receiver Hin).
  destruct (lookup_name receiver s) as [v|]; cbn [mbind result_bind] in H |- *;
    [|discriminate].
  destruct (axes_call method) as [u|]; cbn [mbind result_bind] in H |- *;
    [|discriminate].
  injection H as <-. eexists. split; [reflexivity|]. now apply alike_decorate.
Qed.

Lemma alike_builtin (X : list string) (b : builtin) (s s' : state) :
  In (builtin_name b) X -> alike X s s' ->
  lookup_builtin b s' = lookup_builtin b s.
Proof.
  intros Hin [_ Hns]. apply lookup_builtin_same. symmetry. now apply Hns.
Qed.

Lemma assign_transfers (X : list string) (w : string) (e : state -> result value) :
  (forall s s', alike X s s' -> e s' = e s) ->
  transfers X (w :: X) (assign w e).
Proof.
  intros He s s' s1 Hal H. unfold assign in *. rewrite (He s s' Hal).
  destruct (e s) as [v|]; cbn [mbind result_bind] in *; [|discriminate].
  injection H as <-. eexists. split; [reflexivity|]. now apply alike_bind.
Qed.

Lemma run_transfers_nil (X : list string) : transfers X X (run []).
Proof. intros s s' s1 Hal H. injection H as <-. now exists s'. Qed.

Lemma run_transfers_cons (X Y Z : list string) (st : stmt) (prog : list stmt) :
  transfers X Y st -> transfers Y Z (run prog) -> transfers X Z (run (st :: prog)).
Proof.
  intros Hst Hprog s s' s1 Hal H.
  apply run_cons_Ok in H as (sa & Ha & H).
  destruct (Hst s s' sa Hal Ha) as (sa' & Ha' & Hal').
  destruct (Hprog sa sa' s1 Hal' H) as (s1' & H' & Hal1).
  exists s1'. split; [|exact Hal1]. cbn [run]. now rewrite Ha'.
Qed.

Lemma transfers_weaken (X Y Y' : list string) (st : stmt) :
  (forall x, In x Y' -> In x Y) -> transfers X Y st -> transfers X Y' st.
Proof.
  intros Hsub H s s' s1 Hal Hs. destruct (H s s' s1 Hal Hs) as (s1' & H1 & H2).
  exists s1'. split; [exact H1|]. now apply (alike_weaken Y).
Qed.

End AlikeFacts.

(** The name is one of a list written out. *)
Ltac listed := cbn [In]; repeat first [ left; reflexivity | right ].

(** Turning the reads of the second state into reads of the first. *)
Ltac same_reads Hal s' :=
  repeat match goal with
    | |- context [Py.lookup_name ?n s'] => rewrite <- (proj2 Hal n) by listed
    end.

Ltac solve_transfers :=
  first
    [ apply assign_transfers;
      let s := fresh "s" in
      let s' := fresh "s'" in
      let Hal := fresh "Hal" in
      intros s s' Hal;
      unfold Vorticity.slice_500, Xarray.sel_500, Py.nc_var;
      same_reads Hal s'; reflexivity
    | apply axes_stmt_transfers; listed
    | let s := fresh "s" in
      let s' := fresh "s'" in
      let s1 := fresh "s1" in
      let Hal := fresh "Hal" in
      let H := fresh "H" in
      intros s s' s1 Hal H;
      unfold Vorticity.s_deltas, Vorticity.s_title_left, Vorticity.s_title_right,
        Vorticity.s_cs, Vorticity.s_cs2, Vorticity.s_cf, Vorticity.s_barbs,
        Xarray.s_mesh, Xarray.s_cs, Xarray.s_clabel, Xarray.s_label_boxes,
        Xarray.s_barbs, Xarray.s_title_left, Xarray.s_title_right in H |- *;
      same_reads Hal s';
      split_result H;
      repeat (progress (cbn [mbind result_bind of_option];
                        repeat match goal with
                          | E : ?t = Ok _ |- context [?t] => rewrite E
                          | E : ?t = Some _ |- context [?t] => rewrite E
                          | E : ?t = true |- context [?t] => rewrite E
                          | E : ?t = false |- context [?t] => rewrite E
                          end));
      eexists; (split; [reflexivity|]);
      repeat first [ apply alike_bind | apply alike_draw | apply alike_set_title
                   | apply alike_decorate ];
      exact Hal ].

Section VorticityIndependence.
Import Pint Select Py Vorticity.
Context {L : CalcLib} (R : remote).

(** X15.  Every statement of the vorticity notebook reads only names an earlier
    statement of the notebook has bound.  So a run does not depend on what
    the namespace held before: if the notebook runs to its end from one
    namespace, it does so from every other one, and with the same figure
    at the start the two runs end with the same figure and the same value
    under every name the notebook binds. *)
Theorem vorticity_run_ignores_prior_namespace (s0 s0' s1 : state) :
  fig s0 = fig s0' ->
  run (notebook R) s0 = Ok s1 ->
  exists s1',
    run (notebook R) s0' = Ok s1' /\
    fig s1 = fig s1' /\
    forall x, In x bound_names -> lookup_name x s1 = lookup_name x s1'.
Proof.
  intros Hfig Hrun.
  assert (Hal : alike [] s0 s0') by (split; [exact Hfig | intros x []]).
  assert (Ht : transfers [] bound_names (run (notebook R))).
  { unfold notebook, acquisition_cell, calculation_cell, map_cell. cbn [app].
    eapply transfers_weaken.
    2:{ repeat (eapply run_transfers_cons; [solve_transfers|]).
        apply run_transfers_nil. }
    unfold bound_names. intros x Hx. cbn [In] in *. tauto. }
  destruct (Ht s0 s0' s1 Hal Hrun) as (s1' & Hrun' & Hfig' & Hns).
  exists s1'. auto.
Qed.

End VorticityIndependence.

Section XarrayIndependence.
Import Pint Select Py Xarray.
Context {L : CalcLib} (R : remote).

Lemma s_append_transfers (X : list string) (k : nat) :
  In "data" X -> In "vtimes" X -> transfers X X (s_append k).
Proof.
  intros Hd Hv s s' s1 [Hfig Hns] H. unfold s_append in H |- *. cbn zeta in H |- *.
  rewrite !lookup_bind_ne in H |- * by discriminate.
  rewrite <- (Hns "data" Hd), <- (Hns "vtimes" Hv).
  destruct (lookup_name "data" s) as [v|]; cbn [mbind result_bind] in H |- *;
    [|discriminate].
  destruct (the_xr v) as [d|]; cbn [mbind result_bind] in H |- *; [|discriminate].
  destruct (xr_times d !! "time") as [tm|]; cbn [of_option mbind result_bind] in H |- *;
    [|discriminate].
  destruct (getitem tm k) as [x|]; cbn [mbind result_bind] in H |- *; [|discriminate].
  destruct (lookup_name "vtimes" s) as [l|]; cbn [mbind result_bind] in H |- *;
    [|discriminate].
  destruct (the_dates l) as [l'|]; cbn [mbind result_bind] in H |- *; [|discriminate].
  injection H as <-. eexists. split; [reflexivity|].
  do 2 apply alike_rebind. now split.
Qed.

Lemma loop_transfers (X : list string) (ks : list nat) :
  In "data" X -> In "vtimes" X -> transfers X X (run (map s_append ks)).
Proof.
  intros Hd Hv. induction ks as [|k ks IH]; cbn [map].
  - apply run_transfers_nil.
  - eapply run_transfers_cons; [now apply s_append_transfers | exact IH].
Qed.

Lemma s_vtimes_loop_transfers (X : list string) :
  In "range" X -> In "data" X -> In "vtimes" X -> transfers X X s_vtimes_loop.
Proof.
  intros Hr Hd Hv s s' s1 Hal H. unfold s_vtimes_loop in H |- *. cbn zeta in H |- *.
  rewrite <- (proj2 Hal "data" Hd).
  rewrite (alike_builtin X BRange s s' Hr Hal).
  destruct (lookup_name "data" s) as [v|]; cbn [mbind result_bind] in H |- *;
    [|discriminate].
  destruct (the_xr v) as [d|]; cbn [mbind result_bind] in H |- *; [|discriminate].
  destruct (xr_times d !! "time") as [tm|]; cbn [of_option mbind result_bind] in H |- *;
    [|discriminate].
  destruct (call_range _ (length tm)) as [ks|]; cbn [mbind result_bind] in H |- *;
    [|discriminate].
  now apply (loop_transfers X _ Hd Hv s s' s1).
Qed.

Lemma s_print_transfers (X : list string) :
  In "print" X -> In "vtimes" X -> transfers X X s_print.
Proof.
  intros Hp Hv s s' s1 Hal H. unfold s_print in H |- *. cbn zeta in H |- *.
  rewrite <- (proj2 Hal "vtimes" Hv).
  rewrite (alike_builtin X BPrint s s' Hp Hal).
  destruct (lookup_name "vtimes" s) as [v|]; cbn [mbind result_bind] in H |- *;
    [|discriminate].
  destruct (call_print _ v) as [u|]; cbn [mbind result_bind] in H |- *;
    [|discriminate].
  injection H as <-. eexists. split; [reflexivity | exact Hal].
Qed.

Lemma s_label_boxes_transfers (X : list string) :
  In "cs" X -> transfers X X s_label_boxes.
Proof.
  intros Hc s s' s1 Hal H. unfold s_label_boxes in H |- *.
  rewrite <- (proj2 Hal "cs" Hc).
  destruct (lookup_name "cs" s) as [v|]; cbn [mbind result_bind] in H |- *;
    [|discriminate].
  destruct v; try discriminate.
  destruct (0 <? label_count z levels)%nat; injection H as <-;
    eexists; (split; [reflexivity|]); [now apply alike_rebind | exact Hal].
Qed.

(** X16.  The xarray notebook reads two names it never binds, [range] and
    [print]; every other name a statement reads has been bound by an
    earlier statement of the notebook.  So a run depends on the namespace
    it starts from through these two names only: if the notebook runs to
    its end from one namespace, it does so from every other one that
    holds the same under [range] and under [print] (or nothing under
    either), and with the same figure at the start the two runs end with
    the same figure and the same value under every name each run binds. *)
Theorem xarray_run_depends_on_builtins_only (s0 s0' s1 : state) :
  fig s0 = fig s0' ->
  lookup_name "range" s0 = lookup_name "range" s0' ->
  lookup_name "print" s0 = lookup_name "print" s0' ->
  run (notebook R) s0 = Ok s1 ->
  exists s1',
    run (notebook R) s0' = Ok s1' /\
    fig s1 = fig s1' /\
    forall x, In x bound_names -> lookup_name x s1 = lookup_name x s1'.
Proof.
  intros Hfig Hrange Hprint Hrun.
  assert (Hal : alike ["range"; "print"] s0 s0').
  { split; [exact Hfig|]. intros x [<-|[<-|[]]]; assumption. }
  assert (Ht : transfers ["range"; "print"] bound_names (run (notebook R))).
  { unfold notebook, access_cell, mesh_cell, times_cell, selection_cell, map_cell.
    cbn [app].
    eapply transfers_weaken.
    2:{ repeat (eapply run_transfers_cons;
                [first [ apply s_vtimes_loop_transfers; listed
                       | apply s_print_transfers; listed
                       | apply s_label_boxes_transfers; listed
                       | solve_transfers ]|]).
        apply run_transfers_nil. }
    unfold bound_names. intros x Hx. cbn [In] in *. tauto. }
  destruct (Ht s0 s0' s1 Hal Hrun) as (s1' & Hrun' & Hfig' & Hns).
  exists s1'. auto.
Qed.

End XarrayIndependence.

Lemma vorticity_run_ignores_prior_namespace_witness :
  exists s1 s1',
    Py.run (Vorticity.notebook Provenance.sample_remote) Py.initial = Ok s1 /\
    Py.run (Vorticity.notebook Provenance.sample_remote)
      (Py.bind_name "avor" (Py.VStr "stale") Py.initial) = Ok s1' /\
    Py.lookup_name "avor" s1 = Py.lookup_name "avor" s1'.
Proof.
  assert (Hok : is_ok (Py.run (Vorticity.notebook Provenance.sample_remote) Py.initial)
                = true) by (vm_compute; reflexivity).
  destruct (Py.run (Vorticity.notebook Provenance.sample_remote) Py.initial)
    as [s1|e] eqn:E; [|discriminate Hok].
  destruct (vorticity_run_ignores_prior_namespace Provenance.sample_remote Py.initial
              (Py.bind_name "avor" (Py.VStr "stale") Py.initial) s1 eq_refl E)
    as (s1' & Hrun & _ & Hns).
  exists s1, s1'. split; [reflexivity|]. split; [exact Hrun|].
  apply Hns. unfold Vorticity.bound_names. listed.
Defined.

Lemma xarray_run_depends_on_builtins_only_witness :
  exists s1 s1',
    Py.run (Xarray.notebook Provenance.sample_remote) Py.initial = Ok s1 /\
    Py.run (Xarray.notebook Provenance.sample_remote)
      (Py.bind_name "vtimes" (Py.VStr "stale") Py.initial) = Ok s1' /\
    Py.lookup_name "vtimes" s1 = Py.lookup_name "vtimes" s1'.
Proof.
  assert (Hok : is_ok (Py.run (Xarray.notebook Provenance.sample_remote) Py.initial)
                = true) by (vm_compute; reflexivity).
  destruct (Py.run (Xarray.notebook Provenance.sample_remote) Py.initial)
    as [s1|e] eqn:E; [|discriminate Hok].
  destruct (xarray_run_depends_on_builtins_only Provenance.sample_remote Py.initial
              (Py.bind_name "vtimes" (Py.VStr "stale") Py.initial) s1
              eq_refl eq_refl eq_refl E)
    as (s1' & Hrun & _ & Hns).
  exists s1, s1'. split; [reflexivity|]. split; [exact Hrun|].
  apply Hns. unfold Xarray.bound_names. listed.
Defined.

(** ** One address per analysis time *)

Section AddressFacts.
Import Strftime Acquire.

Lemma length_append (a b : string) :
  String.length (a +:+ b) = (String.length a + String.length b)%nat.
Proof.
  induction a as [|x a IH]; [reflexivity|].
  rewrite append_cons. cbn [String.length]. now rewrite IH.
Qed.

Lemma length_zeros (k : nat) : String.length (zeros k) = k.
Proof. induction k; cbn [zeros String.length]; auto. Qed.

Lemma length_zfill (w : nat) (s : string) :
  (String.length s <= w)%nat -> String.length (zfill w s) = w.
Proof. intros H. unfold zfill. rewrite length_append, length_zeros. lia. Qed.

(** Strings of the same length in front of equal concatenations. *)
Lemma append_inj (a a' b b' : string) :
  String.length a = String.length a' -> a +:+ b = a' +:+ b' -> a = a' /\ b = b'.
Proof.
  revert a'. induction a as [|x a IH]; intros [|x' a'] Hlen H; try discriminate.
  - now split.
  - rewrite !append_cons in H. injection H as -> H.
    cbn [String.length] in Hlen.
    destruct (IH a' ltac:(lia) H) as [-> ->]. now split.
Qed.

Lemma short_numbers (bound width : nat) :
  forallb (fun n => String.length (str_nat n) <=? width)%nat (seq 0 bound) = true ->
  forall n, (n < bound)%nat -> (String.length (str_nat n) <= width)%nat.
Proof.
  intros H n Hn. rewrite forallb_forall in H.
  apply Nat.leb_le, H, in_seq. lia.
Qed.

Lemma two_digits (n : nat) : (n < 100)%nat -> (String.length (str_nat n) <= 2)%nat.
Proof. apply short_numbers. vm_compute. reflexivity. Qed.

(** Reading a zero-padded decimal field back gives the number. *)
Lemma read_zeros (k : nat) (s : string) :
  option_map Nat.of_uint (NilEmpty.uint_of_string (zeros k +:+ s))
  = option_map Nat.of_uint (NilEmpty.uint_of_string s).
Proof.
  induction k as [|k IH]; [reflexivity|].
  cbn [zeros]. rewrite append_cons.
  cbn [NilEmpty.uint_of_string].
  change (uint_of_char "0" (NilEmpty.uint_of_string (zeros k +:+ s)))
    with (option_map Decimal.D0 (NilEmpty.uint_of_string (zeros k +:+ s))).
  rewrite <- IH. now destruct (NilEmpty.uint_of_string (zeros k +:+ s)).
Qed.

Lemma read_zfill (w n : nat) :
  option_map Nat.of_uint (NilEmpty.uint_of_string (zfill w (str_nat n))) = Some n.
Proof.
  unfold zfill. rewrite read_zeros. unfold str_nat.
  rewrite NilEmpty.usu. cbn [option_map]. f_equal. apply DecimalNat.Unsigned.of_to.
Qed.

Lemma zfill_inj (w n n' : nat) :
  zfill w (str_nat n) = zfill w (str_nat n') -> n = n'.
Proof.
  intros H.
  apply (f_equal (fun s => option_map Nat.of_uint (NilEmpty.uint_of_string s))) in H.
  rewrite !read_zfill in H. congruence.
Qed.

Lemma str_nat_inj (n n' : nat) : str_nat n = str_nat n' -> n = n'.
Proof. intros H. apply (zfill_inj 0). exact H. Qed.

Lemma dataset_name_fields (dt : datetime) :
  dataset_name dt
  = "namanl_218_" +:+ str_nat (year dt) +:+ zfill 2 (str_nat (month dt))
      +:+ zfill 2 (str_nat (day dt)) +:+ "_" +:+ zfill 2 (str_nat (hour dt))
      +:+ "00_000.grb".
Proof.
  unfold dataset_name. rewrite strftime_day_dir, strftime_hour.
  rewrite !append_assoc. reflexivity.
Qed.

(** X17.  The name of the archived file tells the analysis time to the
    hour, and no further: two dates that the constructor [datetime]
    accepts give the same dataset name exactly when they agree on year,
    month, day and hour.  The year is written as the C library writes
    [%Y], without padding; minutes, seconds and microseconds are not part
    of the name, so [datetime(2016, 4, 16, 18)] and
    [datetime(2016, 4, 16, 18, 30)] address the same file. *)
Theorem dataset_name_tells_the_hour (dt dt' : datetime) :
  in_range dt -> in_range dt' ->
  (dataset_name dt = dataset_name dt' <->
   year dt = year dt' /\ month dt = month dt' /\ day dt = day dt' /\
   hour dt = hour dt').
Proof.
  intros (Hy & Hm & Hd & Hh & _) (Hy' & Hm' & Hd' & Hh' & _).
  rewrite !dataset_name_fields. split.
  - intros H.
    assert (Hlen : String.length (str_nat (year dt))
                   = String.length (str_nat (year dt'))).
    { apply (f_equal String.length) in H.
      rewrite !length_append in H.
      rewrite !length_zfill in H by (apply two_digits; lia).
      lia. }
    apply append_inj in H as [_ H]; [|reflexivity].
    apply append_inj in H as [Ey H]; [|exact Hlen].
    apply append_inj in H as [Em H];
      [|rewrite !length_zfill by (apply two_digits; lia); reflexivity].
    apply append_inj in H as [Ed H];
      [|rewrite !length_zfill by (apply two_digits; lia); reflexivity].
    apply append_inj in H as [_ H]; [|reflexivity].
    apply append_inj in H as [Eh _];
      [|rewrite !length_zfill by (apply two_digits; lia); reflexivity].
    apply str_nat_inj in Ey. apply zfill_inj in Em, Ed, Eh. auto.
  - intros (-> & -> & -> & ->). reflexivity.
Qed.

End AddressFacts.

Lemma dataset_name_tells_the_hour_witness :
  Acquire.dataset_name Acquire.dt0
  = Acquire.dataset_name (Strftime.mk_datetime 2016 4 16 18 30 0 0) /\
  Acquire.dataset_name Acquire.dt0
  <> Acquire.dataset_name (Strftime.mk_datetime 2016 4 16 12 0 0 0).
Proof.
  split.
  - apply (dataset_name_tells_the_hour Acquire.dt0
             (Strftime.mk_datetime 2016 4 16 18 30 0 0)).
    + unfold Strftime.in_range. cbn. lia.
    + unfold Strftime.in_range. cbn. lia.
    + cbn. auto.
  - intros E.
    apply (dataset_name_tells_the_hour Acquire.dt0
             (Strftime.mk_datetime 2016 4 16 12 0 0 0)) in E.
    + cbn in E. destruct E as (_ & _ & _ & E). discriminate E.
    + unfold Strftime.in_range. cbn. lia.
    + unfold Strftime.in_range. cbn. lia.
Defined.


(** ** What a completed run has drawn *)

Section VorticityShown.
Import Pint Select Py Vorticity.
Context {L : CalcLib} {LL : CalcLibLaws L} (R : remote).
Local Open Scope Q_scope.

(** What the namespace holds after a successful acquisition cell, and
    where it came from. *)
Lemma acquisition_inv (s0 s2 : state) :
  run (acquisition_cell R) s0 = Ok s2 ->
  exists ds vlon vlat lon lat vt tc lev viso levels vh vu vv gh gu gv h0 u0 v0,
    requested R = Ok ds /\
    (ds !! "lon" = Some vlon /\ nc_data vlon = Grid2D lon) /\
    (ds !! "lat" = Some vlat /\ nc_data vlat = Grid2D lat) /\
    (ds !! hght_name = Some vh /\ nc_data vh = Grid4D gh) /\
    (ds !! uwnd_name = Some vu /\ nc_data vu = Grid4D gu) /\
    (ds !! vwnd_name = Some vv /\ nc_data vv = Grid4D gv) /\
    (exists tdim, getitem (nc_dimensions vh) 0 = Ok tdim /\ ds !! tdim = Some vt) /\
    nc_data vt = Coord1D tc /\
    (ds !! "isobaric" = Some viso /\ nc_data viso = Coord1D levels) /\
    find_level levels 500 = Ok lev /\
    getitem2 gh 0 lev = Ok h0 /\
    getitem2 gu 0 lev = Ok u0 /\
    getitem2 gv 0 lev = Ok v0 /\
    lookup_name "ds" s2 = Ok (VNc ds) /\
    lookup_name "lon" s2 = Ok (VArr lon) /\
    lookup_name "lat" s2 = Ok (VArr lat) /\
    lookup_name "vtime" s2 = Ok (VDate (num2date tc (nc_units vt))) /\
    lookup_name "hght_500" s2
    = Ok (VQty (Quantity (gaussian_filter 3 h0) units_meter)) /\
    lookup_name "uwnd_500" s2 = Ok (VQty (tag units_m_s u0)) /\
    lookup_name "vwnd_500" s2 = Ok (VQty (tag units_m_s v0)) /\
    fig s2 = fig s0.
Proof.
  intros Ha.
  match goal with |- ?G => set (P := G) end.
  pose proof parse_m_s as Hparse.
  unfold acquisition_cell in Ha.
  do 19 (inv_step Ha).
  cbn [run] in Ha. injection Ha as <-.
  match goal with
  | Hcat : tds_catalog R _ = Ok ?cat, Hkey : ?cat !! _ = Some ?svc,
    Hsvc : ?svc _ = Ok ?ds |- _ =>
      assert (Hreq : requested R = Ok ds)
        by (unfold requested, query_sent;
            change (Acquire.catalog_url Acquire.dt0)
              with (Acquire.catalog_url_from Acquire.catalog_base_url Acquire.dt0);
            rewrite Hcat; cbn [mbind result_bind]; rewrite Hkey;
            cbn [of_option mbind result_bind]; exact Hsvc)
  end.
  subst P. do 19 eexists.
  split; [exact Hreq|].
  do 5 (split; [split; eassumption|]).
  split; [eexists; split; eassumption|].
  split; [eassumption|].
  split; [split; eassumption|].
  do 4 (split; [eassumption|]).
  do 7 (split; [read_names; reflexivity|]).
  reflexivity.
Qed.

Lemma map_cell_inv (s s' : state) (ds : nc_dataset) (d : pydatetime)
    (lon lat : arr) (hq aq wq uq vq : quantity arr) :
  lookup_name "ds" s = Ok (VNc ds) ->
  lookup_name "vtime" s = Ok (VDate d) ->
  lookup_name "lon" s = Ok (VArr lon) ->
  lookup_name "lat" s = Ok (VArr lat) ->
  lookup_name "hght_500" s = Ok (VQty hq) ->
  lookup_name "avor" s = Ok (VQty aq) ->
  lookup_name "vort_adv" s = Ok (VQty wq) ->
  lookup_name "uwnd_500" s = Ok (VQty uq) ->
  lookup_name "vwnd_500" s = Ok (VQty vq) ->
  run map_cell s = Ok s' ->
  (exists vp, ds !! "LambertConformal_Projection" = Some vp /\
              has_attr (nc_attrs vp) "earth_radius" = Ok tt /\
              has_attr (nc_attrs vp) "latitude_of_projection_origin" = Ok tt /\
              has_attr (nc_attrs vp) "longitude_of_central_meridian" = Ok tt /\
              has_attr (nc_attrs vp) "standard_parallel" = Ok tt) /\
  Forall (fun method => axes_call method = Ok tt)
    ["set_extent"; "coastlines"; "add_feature"; "clabel"; "set_label"] /\
  fig_layers (fig s')
  = fig_layers (fig s) ++
    [ Contour lon lat (magnitude hq) (arange 5100 6061 60);
      Contour lon lat (arr_scale 100000 (magnitude aq)) (arange (-9) 50 5);
      Contourf lon lat (magnitude wq)
        (List.filter (fun x => negb (Qeq_bool x 0)) (arange (-30) 31 5));
      Barbs lon lat (magnitude uq) (magnitude vq) ] /\
  fig_titles (fig s')
  = <["right" := "VALID: " +:+ str_datetime d]>
      (<["left" := "500-hPa Heights (m), AVOR$*10^5$ ($s^{-1}$), AVOR Adv$*10^8$ ($s^{-2}$)"]>
         (fig_titles (fig s))) /\
  fig_decor (fig s')
  = fig_decor (fig s) ++
    ["set_extent"; "coastlines"; "add_feature"; "clabel"; "clabel"; "set_label"].
Proof.
  intros Hds Hvt Hlon Hlat Hh Ha Hw Hu Hv Hm.
  match goal with |- ?G => set (P := G) end.
  unfold map_cell in Hm.
  do 24 (inv_step Hm).
  cbn [run] in Hm. injection Hm as <-.
  repeat match goal with u : () |- _ => destruct u end.
  subst P. split.
  { match goal with
    | Hp : ds !! "LambertConformal_Projection" = Some ?vp |- _ => exists vp
    end.
    do 4 (split; [first [assumption | reflexivity]|]). assumption. }
  split.
  { repeat (apply List.Forall_cons; [assumption|]). apply List.Forall_nil. }
  cbn [fig fig_layers fig_titles fig_decor bind_name draw decorate set_title].
  rewrite <- !app_assoc.
  split; [reflexivity|]. split; reflexivity.
Qed.


(** A completed run of the vorticity notebook, read backwards. *)
Lemma vorticity_run_inv (s0 s' : state) :
  run (notebook R) s0 = Ok s' ->
  exists ds vlon vlat lon lat vt tc lev viso levels vh vu vv gh gu gv h0 u0 v0,
    requested R = Ok ds /\
    (ds !! "lon" = Some vlon /\ nc_data vlon = Grid2D lon) /\
    (ds !! "lat" = Some vlat /\ nc_data vlat = Grid2D lat) /\
    (ds !! hght_name = Some vh /\ nc_data vh = Grid4D gh) /\
    (ds !! uwnd_name = Some vu /\ nc_data vu = Grid4D gu) /\
    (ds !! vwnd_name = Some vv /\ nc_data vv = Grid4D gv) /\
    (exists tdim, getitem (nc_dimensions vh) 0 = Ok tdim /\ ds !! tdim = Some vt) /\
    nc_data vt = Coord1D tc /\
    (ds !! "isobaric" = Some viso /\ nc_data viso = Coord1D levels) /\
    find_level levels 500 = Ok lev /\
    getitem2 gh 0 lev = Ok h0 /\
    getitem2 gu 0 lev = Ok u0 /\
    getitem2 gv 0 lev = Ok v0 /\
    let d := lat_lon_grid_deltas lon lat in
    let avor :=
      gaussian_filter 3
        (arr_add (magnitude (vorticity (tag units_m_s u0) (tag units_m_s v0)
                               (fst d) (snd d)))
                 (magnitude (coriolis_parameter (deg2rad lat)))) in
    let adv :=
      advection (tag units_per_s avor) [tag units_m_s u0; tag units_m_s v0] d in
    fig_layers (fig s')
    = fig_layers (fig s0) ++
      [ Contour lon lat (gaussian_filter 3 h0) (arange 5100 6061 60);
        Contour lon lat (arr_scale 100000 avor) (arange (-9) 50 5);
        Contourf lon lat (arr_scale 1000000000 (magnitude adv))
          (List.filter (fun x => negb (Qeq_bool x 0)) (arange (-30) 31 5));
        Barbs lon lat u0 v0 ] /\
    fig_titles (fig s')
    = <["right" := "VALID: " +:+ str_datetime (num2date tc (nc_units vt))]>
        (<["left" := "500-hPa Heights (m), AVOR$*10^5$ ($s^{-1}$), AVOR Adv$*10^8$ ($s^{-2}$)"]>
           (fig_titles (fig s0))) /\
    fig_decor (fig s')
    = fig_decor (fig s0) ++
      ["set_extent"; "coastlines"; "add_feature"; "clabel"; "clabel"; "set_label"].
Proof.
  intros H. unfold notebook in H.
  apply run_app_Ok in H as (s2 & Ha & H).
  apply run_app_Ok in H as (s3 & Hc & Hm).
  destruct (acquisition_inv s0 s2 Ha)
    as (ds & vlon & vlat & lon & lat & vt & tc & lev & viso & levels & vh & vu & vv
        & gh & gu & gv & h0 & u0 & v0
        & Hreq & Hvlon & Hvlat & Hvh & Hvu & Hvv & Htd & Htc & Hiso & Hlev
        & Hh0 & Hu0 & Hv0 & Hds & Hlon & Hlat & Hvt & Hh & Hu & Hv & Hfig).
  rewrite (calculation_cell_spec s2 lon lat u0 v0 Hlon Hlat Hu Hv) in Hc.
  injection Hc as Hc.
  destruct (map_cell_inv s3 s' ds (num2date tc (nc_units vt)) lon lat
              (Quantity (gaussian_filter 3 h0) units_meter)
              (tag units_per_s
                 (gaussian_filter 3
                    (arr_add
                       (magnitude (vorticity (tag units_m_s u0) (tag units_m_s v0)
                                     (fst (lat_lon_grid_deltas lon lat))
                                     (snd (lat_lon_grid_deltas lon lat))))
                       (magnitude (coriolis_parameter (deg2rad lat))))))
              (qscale arr_scale 1000000000
                 (advection
                    (tag units_per_s
                       (gaussian_filter 3
                          (arr_add
                             (magnitude (vorticity (tag units_m_s u0) (tag units_m_s v0)
                                           (fst (lat_lon_grid_deltas lon lat))
                                           (snd (lat_lon_grid_deltas lon lat))))
                             (magnitude (coriolis_parameter (deg2rad lat))))))
                    [tag units_m_s u0; tag units_m_s v0]
                    (fst (lat_lon_grid_deltas lon lat), snd (lat_lon_grid_deltas lon lat))))
              (tag units_m_s u0) (tag units_m_s v0))
    as (_ & _ & Hlayers & Htitles & Hdecor);
    try (rewrite <- Hc; read_names; reflexivity); [exact Hm|].
  exists ds, vlon, vlat, lon, lat, vt, tc, lev, viso, levels, vh, vu, vv,
    gh, gu, gv, h0, u0, v0.
  do 13 (split; [assumption|]). cbn zeta.
  rewrite Hlayers, Htitles, Hdecor, <- Hc. cbn [fig bind_name]. rewrite Hfig.
  cbn [magnitude qscale tag]. destruct (lat_lon_grid_deltas lon lat).
  repeat split; reflexivity.
Qed.

(** X5.  A run of the vorticity notebook that reaches its end has made the
    three requests of the acquisition cell and has read the longitudes,
    the latitudes, the time variable named by the first dimension of the
    height variable, the coordinate [isobaric] and the three 4-D
    variables from the response.  Its figure has gained exactly four data
    layers, in this order: the contours of the height slice smoothed with
    sigma 3, the contours of the smoothed absolute vorticity times 1e5,
    the filled contours of the advection times 1e9 on the levels without
    zero, and the barbs of the unsmoothed winds, all at time index 0 and
    at the index the search of [isobaric] for 500 returned.  The two
    titles are set, the right one from the decoded time, and the extent,
    the coastlines, the state borders, two sets of contour labels and the
    colour-bar label have been added, in that order.  MetPy's results
    carry the units it documents.  Whether a run reaches its end depends
    on the archive and on the plotting libraries. *)
Theorem vorticity_completed_run_draws (s0 s' : state) :
  run (notebook R) s0 = Ok s' ->
  exists ds vlon vlat lon lat vt tc lev viso levels vh vu vv gh gu gv h0 u0 v0,
    requested R = Ok ds /\
    (ds !! "lon" = Some vlon /\ nc_data vlon = Grid2D lon) /\
    (ds !! "lat" = Some vlat /\ nc_data vlat = Grid2D lat) /\
    (ds !! hght_name = Some vh /\ nc_data vh = Grid4D gh) /\
    (ds !! uwnd_name = Some vu /\ nc_data vu = Grid4D gu) /\
    (ds !! vwnd_name = Some vv /\ nc_data vv = Grid4D gv) /\
    (exists tdim, getitem (nc_dimensions vh) 0 = Ok tdim /\ ds !! tdim = Some vt) /\
    nc_data vt = Coord1D tc /\
    (ds !! "isobaric" = Some viso /\ nc_data viso = Coord1D levels) /\
    find_level levels 500 = Ok lev /\
    getitem2 gh 0 lev = Ok h0 /\
    getitem2 gu 0 lev = Ok u0 /\
    getitem2 gv 0 lev = Ok v0 /\
    let d := lat_lon_grid_deltas lon lat in
    let avor :=
      gaussian_filter 3
        (arr_add (magnitude (vorticity (tag units_m_s u0) (tag units_m_s v0)
                               (fst d) (snd d)))
                 (magnitude (coriolis_parameter (deg2rad lat)))) in
    let adv :=
      advection (tag units_per_s avor) [tag units_m_s u0; tag units_m_s v0] d in
    fig_layers (fig s')
    = fig_layers (fig s0) ++
      [ Contour lon lat (gaussian_filter 3 h0) (arange 5100 6061 60);
        Contour lon lat (arr_scale 100000 avor) (arange (-9) 50 5);
        Contourf lon lat (arr_scale 1000000000 (magnitude adv))
          (List.filter (fun x => negb (Qeq_bool x 0)) (arange (-30) 31 5));
        Barbs lon lat u0 v0 ] /\
    fig_titles (fig s')
    = <["right" := "VALID: " +:+ str_datetime (num2date tc (nc_units vt))]>
        (<["left" := "500-hPa Heights (m), AVOR$*10^5$ ($s^{-1}$), AVOR Adv$*10^8$ ($s^{-2}$)"]>
           (fig_titles (fig s0))) /\
    fig_decor (fig s')
    = fig_decor (fig s0) ++
      ["set_extent"; "coastlines"; "add_feature"; "clabel"; "clabel"; "set_label"].
Proof. apply vorticity_run_inv. Qed.

(** X18.  A run of the vorticity notebook that reaches its end has drawn
    the height contours of one slice of the response to the three
    requests: the slice at time index 0 and at the first index at which
    the coordinate [isobaric] equals 500, smoothed with sigma 3.  When
    the height variable is stored on the vertical dimension [isobaric],
    this is the slice stored at the first time step and at the level 500.
    The code does not consult the dimensions of the variable for the
    level, so for a variable on another vertical coordinate the slice at
    that index is drawn, whatever level it is stored at. *)
Theorem vorticity_completed_run_shows_500 (s0 s' : state) :
  run (notebook R) s0 = Ok s' ->
  exists ds viso levels lev x vh gh h0 lon lat rest,
    requested R = Ok ds /\
    ds !! "isobaric" = Some viso /\ nc_data viso = Coord1D levels /\
    levels !! lev = Some x /\ x == 500 /\
    (forall j y, (j < lev)%nat -> levels !! j = Some y -> ~ y == 500) /\
    ds !! hght_name = Some vh /\ nc_data vh = Grid4D gh /\
    getitem2 gh 0 lev = Ok h0 /\
    fig_layers (fig s')
    = fig_layers (fig s0) ++
      Contour lon lat (gaussian_filter 3 h0) (arange 5100 6061 60) :: rest /\
    (forall tc lv g t,
        nc_axes ds hght_name = Some ("isobaric", tc, lv, g) ->
        tc !! 0%nat = Some t ->
        stored_at_offset tc lv g t 500 h0).
Proof.
  intros H.
  destruct (vorticity_run_inv s0 s' H)
    as (ds & vlon & vlat & lon & lat & vt & tc & lev & viso & levels & vh & vu & vv
        & gh & gu & gv & h0 & u0 & v0
        & Hreq & _ & _ & [Hvh Hgh] & _ & _ & _ & _ & [Hiso Hlevels] & Hlev
        & Hh0 & _ & _ & Hlayers & _).
  destruct (find_level_Ok_inv levels lev Hlev) as (x & Hx & Hx500 & Hmin).
  exists ds, viso, levels, lev, x, vh, gh, h0, lon, lat. eexists.
  do 9 (split; [assumption|]). split; [exact Hlayers|].
  intros tc' lv g t Hax Ht.
  destruct (nc_axes_inv ds hght_name _ tc' lv g Hax)
    as (v & tdim & dims & vt' & vl & Hv & _ & Hdv & _ & _ & Hvl & Hdl).
  rewrite Hvh in Hv. injection Hv as <-.
  rewrite Hgh in Hdv. injection Hdv as <-.
  rewrite Hiso in Hvl. injection Hvl as <-.
  rewrite Hlevels in Hdl. injection Hdl as <-.
  unfold getitem2, getitem in Hh0.
  destruct (gh !! 0%nat) as [row|] eqn:Hrow;
    cbn [of_option mbind result_bind] in Hh0; [|discriminate].
  destruct (row !! lev) as [h|] eqn:Hh; cbn [of_option] in Hh0; [|discriminate].
  injection Hh0 as ->.
  exists 0%nat, lev, t, x, row.
  split; [exact Ht|]. split; [reflexivity|]. split; [exact Hx|].
  split; [exact Hx500|]. split; [exact Hrow | exact Hh].
Qed.

End VorticityShown.

Lemma vorticity_completed_run_draws_witness :
  exists s',
    Py.run (Vorticity.notebook Provenance.sample_remote) Py.initial = Ok s' /\
    length (Py.fig_layers (Py.fig s')) = 4%nat /\
    Py.fig_decor (Py.fig s')
    = ["set_extent"; "coastlines"; "add_feature"; "clabel"; "clabel"; "set_label"].
Proof.
  assert (Hok : is_ok (Py.run (Vorticity.notebook Provenance.sample_remote) Py.initial)
                = true) by (vm_compute; reflexivity).
  destruct (Py.run (Vorticity.notebook Provenance.sample_remote) Py.initial)
    as [s'|e] eqn:E; [|discriminate Hok].
  destruct (vorticity_completed_run_draws (LL := symbolic_laws)
              Provenance.sample_remote Py.initial s' E)
    as (ds & vlon & vlat & lon & lat & vt & tc & lev & viso & levels & vh & vu & vv
        & gh & gu & gv & h0 & u0 & v0
        & _ & _ & _ & _ & _ & _ & _ & _ & _ & _ & _ & _ & _ & Hlayers & _ & Hdecor).
  exists s'. split; [reflexivity|]. split.
  - cbn zeta in Hlayers. rewrite Hlayers. reflexivity.
  - rewrite Hdecor. reflexivity.
Defined.

Lemma vorticity_completed_run_shows_500_witness :
  exists s' h0 lon lat rest,
    Py.run (Vorticity.notebook Provenance.sample_remote) Py.initial = Ok s' /\
    Py.fig_layers (Py.fig s')
    = Py.Contour lon lat (gaussian_filter 3 h0) (Py.arange 5100 6061 60) :: rest /\
    Select.stored_at_offset [0%Q] Provenance.levels4
      [[Provenance.Src "hght@1000"; Provenance.Src "hght@850";
        Provenance.Src "hght@500"; Provenance.Src "hght@300"]] 0 500 h0.
Proof.
  assert (Hok : is_ok (Py.run (Vorticity.notebook Provenance.sample_remote) Py.initial)
                = true) by (vm_compute; reflexivity).
  destruct (Py.run (Vorticity.notebook Provenance.sample_remote) Py.initial)
    as [s'|e] eqn:E; [|discriminate Hok].
  destruct (vorticity_completed_run_shows_500 (LL := symbolic_laws)
              Provenance.sample_remote Py.initial s' E)
    as (ds & viso & levels & lev & x & vh & gh & h0 & lon & lat & rest & Hreq & _ & _ & _
        & _ & _ & _ & _ & _ & Hlayers & Hstored).
  assert (Hds : Vorticity.requested Provenance.sample_remote = Ok Provenance.sample_nc)
    by reflexivity.
  rewrite Hds in Hreq. injection Hreq as <-.
  exists s', h0, lon, lat, rest. split; [reflexivity|]. split; [exact Hlayers|].
  apply Hstored; reflexivity.
Defined.

Section SelectionInversion.
Import Select.
Context {K : Type} (eqb : K -> K -> bool).

Lemma positions_from_In (k p : nat) (index : list K) (label : K) :
  In p (positions_from eqb k index label) ->
  exists x, (k <= p)%nat /\ index !! (p - k)%nat = Some x /\ eqb x label = true.
Proof.
  revert k. induction index as [|a index IH]; intros k Hin; [destruct Hin|].
  cbn [positions_from] in Hin.
  destruct (eqb a label) eqn:Ea.
  - destruct Hin as [<-|Hin].
    + exists a. rewrite Nat.sub_diag. auto.
    + destruct (IH (S k) Hin) as (x & Hk & Hx & Hl).
      exists x. split; [lia|]. split; [|exact Hl].
      replace (p - k)%nat with (S (p - S k)) by lia. exact Hx.
  - destruct (IH (S k) Hin) as (x & Hk & Hx & Hl).
    exists x. split; [lia|]. split; [|exact Hl].
    replace (p - k)%nat with (S (p - S k)) by lia. exact Hx.
Qed.

Lemma get_loc_int_inv (index : list K) (label : K) (i : nat) :
  get_loc eqb index label = Ok (LocInt i) ->
  exists x, index !! i = Some x /\ eqb x label = true.
Proof.
  unfold get_loc, positions. intros H.
  destruct (positions_from eqb 0 index label) as [|p [|q ps]] eqn:Hp;
    try discriminate.
  injection H as <-.
  destruct (positions_from_In 0 p index label) as (x & _ & Hx & Hl).
  { rewrite Hp. now left. }
  rewrite Nat.sub_0_r in Hx. eauto.
Qed.

End SelectionInversion.

Section SelectionInversion2.
Import Select.
Context {A : Type}.
Local Open Scope Q_scope.

(** A selection that returns a 2-D slice returns what is stored under
    the two labels. *)
Lemma sel_2d_stored (da : data_array A) (t : Z) (level : Q) (s : A) :
  sel_time1_isobaric da t level = Ok (Sel2D s) ->
  stored_at (da_time da) (da_level da) (da_values da) t level s.
Proof.
  unfold sel_time1_isobaric. intros H.
  destruct (da_dims da) as [|d0 [|d1 ds]]; try discriminate.
  destruct (String.eqb d0 "time1" && String.eqb d1 "isobaric")%bool; [|discriminate].
  destruct (get_loc Z.eqb (da_time da) t) as [lt|] eqn:Ht;
    cbn [mbind result_bind] in H; [|discriminate].
  destruct (get_loc Qeq_bool (da_level da) level) as [ll|] eqn:Hl;
    cbn [mbind result_bind] in H; [|discriminate].
  destruct lt as [i|ks], ll as [j|js];
    try (destruct (take_at _ (da_values da)) as [rows|];
         cbn [mbind result_bind] in H; [|discriminate];
         destruct (take_each_at _ rows); cbn [mbind result_bind] in H; discriminate).
  destruct (getitem2 (da_values da) i j) as [s1|] eqn:Hs;
    cbn [mbind result_bind] in H; [|discriminate].
  injection H as ->.
  destruct (get_loc_int_inv Z.eqb _ _ _ Ht) as (x & Hx & Ex).
  destruct (get_loc_int_inv Qeq_bool _ _ _ Hl) as (y & Hy & Ey).
  apply Z.eqb_eq in Ex. subst x. apply Qeq_bool_iff in Ey.
  unfold getitem2, getitem in Hs.
  destruct (da_values da !! i) as [row|] eqn:Hrow;
    cbn [of_option mbind result_bind] in Hs; [|discriminate].
  destruct (row !! j) as [s2|] eqn:Hs2; cbn [of_option] in Hs; [|discriminate].
  injection Hs as ->.
  exists i, j, y, row. auto.
Qed.

End SelectionInversion2.

Section XarrayShown.
Import Pint Select Py Xarray.
Context {L : CalcLib} (R : remote).
Local Open Scope Q_scope.

(** A completed run of the xarray notebook, read backwards. *)
Lemma xarray_run_inv (s0 s' : state) :
  run (notebook R) s0 = Ok s' ->
  exists d t0 rest xs ys dah dau dav h0 u0 v0,
    open_dataset R (Acquire.opendap_url Acquire.dt0) = Ok d /\
    xr_times d !! "time" = Some (t0 :: rest) /\
    xr_coords d !! "x" = Some xs /\ xr_coords d !! "y" = Some ys /\
    xr_vars d !! Vorticity.hght_name = Some dah /\
    xr_vars d !! Vorticity.uwnd_name = Some dau /\
    xr_vars d !! Vorticity.vwnd_name = Some dav /\
    sel_time1_isobaric dah (timestamp_ns (utcfromtimestamp t0)) 500 = Ok (Sel2D h0) /\
    sel_time1_isobaric dau (timestamp_ns (utcfromtimestamp t0)) 500 = Ok (Sel2D u0) /\
    sel_time1_isobaric dav (timestamp_ns (utcfromtimestamp t0)) 500 = Ok (Sel2D v0) /\
    lookup_name "hght_500" s' = Ok (VSel (Sel2D h0)) /\
    let m := meshgrid (map (fun v => v * 1000) xs) (map (fun v => v * 1000) ys) in
    fig_layers (fig s')
    = fig_layers (fig s0) ++
      [ Contour (fst m) (snd m) (gaussian_filter 5 h0) (arange 5100 6000 60);
        Barbs (fst m) (snd m) u0 v0 ] /\
    fig_titles (fig s')
    = <["right" := "VALID: " +:+ str_datetime (utcfromtimestamp t0)]>
        (<["left" := "500-hPa Geopotential Heights (m)"]> (fig_titles (fig s0))) /\
    fig_decor (fig s')
    = fig_decor (fig s0) ++ ["coastlines"; "add_feature"; "set_extent"; "clabel"].
Proof.
  intros H. unfold notebook in H. rewrite app_assoc in H.
  apply run_app_Ok in H as (s1 & Ha & H).
  apply run_app_Ok in H as (s2 & Ht & H).
  apply run_app_Ok in H as (s3 & Hs & Hm).
  match goal with |- ?G => set (P := G) end.
  unfold access_cell, mesh_cell in Ha. cbn [app] in Ha.
  do 4 (inv_step_by exec_xarray Ha).
  cbn [run] in Ha. injection Ha as Ha.
  match goal with
  | Hopen : open_dataset R _ = Ok ?d |- _ =>
      assert (Hd1 : lookup_name "data" s1 = Ok (VXr d))
        by (rewrite <- Ha; read_names; reflexivity);
      change (Acquire.opendap_url_from Acquire.opendap_base_url Acquire.dt0)
        with (Acquire.opendap_url Acquire.dt0) in Hopen;
      rename d into d0
  end.
  match goal with
  | Hx : xr_coords d0 !! "x" = Some ?a, Hy : xr_coords d0 !! "y" = Some ?b |- _ =>
      rename a into xs; rename b into ys
  end.
  assert (Hfig1 : fig s1 = fig s0) by (rewrite <- Ha; reflexivity).
  assert (Hx1 : lookup_name "x" s1
                = Ok (VArr (fst (meshgrid (map (fun v => v * 1000) xs)
                                          (map (fun v => v * 1000) ys)))))
    by (rewrite <- Ha; read_names; reflexivity).
  assert (Hy1 : lookup_name "y" s1
                = Ok (VArr (snd (meshgrid (map (fun v => v * 1000) xs)
                                          (map (fun v => v * 1000) ys)))))
    by (rewrite <- Ha; read_names; reflexivity).
  clear Ha.
  destruct (times_cell_binds d0 s1 s2 Hd1 Ht)
    as (tm & Htm & Hd2 & Hl2 & Hfig2 & Hframe2).
  assert (Hx2 := Hframe2 "x" ltac:(discriminate) ltac:(discriminate)).
  assert (Hy2 := Hframe2 "y" ltac:(discriminate) ltac:(discriminate)).
  rewrite Hx1 in Hx2. rewrite Hy1 in Hy2.
  clear Ht Hframe2 Hx1 Hy1 Hd1.
  destruct tm as [|t0 rest]; cbn [map] in Hl2.
  { exfalso. unfold selection_cell in Hs. inv_step_by exec_xarray Hs. }
  unfold selection_cell in Hs.
  do 3 (inv_step_by exec_xarray Hs).
  cbn [run] in Hs. injection Hs as <-.
  unfold map_cell in Hm.
  do 10 (inv_step_by exec_xarray Hm).
  apply run_cons_Ok in Hm as (s7 & H7 & Hm).
  unfold s_label_boxes in H7. revert H7. read_names.
  destruct (0 <? label_count _ _)%nat; intros H7; injection H7 as <-;
    do 3 (inv_step_by exec_xarray Hm);
    cbn [run] in Hm; injection Hm as <-; subst P;
    match goal with
    | Hh : sel_time1_isobaric ?dah _ 500 = Ok (Sel2D ?h0),
      Hdh : xr_vars d0 !! Vorticity.hght_name = Some ?dah,
      Hu : sel_time1_isobaric ?dau _ 500 = Ok (Sel2D ?u0),
      Hdu : xr_vars d0 !! Vorticity.uwnd_name = Some ?dau,
      Hv : sel_time1_isobaric ?dav _ 500 = Ok (Sel2D ?v0),
      Hdv : xr_vars d0 !! Vorticity.vwnd_name = Some ?dav |- _ =>
        exists d0, t0, rest, xs, ys, dah, dau, dav, h0, u0, v0
    end;
    (do 10 (split; [assumption|]));
    (split; [read_names; reflexivity|]);
    cbn zeta;
    cbn [fig fig_layers fig_titles fig_decor bind_name draw decorate set_title];
    rewrite Hfig2, Hfig1; rewrite <- !app_assoc; repeat split; reflexivity.
Qed.

(** X6.  A run of the xarray notebook that reaches its end has opened the
    dataset at the OPeNDAP address and has drawn exactly two data layers,
    in this order: the contours of the height slice smoothed with sigma 5
    on the levels [arange(5100, 6000, 60)], and the barbs of the two wind
    slices.  The three slices are the 2-D results of selecting the label
    of [vtimes[0]] and the level 500, and they are drawn over the mesh of
    the projection coordinates scaled to metres.  The two titles are set,
    the right one from [vtimes[0]], and the coastlines, the state borders,
    the extent and the contour labels have been added, in that order.
    Whether a run reaches its end depends on the archive and on the
    plotting libraries. *)
Theorem xarray_completed_run_draws (s0 s' : state) :
  run (notebook R) s0 = Ok s' ->
  exists d t0 rest xs ys dah dau dav h0 u0 v0,
    open_dataset R (Acquire.opendap_url Acquire.dt0) = Ok d /\
    xr_times d !! "time" = Some (t0 :: rest) /\
    xr_coords d !! "x" = Some xs /\ xr_coords d !! "y" = Some ys /\
    xr_vars d !! Vorticity.hght_name = Some dah /\
    xr_vars d !! Vorticity.uwnd_name = Some dau /\
    xr_vars d !! Vorticity.vwnd_name = Some dav /\
    sel_time1_isobaric dah (timestamp_ns (utcfromtimestamp t0)) 500 = Ok (Sel2D h0) /\
    sel_time1_isobaric dau (timestamp_ns (utcfromtimestamp t0)) 500 = Ok (Sel2D u0) /\
    sel_time1_isobaric dav (timestamp_ns (utcfromtimestamp t0)) 500 = Ok (Sel2D v0) /\
    let m := meshgrid (map (fun v => v * 1000) xs) (map (fun v => v * 1000) ys) in
    fig_layers (fig s')
    = fig_layers (fig s0) ++
      [ Contour (fst m) (snd m) (gaussian_filter 5 h0) (arange 5100 6000 60);
        Barbs (fst m) (snd m) u0 v0 ] /\
    fig_titles (fig s')
    = <["right" := "VALID: " +:+ str_datetime (utcfromtimestamp t0)]>
        (<["left" := "500-hPa Geopotential Heights (m)"]> (fig_titles (fig s0))) /\
    fig_decor (fig s')
    = fig_decor (fig s0) ++ ["coastlines"; "add_feature"; "set_extent"; "clabel"].
Proof.
  intros H.
  destruct (xarray_run_inv s0 s' H)
    as (d & t0 & rest & xs & ys & dah & dau & dav & h0 & u0 & v0
        & H1 & H2 & H3 & H4 & H5 & H6 & H7 & H8 & H9 & H10 & _ & H12).
  exists d, t0, rest, xs, ys, dah, dau, dav, h0, u0, v0.
  do 10 (split; [assumption|]). exact H12.
Qed.

(** X19.  A run of the xarray notebook that reaches its end has shown the
    500-hPa level at the first valid time and nothing else: the dataset
    was opened, its coordinate [time] is not empty, and the height
    contours drawn are those of the 2-D slice the height variable stores
    under the label of the first valid time and under a level equal to
    500, smoothed with sigma 5; the name [hght_500] holds that slice,
    unsmoothed. *)
Theorem xarray_completed_run_shows_500 (s0 s' : state) :
  run (notebook R) s0 = Ok s' ->
  exists d t0 rest da h0 x y more,
    open_dataset R (Acquire.opendap_url Acquire.dt0) = Ok d /\
    xr_times d !! "time" = Some (t0 :: rest) /\
    xr_vars d !! Vorticity.hght_name = Some da /\
    stored_at (da_time da) (da_level da) (da_values da)
      (timestamp_ns (utcfromtimestamp t0)) 500 h0 /\
    lookup_name "hght_500" s' = Ok (VSel (Sel2D h0)) /\
    fig_layers (fig s')
    = fig_layers (fig s0) ++
      Contour x y (gaussian_filter 5 h0) (arange 5100 6000 60) :: more.
Proof.
  intros H.
  destruct (xarray_run_inv s0 s' H)
    as (d & t0 & rest & xs & ys & dah & dau & dav & h0 & u0 & v0
        & Hopen & Htm & _ & _ & Hdah & _ & _ & Hsel & _ & _ & Hh & Hlayers & _).
  cbn zeta in Hlayers.
  exists d, t0, rest, dah, h0. do 3 eexists.
  split; [exact Hopen|]. split; [exact Htm|]. split; [exact Hdah|].
  split; [exact (sel_2d_stored dah _ 500 h0 Hsel)|].
  split; [exact Hh | exact Hlayers].
Qed.

End XarrayShown.

Lemma xarray_completed_run_draws_witness :
  exists s',
    Py.run (Xarray.notebook Provenance.sample_remote) Py.initial = Ok s' /\
    length (Py.fig_layers (Py.fig s')) = 2%nat /\
    Py.fig_decor (Py.fig s') = ["coastlines"; "add_feature"; "set_extent"; "clabel"].
Proof.
  assert (Hok : is_ok (Py.run (Xarray.notebook Provenance.sample_remote) Py.initial)
                = true) by (vm_compute; reflexivity).
  destruct (Py.run (Xarray.notebook Provenance.sample_remote) Py.initial)
    as [s'|e] eqn:E; [|discriminate Hok].
  destruct (xarray_completed_run_draws Provenance.sample_remote Py.initial s' E)
    as (d & t0 & rest & xs & ys & dah & dau & dav & h0 & u0 & v0
        & _ & _ & _ & _ & _ & _ & _ & _ & _ & _ & Hlayers & _ & Hdecor).
  exists s'. split; [reflexivity|]. split.
  - cbn zeta in Hlayers. rewrite Hlayers. reflexivity.
  - rewrite Hdecor. reflexivity.
Defined.

Lemma xarray_completed_run_shows_500_witness :
  exists s' h0 x y more,
    Py.run (Xarray.notebook Provenance.sample_remote) Py.initial = Ok s' /\
    Py.fig_layers (Py.fig s')
    = Py.Contour x y (gaussian_filter 5 h0) (Py.arange 5100 6000 60) :: more.
Proof.
  assert (Hok : is_ok (Py.run (Xarray.notebook Provenance.sample_remote) Py.initial)
                = true) by (vm_compute; reflexivity).
  destruct (Py.run (Xarray.notebook Provenance.sample_remote) Py.initial)
    as [s'|e] eqn:E; [|discriminate Hok].
  destruct (xarray_completed_run_shows_500 Provenance.sample_remote Py.initial s' E)
    as (d & t0 & rest & da & h0 & x & y & more & _ & _ & _ & _ & _ & Hlayers).
  exists s', h0, x, y, more. split; [reflexivity | exact Hlayers].
Defined.
